(** * covid19_inference.data_retrieval: the JHU and RKI adapters

    A shallow embedding of [src/covid19_inference/data_retrieval.py].
    Python values are given the types the module uses them at, exceptions
    are the [Raised] results of an error monad, and the pandas operations
    the module calls are small list programs over date-labelled or
    region-labelled columns of counts.  A count is an int64 or, where
    pandas needs room for NaN, a float64: sums wrap around or round the
    way the two dtypes do. *)

From Stdlib Require Import ZArith List String Bool Lia Sorted OrderedTypeEx.
From Equations Require Import Equations.
Import ListNotations.

Local Open Scope Z_scope.
Local Open Scope list_scope.

(** ** Python values and exceptions *)

Module Py.

(** The exceptions the module raises itself or lets through from pandas,
    urllib and the interpreter. *)
Inductive exn : Type :=
| ValueError (msg : string)
| KeyError
| IndexError
| TypeError
| AttributeError
| UnboundLocalError
| URLError
| OSError
| UnsortedIndexError.

Inductive outcome (A : Type) : Type :=
| Returned (a : A)
| Raised (e : exn).

Arguments Returned {A} a.
Arguments Raised {A} e.

Definition bind {A B : Type} (m : outcome A) (k : A -> outcome B) : outcome B :=
  match m with
  | Returned a => k a
  | Raised e => Raised e
  end.

Definition fmap {A B : Type} (f : A -> B) (m : outcome A) : outcome B :=
  bind m (fun a => Returned (f a)).

(** What a caller can pass as [begin_date] or [end_date], and what
    [df.index[0]] can hand back: a [datetime.datetime] (a pandas Timestamp
    is one), a (country, state) tuple of a column MultiIndex, where the
    state is [None] for the NaN of a country without provinces, or a
    string.  Python's [None] is the [None] of [option value]. *)
Inductive value : Type :=
| VDatetime (t : Z)
| VTuple (country : string) (state : option string)
| VStr (s : string).

(** [isinstance(v, datetime.datetime)] *)
Definition isinstance_datetime (v : value) : bool :=
  match v with
  | VDatetime _ => true
  | _ => false
  end.

End Py.

Export Py.

Declare Scope py_scope.
Delimit Scope py_scope with py.
Notation "x <- m ;; k" := (bind m (fun x => k))
  (at level 100, m at next level, right associativity) : py_scope.
Notation "' p <- m ;; k" := (bind m (fun x => match x with p => k end))
  (at level 100, p pattern, m at next level, right associativity) : py_scope.
Local Open Scope py_scope.

(** ** The numbers of numpy *)

(** An int64 as the integer it stands for, between [min] and [max];
    arithmetic wraps around in two's complement. *)
Module Int64.

Definition min : Z := - 2 ^ 63.
Definition max : Z := 2 ^ 63 - 1.

Definition in_range (z : Z) : Prop := min <= z <= max.
Definition in_rangeb (z : Z) : bool := (min <=? z) && (z <=? max).

Definition wrap (z : Z) : Z := (z + 2 ^ 63) mod 2 ^ 64 - 2 ^ 63.

Definition add (a b : Z) : Z := wrap (a + b).
Definition sub (a b : Z) : Z := wrap (a - b).

(** The sum of an int64 column. *)
Definition sum (l : list Z) : Z := fold_right add 0 l.

End Int64.

(** A float64 that holds a whole number, as that number.  Up to [exact]
    in magnitude every whole number is a float64; beyond, a float64 keeps
    53 binary digits and a result is rounded to the nearest one, to the
    even one of two that are equally near.  The sums of this module stay
    whole numbers, far below the largest float64. *)
Module Float64.

Definition exact : Z := 2 ^ 53.

Definition round (z : Z) : Z :=
  let m := Z.abs z in
  let e := Z.log2 m - 52 in
  if e <=? 0 then z
  else
    let q := m / 2 ^ e in
    let r := m mod 2 ^ e in
    let half := 2 ^ (e - 1) in
    let q' := if (half <? r) || ((r =? half) && Z.odd q) then q + 1 else q in
    Z.sgn z * (q' * 2 ^ e).

Definition add (a b : Z) : Z := round (a + b).

(** The conversion of an int64 to float64. *)
Definition of_int64 (z : Z) : Z := round z.

End Float64.

(** ** The pandas operations the module calls *)

Module Pandas.

(** A region key: country and state for JHU. *)
Definition region : Type := (string * option string)%type.

Definition option_eqb (a b : option string) : bool :=
  match a, b with
  | None, None => true
  | Some x, Some y => String.eqb x y
  | _, _ => false
  end.

Definition region_eqb (a b : region) : bool :=
  String.eqb (fst a) (fst b) && option_eqb (snd a) (snd b).

(** Which end of a slice a bound is. *)
Inductive side : Type := Left | Right.

(** The part of pandas and numpy this development does not fix: how a
    string bound of a slice is turned into a timestamp (date-like strings
    are parsed at the resolution they are written in, anything else is
    rejected), what a label slice does on a date index that is not in
    ascending order, and what it does on a (country, state) MultiIndex;
    what [df.loc[...]] selects when a region name is looked up among the
    rows of a table, which are dates (a name pandas reads as a date or a
    period selects rows, any other name is a KeyError):
    [loc_region index columns country state] is the one-column frame
    [get_recovered] holds after its assignment, labelled by dates or by
    regions; and what [astype(int)] makes of a float64 outside the range of
    int64, which C leaves undefined and processors answer differently. *)
Class Indexing : Type := {
  cast_slice_bound : side -> string -> option Z;
  unsorted_slice : forall A : Type, list (Z * A) -> value -> value -> outcome (list (Z * A));
  multiindex_slice : list (region * Z) -> value -> value -> outcome (list (region * Z));
  loc_region : list Z -> list (region * list Z) -> string -> option string
               -> outcome (list (Z * Z) + list (region * Z));
  astype_overflow : Z -> Z
}.

(** The two dtypes a column of counts can have. *)
Inductive dtype : Type := int64 | float64.

Definition cast (t : dtype) (v : Z) : Z :=
  match t with
  | int64 => v
  | float64 => Float64.of_int64 v
  end.

Definition add_of (t : dtype) : Z -> Z -> Z :=
  match t with
  | int64 => Int64.add
  | float64 => Float64.add
  end.

Section Labelled.

Context {L A : Type}.
Variable eqb : L -> L -> bool.

(** [df.drop(label)]: every row carrying the label goes; KeyError when
    there is none. *)
Definition drop (label : L) (df : list (L * A)) : outcome (list (L * A)) :=
  if existsb (fun r => eqb label (fst r)) df
  then Returned (filter (fun r => negb (eqb label (fst r))) df)
  else Raised KeyError.

(** [df.index[0]] and [df.index[-1]] *)
Definition index_first (df : list (L * A)) : outcome L :=
  match df with
  | [] => Raised IndexError
  | r :: _ => Returned (fst r)
  end.

Definition index_last (df : list (L * A)) : outcome L :=
  match rev df with
  | [] => Raised IndexError
  | r :: _ => Returned (fst r)
  end.

End Labelled.

Section Differences.

Context `{Indexing} {L : Type}.

(** [df.diff()] of an int64 column: the result is float64, to hold the NaN
    of the first row, which has no predecessor; each difference is taken
    in int64 and stored as a float64. *)
Fixpoint diff_from (prev : Z) (df : list (L * Z)) : list (L * option Z) :=
  match df with
  | [] => []
  | (l, v) :: rest => (l, Some (Float64.of_int64 (Int64.sub v prev))) :: diff_from v rest
  end.

Definition diff (df : list (L * Z)) : list (L * option Z) :=
  match df with
  | [] => []
  | (l, v) :: rest => (l, None) :: diff_from v rest
  end.

(** [df.astype(int)] of a float64 column: a whole number within the range
    of int64 is kept, NaN has no integer value. *)
Definition to_int64 (v : Z) : Z :=
  if Int64.in_rangeb v then v else astype_overflow v.

Fixpoint astype_int (df : list (L * option Z)) : outcome (list (L * Z)) :=
  match df with
  | [] => Returned []
  | (l, Some v) :: rest => rest' <- astype_int rest ;; Returned ((l, to_int64 v) :: rest')
  | (_, None) :: _ => Raised (ValueError "Cannot convert non-finite values (NA or inf) to integer")
  end.

End Differences.

Section Sums.

(** The addition of the dtype of the column, [Int64.add] or
    [Float64.add]: pandas sums and accumulates an int64 column in int64,
    without a check for overflow. *)
Variable add : Z -> Z -> Z.

(** [series.cumsum()] *)
Fixpoint cumsum_from {L : Type} (acc : Z) (s : list (L * Z)) : list (L * Z) :=
  match s with
  | [] => []
  | (l, v) :: rest => (l, add acc v) :: cumsum_from (add acc v) rest
  end.

Definition cumsum {L : Type} (s : list (L * Z)) : list (L * Z) := cumsum_from 0 s.

(** [df.groupby(key)[column].sum()]: one row per key, keys in ascending
    order, the column summed within each key. *)
Fixpoint add_to_group (k v : Z) (groups : list (Z * Z)) : list (Z * Z) :=
  match groups with
  | [] => [(k, v)]
  | (k', v') :: rest =>
      if k <? k' then (k, v) :: groups
      else if k =? k' then (k', add v' v) :: rest
      else (k', v') :: add_to_group k v rest
  end.

Definition groupby_sum (rows : list (Z * Z)) : list (Z * Z) :=
  fold_left (fun groups r => add_to_group (fst r) (snd r) groups) rows [].

End Sums.

(** [index.is_monotonic_increasing] *)
Fixpoint ascendingb (idx : list Z) : bool :=
  match idx with
  | [] => true
  | a :: rest =>
      match rest with
      | [] => true
      | b :: _ => (a <=? b) && ascendingb rest
      end
  end.

Section Slicing.

Context `{Indexing}.

(** A slice bound on a DatetimeIndex: a datetime is taken as it is, a
    string goes through pandas' parser, a tuple is no date. *)
Definition cast_bound (sd : side) (v : value) : outcome Z :=
  match v with
  | VDatetime t => Returned t
  | VStr s =>
      match cast_slice_bound sd s with
      | Some t => Returned t
      | None => Raised TypeError
      end
  | VTuple _ _ => Raised TypeError
  end.

Definition between {A : Type} (b e : Z) (df : list (Z * A)) : list (Z * A) :=
  filter (fun r => (b <=? fst r) && (fst r <=? e)) df.

(** [df[begin:end]] on a date index: both ends are kept. *)
Definition slice_dates {A : Type} (df : list (Z * A)) (begin_ end_ : value)
  : outcome (list (Z * A)) :=
  if ascendingb (map fst df) then
    b <- cast_bound Left begin_ ;;
    e <- cast_bound Right end_ ;;
    Returned (between b e df)
  else unsorted_slice A df begin_ end_.

End Slicing.

End Pandas.

Section One_liner.

Context `{Pandas.Indexing}.

(** The one-liner every daily accessor of both adapters ends with,
    [df.diff().drop(df.index[0]).astype(int)]. *)
Definition diff_drop_first {L : Type} (eqb : L -> L -> bool) (df : list (L * Z))
  : outcome (list (L * Z)) :=
  let d := Pandas.diff df in
  first <- Pandas.index_first df ;;
  dropped <- Pandas.drop eqb first d ;;
  Pandas.astype_int dropped.

End One_liner.

(** The texts of the module's own ValueErrors.  Where the Python text
    quotes an option name with a double quote, the string here has a single
    one. *)
Module Msg.
Definition invalid_variable : string :=
    "Invalid variable. Valid options: 'AnzahlFall', 'AnzahlTodesfall', 'AnzahlGenesen'".
Definition invalid_level : string :=
    "Invalid level. Valid options: 'Landkreis', 'Bundesland', None".
Definition invalid_date_type : string :=
    "Invalid date_type. Valid options: 'date', 'date_ref'".
Definition invalid_dates : string :=
    "Invalid begin_date, end_date: has to be datetime.datetime object".
Definition max_tries : string := "Maximum limit of tries exceeded.".
End Msg.

(** The guard on the two ends of a date range, written three times in the
    module: [not isinstance(begin_date, datetime.datetime) and
    isinstance(end_date, datetime.datetime)]. *)
Definition date_guard (begin_date end_date : value) : bool :=
  negb (isinstance_datetime begin_date) && isinstance_datetime end_date.

(** ** RKI: the records and the filter accessors *)

Module RKI.

(** The [attributes] object of one feature of the per-district query. *)
Record attributes : Type := {
  Bundesland : string;
  Landkreis : string;
  Altersgruppe : string;
  Geschlecht : string;
  AnzahlFall : Z;
  AnzahlTodesfall : Z;
  Meldedatum : Z;
  NeuerFall : Z;
  NeuGenesen : Z;
  AnzahlGenesen : Z;
  Refdatum : Z
}.

(** One row of [self.data]: the attributes and the two derived datetime
    columns.  The three count columns are int64, as [pd.DataFrame] and
    [pd.read_csv] make a column of integers that fit. *)
Record row : Type := {
  attrs : attributes;
  date : Z;
  date_ref : Z
}.

Definition table : Type := list row.

(** [df[name]] for the count, date and region columns the filters touch. *)
Definition int_column (name : string) : outcome (row -> Z) :=
  if String.eqb name "AnzahlFall" then Returned (fun r => AnzahlFall (attrs r))
  else if String.eqb name "AnzahlTodesfall" then Returned (fun r => AnzahlTodesfall (attrs r))
  else if String.eqb name "AnzahlGenesen" then Returned (fun r => AnzahlGenesen (attrs r))
  else Raised KeyError.

Definition date_column (name : string) : outcome (row -> Z) :=
  if String.eqb name "date" then Returned date
  else if String.eqb name "date_ref" then Returned date_ref
  else Raised KeyError.

Definition str_column (name : string) : outcome (row -> string) :=
  if String.eqb name "Bundesland" then Returned (fun r => Bundesland (attrs r))
  else if String.eqb name "Landkreis" then Returned (fun r => Landkreis (attrs r))
  else Raised KeyError.

(** [self.data]: the attribute is only annotated in [__init__], reading it
    before a download raises AttributeError. *)
Definition getattr_data (self_data : option table) : outcome table :=
  match self_data with
  | Some df => Returned df
  | None => Raised AttributeError
  end.

(** [df.sort_values(key)] *)
Fixpoint insert_by (key : row -> Z) (r : row) (sorted : list row) : list row :=
  match sorted with
  | [] => [r]
  | x :: rest => if key r <? key x then r :: sorted else x :: insert_by key r rest
  end.

Definition sort_values (key : row -> Z) (df : table) : table :=
  fold_right (insert_by key) [] df.

(** [series.iloc[0]] and [series.iloc[-1]] *)
Definition iloc_first (s : list Z) : outcome value :=
  match s with
  | [] => Raised IndexError
  | t :: _ => Returned (VDatetime t)
  end.

Definition iloc_last (s : list Z) : outcome value :=
  match rev s with
  | [] => Raised IndexError
  | t :: _ => Returned (VDatetime t)
  end.

Definition valid_variables : list string := ["AnzahlFall"; "AnzahlTodesfall"; "AnzahlGenesen"]%string.
Definition valid_levels : list (option string) := [Some "Landkreis"; Some "Bundesland"; None]%string.
Definition valid_date_types : list string := ["date"; "date_ref"]%string.

Definition in_strings (x : string) (l : list string) : bool := existsb (String.eqb x) l.
Definition in_levels (x : option string) (l : list (option string)) : bool :=
  existsb (Pandas.option_eqb x) l.

(** [df[level] == value]: a cell is a string, [value] may be [None]. *)
Definition cell_eqb (cell : string) (value_ : option string) : bool :=
  match value_ with
  | Some v => String.eqb cell v
  | None => false
  end.

Section Accessors.

Context `{Pandas.Indexing}.

Definition default_bound (given : option value) (fallback : outcome value) : outcome value :=
  match given with
  | None => fallback
  | Some v => Returned v
  end.

Definition filter (self_data : option table) (begin_date end_date : option value)
    (variable date_type : string) (level value_ : option string)
  : outcome (list (Z * Z)) :=
  if negb (in_strings variable valid_variables) then Raised (ValueError Msg.invalid_variable)
  else if negb (in_levels level valid_levels) then Raised (ValueError Msg.invalid_level)
  else if negb (in_strings date_type valid_date_types) then Raised (ValueError Msg.invalid_date_type)
  else
    data <- getattr_data self_data ;;
    key <- date_column date_type ;;
    let df := sort_values key data in
    begin_date <- default_bound begin_date (iloc_first (map key df)) ;;
    end_date <- default_bound end_date (iloc_last (map key df)) ;;
    if date_guard begin_date end_date then Raised (ValueError Msg.invalid_dates)
    else
      let df := data in
      df <- match level with
            | Some lv => col <- str_column lv ;;
                         Returned (List.filter (fun r => cell_eqb (col r) value_) df)
            | None => Returned df
            end ;;
      count <- int_column variable ;;
      let df_series :=
        Pandas.cumsum Int64.add
          (Pandas.groupby_sum Int64.add (map (fun r => (key r, count r)) df)) in
      Pandas.slice_dates df_series begin_date end_date.

(** The level and value the three cumulative accessors derive from
    [bundesland] and [landkreis]. *)
Definition selector (bundesland landkreis : option string) : option string * option string :=
  let level := None in
  let value_ := None in
  let '(level, value_) :=
    match bundesland with
    | Some b => (Some "Bundesland"%string, Some b)
    | None => (level, value_)
    end in
  match landkreis with
  | Some l => (Some "Landkreis"%string, Some l)
  | None => (level, value_)
  end.

Definition get_confirmed (self_data : option table) (bundesland landkreis : option string)
    (begin_date end_date : option value) (date_type : string) : outcome (list (Z * Z)) :=
  let '(level, value_) := selector bundesland landkreis in
  filter self_data begin_date end_date "AnzahlFall" date_type level value_.

Definition get_deaths (self_data : option table) (bundesland landkreis : option string)
    (begin_date end_date : option value) (date_type : string) : outcome (list (Z * Z)) :=
  let '(level, value_) := selector bundesland landkreis in
  filter self_data begin_date end_date "AnzahlTodesfall" date_type level value_.

Definition get_recovered (self_data : option table) (bundesland landkreis : option string)
    (begin_date end_date : option value) (date_type : string) : outcome (list (Z * Z)) :=
  let '(level, value_) := selector bundesland landkreis in
  filter self_data begin_date end_date "AnzahlGenesen" date_type level value_.

Definition get_new_confirmed (self_data : option table) (bundesland landkreis : option string)
    (begin_date end_date : option value) (date_type : string) : outcome (list (Z * Z)) :=
  df <- get_confirmed self_data bundesland landkreis begin_date end_date date_type ;;
  diff_drop_first Z.eqb df.

Definition get_new_deaths (self_data : option table) (bundesland landkreis : option string)
    (begin_date end_date : option value) (date_type : string) : outcome (list (Z * Z)) :=
  df <- get_deaths self_data bundesland landkreis begin_date end_date date_type ;;
  diff_drop_first Z.eqb df.

(** [get_new_recovered] also prints the index of the cumulative frame
    before differencing it; the value it returns is not affected. *)
Definition get_new_recovered (self_data : option table) (bundesland landkreis : option string)
    (begin_date end_date : option value) (date_type : string) : outcome (list (Z * Z)) :=
  df <- get_recovered self_data bundesland landkreis begin_date end_date date_type ;;
  diff_drop_first Z.eqb df.

(** The frame [filter_all_bundesland] returns: one column per
    Bundesland, one row per date, the cells by their values. *)
Record pivot_table : Type := {
  pivot_columns : list string;
  pivot_rows : list (Z * list Z)
}.

(** The sorted distinct values of the [Bundesland] column. *)
Fixpoint insert_name (name : string) (sorted : list string) : list string :=
  match sorted with
  | [] => [name]
  | x :: rest =>
      match String.compare name x with
      | Lt => name :: sorted
      | Eq => sorted
      | Gt => x :: insert_name name rest
      end
  end.

Definition bundeslaender (df : table) : list string :=
  fold_left (fun acc r => insert_name (Bundesland (attrs r)) acc) df [].

(** One cell of [groupby([date_type, 'Bundesland'])[variable].sum()]
    after the pivot: the int64 sum of the group, NaN where the date and
    the Bundesland never occur together. *)
Definition pivot_cell (key count : row -> Z) (df : table) (d : Z) (land : string) : option Z :=
  match List.filter (fun r => (key r =? d) && String.eqb (Bundesland (attrs r)) land) df with
  | [] => None
  | group => Some (Int64.sum (map count group))
  end.

Definition notna (cell : option Z) : bool :=
  match cell with
  | Some _ => true
  | None => false
  end.

(** The dtype of the pivoted frame: int64 when every date has a record of
    every Bundesland, float64 for all its columns as soon as one cell is
    NaN. *)
Definition pivot_dtype (cells : list (Z * list (option Z))) : Pandas.dtype :=
  if forallb (fun row => forallb notna (snd row)) cells then Pandas.int64 else Pandas.float64.

Definition fillna (fill : Z) (cell : option Z) : Z :=
  match cell with
  | Some v => v
  | None => fill
  end.

(** [pivot(...).fillna(0)]: a row per date of the table, a cell per
    Bundesland, in the dtype of the pivoted frame. *)
Definition pivot (key count : row -> Z) (df : table) (dates : list Z) (lands : list string)
  : list (Z * list (option Z)) :=
  map (fun d => (d, map (fun land => pivot_cell key count df d land) lands)) dates.

Definition pivot_fillna (t : Pandas.dtype) (cells : list (Z * list (option Z)))
  : list (Z * list Z) :=
  map (fun row => (fst row, map (fun c => fillna 0 (option_map (Pandas.cast t) c)) (snd row)))
      cells.

Definition add_rows (add : Z -> Z -> Z) (a b : list Z) : list Z :=
  map (fun p => add (fst p) (snd p)) (combine a b).

(** [frame.cumsum()], column by column, in the dtype of the frame. *)
Fixpoint cumsum_rows (add : Z -> Z -> Z) (acc : list Z) (rows : list (Z * list Z))
  : list (Z * list Z) :=
  match rows with
  | [] => []
  | (d, cells) :: rest =>
      let acc' := add_rows add acc cells in
      (d, acc') :: cumsum_rows add acc' rest
  end.

Definition filter_all_bundesland (self_data : option table) (begin_date end_date : option value)
    (variable date_type : string) : outcome pivot_table :=
  if negb (in_strings variable valid_variables) then Raised (ValueError Msg.invalid_variable)
  else if negb (in_strings date_type valid_date_types) then Raised (ValueError Msg.invalid_date_type)
  else
    key <- date_column date_type ;;
    begin_date <- default_bound begin_date
                    (data <- getattr_data self_data ;; iloc_first (map key data)) ;;
    end_date <- default_bound end_date
                  (data <- getattr_data self_data ;; iloc_last (map key data)) ;;
    if date_guard begin_date end_date then Raised (ValueError Msg.invalid_dates)
    else
      df <- getattr_data self_data ;;
      count <- int_column variable ;;
      let dates := map fst (Pandas.groupby_sum Int64.add (map (fun r => (key r, 0)) df)) in
      let lands := bundeslaender df in
      let cells := pivot key count df dates lands in
      let t := pivot_dtype cells in
      let df2 := pivot_fillna t cells in
      sliced <- Pandas.slice_dates df2 begin_date end_date ;;
      Returned {| pivot_columns := lands;
                  pivot_rows := cumsum_rows (Pandas.add_of t) (map (fun _ => 0) lands) sliced |}.

End Accessors.

(** *** Retrieval *)

(** One record of the bundled snapshot [rki_fallback_gzip.dat]: the
    columns of a downloaded table, the two date columns still text. *)
Record fallback_record : Type := {
  fb_attrs : attributes;
  fb_date : string;
  fb_date_ref : string
}.

(** What the adapter prints. *)
Inductive line : Type :=
| DownloadingLandkreise (n_data : Z)
| QueryReturned (n_data landkreise_max : Z)
| FinishedDownloading.

Definition url_id : string :=
  "https://services7.arcgis.com/mOBPykOjAyBO2ZKk/ArcGIS/rest/services/RKI_COVID19/FeatureServer/0/query?where=0%3D0&objectIds=&time=&resultType=none&outFields=idLandkreis&returnIdsOnly=false&returnUniqueIdsOnly=false&returnCountOnly=false&returnDistinctValues=true&cacheHint=false&orderByFields=&groupByFieldsForStatistics=&outStatistics=&having=&resultOffset=&resultRecordCount=&sqlFormat=none&f=pjson&token=".

Definition url_str (idlandkreis : string) : string :=
  ("https://services7.arcgis.com/mOBPykOjAyBO2ZKk/ArcGIS/rest/services/RKI_COVID19/FeatureServer/0//query?where=IdLandkreis%3D"
   ++ idlandkreis
   ++ "&objectIds=&time=&resultType=none&outFields=Bundesland%2C+Landkreis%2C+Altersgruppe%2C+Geschlecht%2C+AnzahlFall%2C+AnzahlTodesfall%2C+Meldedatum%2C+NeuerFall%2C+Refdatum%2C+NeuGenesen%2C+AnzahlGenesen&returnIdsOnly=false&returnUniqueIdsOnly=false&returnCountOnly=false&returnDistinctValues=false&cacheHint=false&orderByFields=&groupByFieldsForStatistics=&outStatistics=&having=&resultOffset=&resultRecordCount=&sqlFormat=none&f=pjson&token=")%string.

Definition landkreise_max : Z := 412.
Definition query_limit : Z := 5000.

Section Download.

(** The outside of the adapter.  The ArcGIS service is a state machine:
    opening a URL and decoding the JSON either fails ([None]: the bare
    [except] of the retry loop makes no difference between a network
    error, a malformed body and a missing key) or gives the features'
    attributes, and moves the service on.  The index query yields
    district identifiers, the per-district query yields records. *)
Variable World : Type.
Variable urlopen_ids : string -> World -> option (list string) * World.
Variable urlopen_rows : string -> World -> option (list attributes) * World.

(** [datetime.datetime.fromtimestamp(x/1e3)] of a millisecond stamp, in
    the local time zone of the machine. *)
Variable fromtimestamp : Z -> Z.

(** [pd.read_csv] of the bundled snapshot, and [pd.to_datetime] of one
    text cell under the format '%d-%m-%Y'. *)
Variable read_fallback : string -> option (list fallback_record).
Variable to_datetime : string -> option Z.
Variable this_dir : string.

Record state : Type := {
  world : World;
  requests : list string;
  stdout : list line;
  data : option table
}.

Definition print (l : line) (s : state) : state :=
  {| world := world s; requests := requests s; stdout := stdout s ++ [l]; data := data s |}.

Definition set_data (df : table) (s : state) : state :=
  {| world := world s; requests := requests s; stdout := stdout s; data := Some df |}.

Definition fetch_ids (url : string) (s : state) : option (list string) * state :=
  let '(reply, w) := urlopen_ids url (world s) in
  (reply, {| world := w; requests := requests s ++ [url]; stdout := stdout s; data := data s |}).

Definition fetch_rows (url : string) (s : state) : option (list attributes) * state :=
  let '(reply, w) := urlopen_rows url (world s) in
  (reply, {| world := w; requests := requests s ++ [url]; stdout := stdout s; data := data s |}).

(** One pass through the body of the [try]: [Some] when it reaches
    [break], [None] when anything in it raised. *)
Definition try_query (url : string) (s : state) : option (list attributes) * state :=
  let '(reply, s') := fetch_rows url s in
  match reply with
  | Some features =>
      let n_data := Z.of_nat (List.length features) in
      if n_data >? query_limit then (None, s') else (Some features, s')
  | None => (None, s')
  end.

(** [while count_try < try_max]: the loop leaves with the count of failed
    tries and with [data_flat] as the last successful try set it, or as
    it was before the loop. *)
Equations? while_tries (try_max count_try : Z) (url : string)
    (data_flat : option (list attributes)) (s : state)
  : Z * option (list attributes) * state
  by wf (Z.to_nat (try_max - count_try)) lt :=
  while_tries try_max count_try url data_flat s with Z_lt_dec count_try try_max => {
    | left _ with try_query url s => {
        | (Some features, s') => (count_try, Some features, s')
        | (None, s') => while_tries try_max (count_try + 1) url data_flat s' }
    | right _ => (count_try, data_flat, s) }.
Proof. lia. Qed.

(** [for idlandkreis in unique_ids]: [df] grows by the records of each
    district; [data_flat] is a local of the method and outlives the
    iteration that set it. *)
Fixpoint for_landkreise (try_max : Z) (unique_ids : list string) (df : list attributes)
    (data_flat : option (list attributes)) (s : state)
  : outcome (list attributes * option (list attributes)) * state :=
  match unique_ids with
  | [] => (Returned (df, data_flat), s)
  | idlandkreis :: rest =>
      let '(count_try, data_flat, s') := while_tries try_max 0 (url_str idlandkreis) data_flat s in
      if count_try =? try_max then (Raised (ValueError Msg.max_tries), s')
      else
        match data_flat with
        | None => (Raised UnboundLocalError, s')
        | Some df_temp => for_landkreise try_max rest (df ++ df_temp) data_flat s'
        end
  end.

(** [df['date'] = pd.to_datetime(df['date'], format='%d-%m-%Y')] on the
    text column of the snapshot. *)
Fixpoint to_datetime_text (cells : list string) : outcome (list Z) :=
  match cells with
  | [] => Returned []
  | c :: rest =>
      match to_datetime c with
      | Some t => ts <- to_datetime_text rest ;; Returned (t :: ts)
      | None => Raised (ValueError "time data does not match format '%d-%m-%Y'")
      end
  end.

(** [pd.to_datetime] of a column that already holds datetimes gives the
    column back. *)
Definition to_datetime_datetimes (cells : list Z) : list Z := cells.

Definition fallback_path : string := (this_dir ++ "/../data/rki_fallback_gzip.dat")%string.

Definition load_fallback : outcome table :=
  match read_fallback fallback_path with
  | None => Raised OSError
  | Some df =>
      date_ <- to_datetime_text (map fb_date df) ;;
      let date_ref_ := to_datetime_datetimes date_ in
      Returned (map (fun p => {| attrs := fb_attrs (fst p);
                                 date := fst (snd p);
                                 date_ref := snd (snd p) |})
                    (combine df (combine date_ date_ref_)))
  end.

Definition with_dates (df : list attributes) : table :=
  map (fun a => {| attrs := a;
                   date := fromtimestamp (Meldedatum a);
                   date_ref := fromtimestamp (Refdatum a) |}) df.

Definition finish (df : table) (s : state) : outcome table * state :=
  (Returned df, set_data df (print FinishedDownloading s)).

Definition download_all_available_data (try_max : Z) (s : state) : outcome table * state :=
  let '(reply, s1) := fetch_ids url_id s in
  match reply with
  | None => (Raised URLError, s1)
  | Some unique_ids =>
      let n_data := Z.of_nat (List.length unique_ids) in
      if n_data >=? landkreise_max then
        let s2 := print (DownloadingLandkreise n_data) s1 in
        match for_landkreise try_max unique_ids [] None s2 with
        | (Returned (df, _), s3) => finish (with_dates df) s3
        | (Raised e, s3) => (Raised e, s3)
        end
      else
        let s2 := print (QueryReturned n_data landkreise_max) s1 in
        match load_fallback with
        | Returned df => finish df s2
        | Raised e => (Raised e, s2)
        end
  end.

End Download.

Arguments world {World} s.
Arguments requests {World} s.
Arguments stdout {World} s.
Arguments data {World} s.
Arguments print {World} l s.
Arguments set_data {World} df s.

End RKI.

(** ** JHU: retrieval, normalisation and the accessors *)

Module JHU.

Import Pandas.

(** One record of a time-series CSV of the dashboard: the four leading
    columns and one count per date column, an int64 once read. *)
Record csv_record : Type := {
  Province_State : option string;
  Country_Region : string;
  Lat : string;
  Long : string;
  counts : list Z
}.

Record csv : Type := {
  date_headers : list string;
  records : list csv_record
}.

(** A normalised table ([df.T] at the end of [__to_iso]): rows are dates,
    columns are (country, state) keys. *)
Record frame : Type := {
  index : list Z;
  columns : list (region * list Z)
}.

(** What an accessor returns: a one-column frame, labelled by dates or by
    region keys. *)
Inductive series : Type :=
| ByDate (rows : list (Z * Z))
| ByRegion (rows : list (region * Z)).

Record adapter : Type := {
  confirmed : option frame;
  deaths : option frame;
  recovered : option frame
}.

Definition failed_notice : string :=
  "Failed to download current data 'confirmed cases', using local copy.".

Definition default_fp_confirmed : string :=
  "https://raw.githubusercontent.com/CSSEGISandData/COVID-19/master/csse_covid_19_data/csse_covid_19_time_series/time_series_covid19_confirmed_global.csv".
Definition default_fp_deaths : string :=
  "https://raw.githubusercontent.com/CSSEGISandData/COVID-19/master/csse_covid_19_data/csse_covid_19_time_series/time_series_covid19_deaths_global.csv".
Definition default_fp_recovered : string :=
  "https://raw.githubusercontent.com/CSSEGISandData/COVID-19/master/csse_covid_19_data/csse_covid_19_time_series/time_series_covid19_recovered_global.csv".

Section Retrieval.

(** [pd.read_csv(path, sep=',')]: [None] when fetching or parsing
    raises.  [strptime] is [datetime.datetime.strptime] under the format
    '%m/%d/%y'. *)
Variable read_csv : string -> option csv.
Variable strptime : string -> option Z.
Variable this_dir : string.

Record state : Type := {
  self : adapter;
  stdout : list string
}.

Definition print (l : string) (s : state) : state :=
  {| self := self s; stdout := stdout s ++ [l] |}.

(** [this_dir + '/../data/' + fallback]: adding [None] to a string is a
    TypeError. *)
Definition fallback_path (fallback : option string) : outcome string :=
  match fallback with
  | Some name => Returned (this_dir ++ "/../data/" ++ name)%string
  | None => Raised TypeError
  end.

Definition __download_from_source (url : string) (fallback : option string) (s : state)
  : outcome csv * state :=
  match read_csv url with
  | Some data => (Returned data, s)
  | None =>
      let s := print failed_notice s in
      match fallback_path fallback with
      | Raised e => (Raised e, s)
      | Returned path =>
          match read_csv path with
          | Some data => (Returned data, s)
          | None => (Raised OSError, s)
          end
      end
  end.

Fixpoint parse_headers (headers : list string) : outcome (list Z) :=
  match headers with
  | [] => Returned []
  | d :: rest =>
      match strptime d with
      | Some t => ts <- parse_headers rest ;; Returned (t :: ts)
      | None => Raised (ValueError "time data does not match format '%m/%d/%y'")
      end
  end.

Definition __to_iso (df : csv) : outcome frame :=
  dates <- parse_headers (date_headers df) ;;
  Returned {| index := dates;
              columns := map (fun r => ((Country_Region r, Province_State r), counts r))
                             (records df) |}.

Definition default_fallback : option string := None.

Definition download_confirmed (fp_confirmed : string) (save_to_attribues : bool) (s : state)
  : outcome frame * state :=
  let '(raw, s) := __download_from_source fp_confirmed default_fallback s in
  match bind raw __to_iso with
  | Returned confirmed_ =>
      (Returned confirmed_,
       if save_to_attribues
       then {| self := {| confirmed := Some confirmed_;
                          deaths := deaths (self s);
                          recovered := recovered (self s) |};
               stdout := stdout s |}
       else s)
  | Raised e => (Raised e, s)
  end.

Definition download_deaths (fp_deaths : string) (save_to_attribues : bool) (s : state)
  : outcome frame * state :=
  let '(raw, s) := __download_from_source fp_deaths default_fallback s in
  match bind raw __to_iso with
  | Returned deaths_ =>
      (Returned deaths_,
       if save_to_attribues
       then {| self := {| confirmed := confirmed (self s);
                          deaths := Some deaths_;
                          recovered := recovered (self s) |};
               stdout := stdout s |}
       else s)
  | Raised e => (Raised e, s)
  end.

Definition download_recovered (fp_recovered : string) (save_to_attribues : bool) (s : state)
  : outcome frame * state :=
  let '(raw, s) := __download_from_source fp_recovered default_fallback s in
  match bind raw __to_iso with
  | Returned recovered_ =>
      (Returned recovered_,
       if save_to_attribues
       then {| self := {| confirmed := confirmed (self s);
                          deaths := deaths (self s);
                          recovered := Some recovered_ |};
               stdout := stdout s |}
       else s)
  | Raised e => (Raised e, s)
  end.

Definition download_all_available_data (fp_confirmed fp_deaths fp_recovered : string)
    (save_to_attributes : bool) (s : state)
  : outcome (frame * frame * frame) * state :=
  match download_confirmed fp_confirmed save_to_attributes s with
  | (Raised e, s) => (Raised e, s)
  | (Returned c, s) =>
      match download_deaths fp_deaths save_to_attributes s with
      | (Raised e, s) => (Raised e, s)
      | (Returned d, s) =>
          match download_recovered fp_recovered save_to_attributes s with
          | (Raised e, s) => (Raised e, s)
          | (Returned r, s) => (Returned (c, d, r), s)
          end
      end
  end.

End Retrieval.

(** *** Accessors *)

Definition getattr (table : option frame) : outcome frame :=
  match table with
  | Some df => Returned df
  | None => Raised AttributeError
  end.

(** [if country == 'None': country = None] *)
Definition none_string (x : option string) : option string :=
  match x with
  | Some s => if String.eqb s "None" then None else Some s
  | None => None
  end.

(** [df.sum(axis=1, skipna=True)]: per date, over the columns, in int64;
    a cell a column does not have counts as NaN and is skipped. *)
Definition row_sum (cols : list (region * list Z)) (i : nat) : Z :=
  fold_right (fun c acc => Int64.add (nth i (snd c) 0) acc) 0 cols.

Definition sum_axis1 (df : frame) : list (Z * Z) :=
  map (fun p => (snd p, row_sum (columns df) (fst p)))
      (combine (seq 0 (List.length (index df))) (index df)).

(** [df.sum()]: per column, over the dates, in int64. *)
Definition sum_axis0 (df : frame) : list (region * Z) :=
  map (fun c => (fst c, Int64.sum (snd c))) (columns df).

(** [df[country]]: the columns of one country; KeyError when it has
    none. *)
Definition getitem_country (df : frame) (country : string) : outcome frame :=
  match List.filter (fun c => String.eqb (fst (fst c)) country) (columns df) with
  | [] => Raised KeyError
  | sub => Returned {| index := index df; columns := sub |}
  end.

(** [df[(country, state)]]: one column; KeyError when there is none.  When
    the key occurs more than once pandas hands back a frame, and assigning
    that to the single column of the result is a ValueError. *)
Definition getitem_column (df : frame) (country state : string) : outcome (list (Z * Z)) :=
  match List.filter (fun c => region_eqb (fst c) (country, Some state)) (columns df) with
  | [] => Raised KeyError
  | [c] => Returned (combine (index df) (snd c))
  | _ => Raised (ValueError "Wrong number of items passed")
  end.

Section Accessors.

Context `{Indexing}.

(** [df['recovered'] = self.recovered.loc[country].sum()] and
    [df['recovered'] = self.recovered.loc[(country, state)]]: [.loc] takes
    its first key for a row label, and the rows are dates (of a tuple it
    takes the second for a column label). *)
Definition loc_region (df : frame) (country : string) (state : option string)
  : outcome series :=
  fmap (fun selected => match selected with
                        | inl rows => ByDate rows
                        | inr rows => ByRegion rows
                        end)
       (Pandas.loc_region (index df) (columns df) country state).

Definition first_label (df : series) : outcome value :=
  match df with
  | ByDate rows => fmap VDatetime (index_first rows)
  | ByRegion rows => fmap (fun k => VTuple (fst k) (snd k)) (index_first rows)
  end.

Definition last_label (df : series) : outcome value :=
  match df with
  | ByDate rows => fmap VDatetime (index_last rows)
  | ByRegion rows => fmap (fun k => VTuple (fst k) (snd k)) (index_last rows)
  end.

(** [df[begin_date:end_date]] *)
Definition getitem_slice (df : series) (begin_date end_date : value) : outcome series :=
  match df with
  | ByDate rows => fmap ByDate (slice_dates rows begin_date end_date)
  | ByRegion rows => fmap ByRegion (multiindex_slice rows begin_date end_date)
  end.

Definition filter_date (df : series) (begin_date end_date : option value) : outcome series :=
  begin_date <- match begin_date with
                | None => first_label df
                | Some v => Returned v
                end ;;
  end_date <- match end_date with
              | None => last_label df
              | Some v => Returned v
              end ;;
  if date_guard begin_date end_date then Raised (ValueError Msg.invalid_dates)
  else getitem_slice df begin_date end_date.

(** The selection shared by [get_confirmed] and [get_deaths]. *)
Definition select_sum_axis1 (table : option frame) (country state : option string)
  : outcome series :=
  match country with
  | None => df <- getattr table ;; Returned (ByDate (sum_axis1 df))
  | Some c =>
      match state with
      | None => df <- getattr table ;;
                sub <- getitem_country df c ;;
                Returned (ByDate (sum_axis1 sub))
      | Some st => df <- getattr table ;;
                   col <- getitem_column df c st ;;
                   Returned (ByDate col)
      end
  end.

Definition get_confirmed (self : adapter) (country state : option string)
    (begin_date end_date : option value) : outcome series :=
  let country := none_string country in
  let state := none_string state in
  df <- select_sum_axis1 (confirmed self) country state ;;
  filter_date df begin_date end_date.

Definition get_deaths (self : adapter) (country state : option string)
    (begin_date end_date : option value) : outcome series :=
  let country := none_string country in
  let state := none_string state in
  df <- select_sum_axis1 (deaths self) country state ;;
  filter_date df begin_date end_date.

(** [get_recovered] sums with [self.recovered.sum()] and selects with
    [self.recovered.loc[...]]. *)
Definition get_recovered (self : adapter) (country state : option string)
    (begin_date end_date : option value) : outcome series :=
  let country := none_string country in
  let state := none_string state in
  df <- match country with
        | None => df <- getattr (recovered self) ;; Returned (ByRegion (sum_axis0 df))
        | Some c =>
            match state with
            | None => df <- getattr (recovered self) ;; loc_region df c None
            | Some st => df <- getattr (recovered self) ;; loc_region df c (Some st)
            end
        end ;;
  filter_date df begin_date end_date.

(** [df.diff().drop(df.index[0]).astype(int)] on either kind of frame. *)
Definition daily (df : series) : outcome series :=
  match df with
  | ByDate rows => fmap ByDate (diff_drop_first Z.eqb rows)
  | ByRegion rows => fmap ByRegion (diff_drop_first region_eqb rows)
  end.

Definition get_new_confirmed (self : adapter) (country state : option string)
    (begin_date end_date : option value) : outcome series :=
  df <- get_confirmed self country state begin_date end_date ;;
  daily df.

Definition get_new_deaths (self : adapter) (country state : option string)
    (begin_date end_date : option value) : outcome series :=
  df <- get_deaths self country state begin_date end_date ;;
  daily df.

Definition get_new_recovered (self : adapter) (country state : option string)
    (begin_date end_date : option value) : outcome series :=
  df <- get_recovered self country state begin_date end_date ;;
  daily df.

End Accessors.

(** *** The frame of the three metrics and the list of regions *)

(** A column of a frame under construction: NaN where the assigned series
    has no value for the label of the row. *)
Definition column : Type := list (option Z).

Record frame3 : Type := {
  f_index : list Z;
  f_confirmed : column;
  f_deaths : column;
  f_recovered : column
}.

Inductive metric : Type := Confirmed | Deaths | Recovered.

(** [pd.DataFrame(columns=['date', 'confirmed', 'deaths',
    'recovered']).set_index('date')] *)
Definition empty_frame3 : frame3 :=
  {| f_index := []; f_confirmed := []; f_deaths := []; f_recovered := [] |}.

Definition set_column (m : metric) (col : column) (df : frame3) : frame3 :=
  match m with
  | Confirmed => {| f_index := f_index df; f_confirmed := col;
                    f_deaths := f_deaths df; f_recovered := f_recovered df |}
  | Deaths => {| f_index := f_index df; f_confirmed := f_confirmed df;
                 f_deaths := col; f_recovered := f_recovered df |}
  | Recovered => {| f_index := f_index df; f_confirmed := f_confirmed df;
                    f_deaths := f_deaths df; f_recovered := col |}
  end.

Fixpoint nodupb (l : list Z) : bool :=
  match l with
  | [] => true
  | a :: rest => negb (existsb (Z.eqb a) rest) && nodupb rest
  end.

(** The values of a series laid out on the index of a frame: taken as
    they are when the two indexes are equal, looked up label by label
    otherwise, which pandas refuses when the series repeats a label.  A
    label the series does not have gives NaN, and the column is float64
    then. *)
Definition reindex (value : list (Z * Z)) (idx : list Z) : outcome column :=
  if list_eq_dec Z.eq_dec (map fst value) idx
  then Returned (map (fun p => Some (snd p)) value)
  else if nodupb (map fst value)
  then
    let cells := map (fun l => option_map snd (List.find (fun p => fst p =? l) value)) idx in
    if forallb RKI.notna cells then Returned cells
    else Returned (map (option_map Float64.of_int64) cells)
  else Raised (ValueError "cannot reindex on an axis with duplicate labels").

(** [df[name] = value] for a series [value]: a frame without rows takes
    the index of a series that has some, its other columns becoming NaN;
    otherwise the series is laid out on the index of the frame. *)
Definition setitem (df : frame3) (m : metric) (value : list (Z * Z)) : outcome frame3 :=
  match f_index df, value with
  | [], _ :: _ =>
      let nan := map (fun _ => @None Z) value in
      Returned (set_column m (map (fun p => Some (snd p)) value)
                  {| f_index := map fst value; f_confirmed := nan;
                     f_deaths := nan; f_recovered := nan |})
  | _, _ =>
      col <- reindex value (f_index df) ;;
      Returned (set_column m col df)
  end.

(** The rows of the frame: a date and the three cells. *)
Definition rows3 (df : frame3) : list (Z * (option Z * option Z * option Z)) :=
  combine (f_index df) (combine (combine (f_confirmed df) (f_deaths df)) (f_recovered df)).

(** The right-hand sides of the assignments of
    [get_confirmed_deaths_recovered]. *)
Definition selection (table : option frame) (country state : option string)
  : outcome (list (Z * Z)) :=
  match country with
  | None => df <- getattr table ;; Returned (sum_axis1 df)
  | Some c =>
      match state with
      | None => df <- getattr table ;;
                sub <- getitem_country df c ;;
                Returned (sum_axis1 sub)
      | Some st => df <- getattr table ;;
                   getitem_column df c st
      end
  end.

(** [x['state'].unique()]: the distinct values in the order they first
    occur, NaN being one value. *)
Fixpoint unique (states : list (option string)) : list (option string) :=
  match states with
  | [] => []
  | s :: rest => s :: List.filter (fun x => negb (option_eqb s x)) (unique rest)
  end.

(** [get_possible_countries_states]: the column keys of the three tables,
    grouped by country (the groups in the order of strings), each group
    reduced to its distinct states. *)
Definition get_possible_countries_states (self : adapter)
  : outcome (list (string * list (option string))) :=
  c <- getattr (confirmed self) ;;
  d <- getattr (deaths self) ;;
  r <- getattr (recovered self) ;;
  let all_entrys := (map fst (columns c) ++ map fst (columns d) ++ map fst (columns r))%list in
  let countries := fold_left (fun acc e => RKI.insert_name (fst e) acc) all_entrys [] in
  Returned (map (fun country =>
                   (country,
                    unique (map snd (List.filter (fun e => String.eqb (fst e) country)
                                                 all_entrys))))
                countries).

Section Frames.

Context `{Indexing}.

(** [filter_date] on a frame indexed by date, whatever its columns. *)
Definition filter_date_rows {A : Type} (df : list (Z * A)) (begin_date end_date : option value)
  : outcome (list (Z * A)) :=
  begin_date <- match begin_date with
                | None => fmap VDatetime (index_first df)
                | Some v => Returned v
                end ;;
  end_date <- match end_date with
              | None => fmap VDatetime (index_last df)
              | Some v => Returned v
              end ;;
  if date_guard begin_date end_date then Raised (ValueError Msg.invalid_dates)
  else slice_dates df begin_date end_date.

Definition get_confirmed_deaths_recovered (self : adapter) (country state : option string)
    (begin_date end_date : option value)
  : outcome (list (Z * (option Z * option Z * option Z))) :=
  let df := empty_frame3 in
  value <- selection (confirmed self) country state ;;
  df <- setitem df Confirmed value ;;
  value <- selection (deaths self) country state ;;
  df <- setitem df Deaths value ;;
  value <- selection (recovered self) country state ;;
  df <- setitem df Recovered value ;;
  filter_date_rows (rows3 df) begin_date end_date.

End Frames.

End JHU.

(** ** Concrete adapters

    Small tables and a concrete outside world, used where a statement is
    evaluated at an input. *)

Module Sample.

(** An indexing that takes no string for a date, so that no region name
    is found among the dates, refuses the two slices this development
    leaves to pandas, and casts like an x86-64 processor. *)
Definition indexing : Pandas.Indexing := {|
  Pandas.cast_slice_bound := fun _ _ => None;
  Pandas.unsorted_slice := fun A _ _ _ => Raised KeyError;
  Pandas.multiindex_slice := fun _ _ _ => Raised UnsortedIndexError;
  Pandas.loc_region := fun _ _ _ _ => Raised KeyError;
  Pandas.astype_overflow := fun _ => Int64.min
|}.

Definition record (land kreis : string) (fall tod gen neu : Z) (d dref : Z) : RKI.row := {|
  RKI.attrs := {| RKI.Bundesland := land; RKI.Landkreis := kreis;
                  RKI.Altersgruppe := "A35-A59"; RKI.Geschlecht := "W";
                  RKI.AnzahlFall := fall; RKI.AnzahlTodesfall := tod;
                  RKI.Meldedatum := d * 86400000; RKI.NeuerFall := neu;
                  RKI.NeuGenesen := 0; RKI.AnzahlGenesen := gen;
                  RKI.Refdatum := dref * 86400000 |};
  RKI.date := d;
  RKI.date_ref := dref
|}.

(** Two days of reports from one district. *)
Definition growing : RKI.table :=
  [ record "Bayern" "SK Muenchen" 5 0 0 1 1 1;
    record "Bayern" "SK Muenchen" 3 1 2 1 2 1 ].

(** The same district with a revision on the second day: two cases of the
    day before are withdrawn, the record carries [NeuerFall = -1] and a
    negative count. *)
Definition revised : RKI.table :=
  [ record "Bayern" "SK Muenchen" 5 0 0 1 1 1;
    record "Bayern" "SK Muenchen" (-2) 0 0 (-1) 2 1 ].

(** Two days of counts that fit an int64 while their sum does not, and two
    Bundeslaender of which one has no record on the second day, with a
    count beyond the whole numbers a float64 holds exactly. *)
Definition overflowing : RKI.table :=
  [ record "Bayern" "SK Muenchen" (2 ^ 62) 0 0 1 1 1;
    record "Bayern" "SK Muenchen" (2 ^ 62) 0 0 1 2 2 ].

Definition beyond_float : RKI.table :=
  [ record "Bayern" "SK Muenchen" (2 ^ 53 + 1) 0 0 1 1 1;
    record "Berlin" "SK Berlin Mitte" 1 0 0 1 1 1;
    record "Bayern" "SK Muenchen" 1 0 0 1 2 2 ].

(** A day of one case followed by a day of 2^53 + 1 cases. *)
Definition jump : RKI.table :=
  [ record "Bayern" "SK Muenchen" 1 0 0 1 1 1;
    record "Bayern" "SK Muenchen" (2 ^ 53 + 1) 0 0 1 2 2 ].

(** Three days of reports from two Bundeslaender. *)
Definition two_lands : RKI.table :=
  [ record "Bayern" "SK Muenchen" 5 0 0 1 1 1;
    record "Berlin" "SK Berlin Mitte" 3 0 0 1 2 2;
    record "Bayern" "SK Muenchen" 2 0 0 1 3 3 ].

(** Two dates, two countries. *)
Definition two_by_two : JHU.frame := {|
  JHU.index := [1; 2];
  JHU.columns := [(("Germany"%string, None), [1; 3]); (("Italy"%string, None), [2; 4])]
|}.

Definition jhu : JHU.adapter := {|
  JHU.confirmed := Some two_by_two;
  JHU.deaths := Some two_by_two;
  JHU.recovered := Some two_by_two
|}.

(** A machine on which one URL cannot be fetched while every other path,
    the local ones included, reads as the bundled copy. *)
Definition unreachable (bundled : JHU.csv) (url : string) : string -> option JHU.csv :=
  fun path => if String.eqb path url then None else Some bundled.

(** A time-series file of two dates and two countries, a reader of its
    two headers, a machine on which exactly one URL serves the file, and
    an adapter fresh from the constructor. *)
Definition csv_sample : JHU.csv := {|
  JHU.date_headers := ["1/22/20"; "1/23/20"]%string;
  JHU.records :=
    [ {| JHU.Province_State := None; JHU.Country_Region := "Germany";
         JHU.Lat := "51.0"; JHU.Long := "9.0"; JHU.counts := [1; 3] |};
      {| JHU.Province_State := None; JHU.Country_Region := "Italy";
         JHU.Lat := "43.0"; JHU.Long := "12.0"; JHU.counts := [2; 4] |} ]
|}.

Definition month_day_year : string -> option Z :=
  fun header =>
    if String.eqb header "1/22/20" then Some 1
    else if String.eqb header "1/23/20" then Some 2
    else None.

Definition online (url : string) : string -> option JHU.csv :=
  fun path => if String.eqb path url then Some csv_sample else None.

Definition blank : JHU.state :=
  {| JHU.self := {| JHU.confirmed := None; JHU.deaths := None; JHU.recovered := None |};
     JHU.stdout := [] |}.

(** An ArcGIS service that lists [n] districts, Muenchen first, answers
    the query of Muenchen with one record and fails every other query. *)
Definition muenchen : string := "09162".
Definition elsewhere : string := "09163".

Definition index_of (n : nat) : string -> unit -> option (list string) * unit :=
  fun _ w => (Some (muenchen :: repeat elsewhere (Nat.pred n)), w).

Definition every_district : string -> unit -> option (list RKI.attributes) * unit :=
  fun _ w => (Some [RKI.attrs (record "Bayern" "SK Muenchen" 5 0 0 1 1 1)], w).

(** A service that counts the queries it has seen and answers from the
    third on, and a service whose index cannot be opened. *)
Definition third_time_lucky : string -> nat -> option (list RKI.attributes) * nat :=
  fun _ seen =>
    (if Nat.leb 2 seen then Some [RKI.attrs (record "Bayern" "SK Muenchen" 5 0 0 1 1 1)]
     else None, S seen).

Definition no_index : string -> unit -> option (list string) * unit :=
  fun _ w => (None, w).

Definition counting : RKI.state nat :=
  {| RKI.world := O; RKI.requests := []; RKI.stdout := []; RKI.data := None |}.

Definition only_muenchen : string -> unit -> option (list RKI.attributes) * unit :=
  fun url w =>
    if String.eqb url (RKI.url_str muenchen)
    then (Some [RKI.attrs (record "Bayern" "SK Muenchen" 5 0 0 1 1 1)], w)
    else (None, w).

(** A machine in UTC that counts time in milliseconds, with a snapshot of
    one record. *)
Definition utc : Z -> Z := fun ms => ms.

Definition snapshot : string -> option (list RKI.fallback_record) :=
  fun _ => Some [ {| RKI.fb_attrs := RKI.attrs (record "Bayern" "SK Muenchen" 5 0 0 1 1 1);
                     RKI.fb_date := "01-03-2020";
                     RKI.fb_date_ref := "28-02-2020" |} ].

Definition day_month_year : string -> option Z :=
  fun cell =>
    if String.eqb cell "01-03-2020" then Some 1583020800000
    else if String.eqb cell "28-02-2020" then Some 1582848000000
    else None.

Definition fresh : RKI.state unit :=
  {| RKI.world := tt; RKI.requests := []; RKI.stdout := []; RKI.data := None |}.

Definition snapshot_table : RKI.table :=
  [ {| RKI.attrs := RKI.attrs (record "Bayern" "SK Muenchen" 5 0 0 1 1 1);
       RKI.date := 1583020800000;
       RKI.date_ref := 1583020800000 |} ].

End Sample.

(** ** Properties *)

(** A series is non-decreasing in date when, of any two of its rows, the
    earlier one in the list has the strictly earlier date and the smaller
    or equal value. *)
Definition nondecreasing (s : list (Z * Z)) : Prop :=
  StronglySorted (fun a b => fst a < fst b /\ snd a <= snd b) s.

(** The rows [RKI.filter] keeps for a region selector. *)
Definition in_region (level value_ : option string) (r : RKI.row) : bool :=
  match level with
  | None => true
  | Some lv =>
      match RKI.str_column lv with
      | Returned col => RKI.cell_eqb (col r) value_
      | Raised _ => false
      end
  end.

(** The cumulative series of the rows of one region: grouped by date,
    summed, accumulated, in int64 as [RKI.filter] does it, and in whole
    numbers without bound. *)
Definition cumulative (key count : RKI.row -> Z) (rows : RKI.table) : list (Z * Z) :=
  Pandas.cumsum Int64.add (Pandas.groupby_sum Int64.add (map (fun r => (key r, count r)) rows)).

Definition unbounded_cumulative (key count : RKI.row -> Z) (rows : RKI.table) : list (Z * Z) :=
  Pandas.cumsum Z.add (Pandas.groupby_sum Z.add (map (fun r => (key r, count r)) rows)).

(** The counts of a column are int64 values. *)
Definition int64_column (count : RKI.row -> Z) (rows : RKI.table) : Prop :=
  Forall (fun r => Int64.in_range (count r)) rows.

(** The sum of the counts of the records dated [d]. *)
Definition day_total (key count : RKI.row -> Z) (rows : RKI.table) (d : Z) : Z :=
  fold_right Z.add 0 (map count (List.filter (fun r => key r =? d) rows)).

(** A bound the caller omitted or gave as a datetime. *)
Definition datetime_or_omitted (b : option value) : Prop :=
  match b with
  | None => True
  | Some v => isinstance_datetime v = true
  end.

(** The table has no column of the country, or none of the pair. *)
Definition unknown_country (df : JHU.frame) (c : string) : Prop :=
  forall col, In col (JHU.columns df) -> fst (fst col) <> c.

Definition unknown_state (df : JHU.frame) (c st : string) : Prop :=
  forall col, In col (JHU.columns df) -> fst col <> (c, Some st).

(** The daily series in the words of the specification: the differences
    between consecutive rows of the cumulative series, each carried by the
    later row, so the first row has none and is dropped. *)
Fixpoint deltas {L : Type} (prev : Z) (s : list (L * Z)) : list (L * Z) :=
  match s with
  | [] => []
  | (l, v) :: rest => (l, v - prev) :: deltas v rest
  end.

Definition first_difference {L : Type} (s : list (L * Z)) : list (L * Z) :=
  match s with
  | [] => []
  | (_, v) :: rest => deltas v rest
  end.

Definition series_first_difference (df : JHU.series) : JHU.series :=
  match df with
  | JHU.ByDate rows => JHU.ByDate (first_difference rows)
  | JHU.ByRegion rows => JHU.ByRegion (first_difference rows)
  end.

Definition series_length (df : JHU.series) : nat :=
  match df with
  | JHU.ByDate rows => List.length rows
  | JHU.ByRegion rows => List.length rows
  end.

(** Every label of the frame occurs once. *)
Definition series_unique (df : JHU.series) : Prop :=
  match df with
  | JHU.ByDate rows => NoDup (map fst rows)
  | JHU.ByRegion rows => NoDup (map fst rows)
  end.

Section Retrieval_vocabulary.

Variable World : Type.
Variable urlopen_rows : string -> World -> option (list RKI.attributes) * World.

(** The next [n] tries of a URL all fail, from the state [s] on. *)
Fixpoint all_tries_fail (n : nat) (url : string) (s : RKI.state World) : Prop :=
  match n with
  | O => True
  | S n' => fst (RKI.try_query World urlopen_rows url s) = None
            /\ all_tries_fail n' url (snd (RKI.try_query World urlopen_rows url s))
  end.

(** The state right after the index query. *)
Definition after_index_query (s : RKI.state World) (w : World) : RKI.state World :=
  {| RKI.world := w; RKI.requests := RKI.requests s ++ [RKI.url_id];
     RKI.stdout := RKI.stdout s; RKI.data := RKI.data s |}.

(** The state after the index query and the first print of the
    per-district path. *)
Definition after_discovery (s : RKI.state World) (w : World) (n_data : Z) : RKI.state World :=
  RKI.print (RKI.DownloadingLandkreise n_data) (after_index_query s w).

(** The state after [n] tries of a URL. *)
Fixpoint after_tries (n : nat) (url : string) (s : RKI.state World) : RKI.state World :=
  match n with
  | O => s
  | S n' => after_tries n' url (snd (RKI.try_query World urlopen_rows url s))
  end.

(** The retrieval by district in the words of the specification, over the
    service alone.  One query of a district counts when the URL opens and
    decodes and lists at most 5000 records; the service moves on in
    either case. *)
Definition answer (url : string) (w : World) : option (list RKI.attributes) * World :=
  let '(reply, w') := urlopen_rows url w in
  (match reply with
   | Some features =>
       if Z.of_nat (List.length features) <=? RKI.query_limit then Some features else None
   | None => None
   end, w').

(** Up to [n] queries of one district: the records of the first query that
    counts, the service after it, and the number of queries made. *)
Fixpoint first_answer (n : nat) (url : string) (w : World)
  : option (list RKI.attributes) * World * nat :=
  match n with
  | O => (None, w, O)
  | S n' =>
      match answer url w with
      | (Some features, w') => (Some features, w', 1%nat)
      | (None, w') => let '(r, w'', k) := first_answer n' url w' in (r, w'', S k)
      end
  end.

(** The districts in turn, each queried up to [n] times, up to the first
    district without an answer: the records of all districts when each has
    one, the service at the end, and the URLs requested, in order. *)
Fixpoint retrieval (n : nat) (ids : list string) (w : World)
  : option (list RKI.attributes) * World * list string :=
  match ids with
  | [] => (Some [], w, [])
  | id :: rest =>
      match first_answer n (RKI.url_str id) w with
      | (Some features, w', k) =>
          let '(r, w'', reqs) := retrieval n rest w' in
          (option_map (app features) r, w'', repeat (RKI.url_str id) k ++ reqs)
      | (None, w', k) => (None, w', repeat (RKI.url_str id) k)
      end
  end.

(** The adapter after requests that printed and assigned nothing. *)
Definition moved (s : RKI.state World) (w : World) (reqs : list string) : RKI.state World :=
  {| RKI.world := w; RKI.requests := RKI.requests s ++ reqs;
     RKI.stdout := RKI.stdout s; RKI.data := RKI.data s |}.

(** The replies of the districts when each answers its first query, one
    after the other, and the state they leave. *)
Fixpoint replies_in_turn (ids : list string) (s : RKI.state World)
  : option (list RKI.attributes * RKI.state World) :=
  match ids with
  | [] => Some ([], s)
  | id :: rest =>
      match RKI.try_query World urlopen_rows (RKI.url_str id) s with
      | (Some features, s') =>
          match replies_in_turn rest s' with
          | Some (more, s'') => Some (features ++ more, s'')
          | None => None
          end
      | (None, _) => None
      end
  end.

End Retrieval_vocabulary.

Arguments after_index_query {World} s w.
Arguments moved {World} s w reqs.
Arguments after_discovery {World} s w n_data.

(** The three name checks of [RKI.filter] at once. *)
Definition names_valid (variable date_type : string) (level : option string) : bool :=
  RKI.in_strings variable RKI.valid_variables
  && RKI.in_levels level RKI.valid_levels
  && RKI.in_strings date_type RKI.valid_date_types.

(** The sum of the values of the pairs keyed [d] or earlier, and the sum of
    the counts of the records dated [d] or earlier. *)
Definition total_upto (d : Z) (l : list (Z * Z)) : Z :=
  fold_right Z.add 0 (map snd (List.filter (fun p => fst p <=? d) l)).

Definition running_total (key count : RKI.row -> Z) (rows : RKI.table) (d : Z) : Z :=
  fold_right Z.add 0 (map count (List.filter (fun r => key r <=? d) rows)).

(** The sum of a column of counts. *)
Definition total (count : RKI.row -> Z) (rows : RKI.table) : Z :=
  fold_right Z.add 0 (map count rows).

(** The order of the column labels: strings by their characters. *)
Definition string_lt (a b : string) : Prop := String.compare a b = Lt.

(** The frame [RKI.filter_all_bundesland] slices: a row per date of the
    table, a cell per Bundesland; its cells before they are filled, and
    its dtype. *)
Definition pivot_cells (key count : RKI.row -> Z) (df : RKI.table)
  : list (Z * list (option Z)) :=
  RKI.pivot key count df
    (map fst (Pandas.groupby_sum Int64.add (map (fun r => (key r, 0)) df)))
    (RKI.bundeslaender df).

Definition pivot_frame (key count : RKI.row -> Z) (df : RKI.table) : list (Z * list Z) :=
  RKI.pivot_fillna (RKI.pivot_dtype (pivot_cells key count df)) (pivot_cells key count df).

Definition pivot_add (key count : RKI.row -> Z) (df : RKI.table) : Z -> Z -> Z :=
  Pandas.add_of (RKI.pivot_dtype (pivot_cells key count df)).

(** One column of a frame of rows of cells, read as a series. *)
Definition column_at (i : nat) (rows : list (Z * list Z)) : list (Z * Z) :=
  map (fun row => (fst row, nth i (snd row) 0)) rows.

(** The sum of the counts of the records of one Bundesland dated from [tb]
    to [d]. *)
Definition land_total (key count : RKI.row -> Z) (rows : RKI.table) (land : string)
    (tb d : Z) : Z :=
  fold_right Z.add 0
    (map count
       (List.filter (fun r => (tb <=? key r) && (key r <=? d)
                              && String.eqb (RKI.Bundesland (RKI.attrs r)) land) rows)).

(** The column keys of the three tables of a populated adapter, in the
    order [get_possible_countries_states] lists them. *)
Definition column_keys (self : JHU.adapter) : list Pandas.region :=
  match JHU.confirmed self, JHU.deaths self, JHU.recovered self with
  | Some c, Some d, Some r =>
      map fst (JHU.columns c) ++ map fst (JHU.columns d) ++ map fst (JHU.columns r)
  | _, _, _ => []
  end.

(** Every column of the table has a cell for every date. *)
Definition well_formed (df : JHU.frame) : Prop :=
  Forall (fun col => List.length (snd col) = List.length (JHU.index df)) (JHU.columns df).

(** One column of the frame of the three metrics, and a series read as a
    column without NaN. *)
Definition metric_column (m : JHU.metric)
    (rows : list (Z * (option Z * option Z * option Z))) : list (Z * option Z) :=
  map (fun row => (fst row,
                   match m with
                   | JHU.Confirmed => fst (fst (snd row))
                   | JHU.Deaths => snd (fst (snd row))
                   | JHU.Recovered => snd (snd row)
                   end)) rows.

Definition present (s : list (Z * Z)) : list (Z * option Z) :=
  map (fun p => (fst p, Some (snd p))) s.

(** A series with every value reduced to int64. *)
Definition wrapped {L : Type} (s : list (L * Z)) : list (L * Z) :=
  map (fun p => (fst p, Int64.wrap (snd p))) s.

(** Every difference between consecutive values of the series is a whole
    number a float64 holds exactly. *)
Definition small_steps {L : Type} (s : list (L * Z)) : Prop :=
  Forall (fun r => Z.abs (snd r) <= Float64.exact) (first_difference s).

Definition series_small_steps (df : JHU.series) : Prop :=
  match df with
  | JHU.ByDate rows => small_steps rows
  | JHU.ByRegion rows => small_steps rows
  end.

(** The sum of the values of the pairs keyed [d]. *)
Definition total_at (d : Z) (l : list (Z * Z)) : Z :=
  fold_right Z.add 0 (map snd (List.filter (fun p => fst p =? d) l)).

(** The frame of the per-date sums by Bundesland in whole numbers without
    bound, 0 where a date and a Bundesland never occur together. *)
Definition unbounded_frame (key count : RKI.row -> Z) (df : RKI.table) : list (Z * list Z) :=
  map (fun d =>
         (d, map (fun land =>
                    fold_right Z.add 0
                      (map count
                         (List.filter (fun r => (key r =? d)
                                                && String.eqb (RKI.Bundesland (RKI.attrs r)) land)
                                      df)))
                 (RKI.bundeslaender df)))
      (map fst (Pandas.groupby_sum Int64.add (map (fun r => (key r, 0)) df))).

(** *** Lists of groups *)

Lemma wrap_in_range (z : Z) : Int64.in_range z -> Int64.wrap z = z.
Proof.
  unfold Int64.in_range, Int64.wrap, Int64.min, Int64.max. intros Hz.
  rewrite Z.mod_small by lia. lia.
Qed.

Lemma wrap_range (z : Z) : Int64.in_range (Int64.wrap z).
Proof.
  unfold Int64.in_range, Int64.wrap, Int64.min, Int64.max.
  pose proof (Z.mod_pos_bound (z + 2 ^ 63) (2 ^ 64) ltac:(lia)). lia.
Qed.

Lemma wrap_add (a b : Z) : Int64.wrap (a + b) = Int64.add (Int64.wrap a) (Int64.wrap b).
Proof.
  unfold Int64.add, Int64.wrap. f_equal.
  replace (a + b + 2 ^ 63) with ((a + 2 ^ 63) + (b + 2 ^ 63) - 2 ^ 63) by lia.
  replace ((a + 2 ^ 63) mod 2 ^ 64 - 2 ^ 63 + ((b + 2 ^ 63) mod 2 ^ 64 - 2 ^ 63) + 2 ^ 63)
    with ((a + 2 ^ 63) mod 2 ^ 64 + (b + 2 ^ 63) mod 2 ^ 64 - 2 ^ 63) by lia.
  rewrite (Zminus_mod ((a + 2 ^ 63) + (b + 2 ^ 63))).
  rewrite (Zminus_mod ((a + 2 ^ 63) mod 2 ^ 64 + (b + 2 ^ 63) mod 2 ^ 64)).
  f_equal. f_equal. rewrite <- Zplus_mod. reflexivity.
Qed.

Lemma int64_in_rangeb (z : Z) : Int64.in_range z -> Int64.in_rangeb z = true.
Proof.
  unfold Int64.in_range, Int64.in_rangeb. intros [Hlo Hhi].
  apply andb_true_iff. split; apply Z.leb_le; assumption.
Qed.

Lemma exact_in_range (z : Z) : Z.abs z <= Float64.exact -> Int64.in_range z.
Proof. unfold Float64.exact, Int64.in_range, Int64.min, Int64.max. lia. Qed.

(** Up to 2^53 in magnitude a whole number is a float64. *)
Lemma round_exact (z : Z) : Z.abs z <= Float64.exact -> Float64.round z = z.
Proof.
  unfold Float64.exact, Float64.round. intros Hz. cbv zeta.
  destruct (Z.log2 (Z.abs z) - 52 <=? 0) eqn:E; [reflexivity|].
  apply Z.leb_gt in E.
  assert (H53 : 2 ^ 53 <= Z.abs z).
  { destruct (Z_lt_le_dec (Z.abs z) (2 ^ 53)) as [Hlt|Hge]; [|exact Hge].
    assert (0 < Z.abs z).
    { destruct (Z.eq_dec (Z.abs z) 0) as [E0|]; [rewrite E0 in E; simpl in E|]; lia. }
    apply Z.log2_lt_pow2 in Hlt; lia. }
  assert (Eabs : Z.abs z = 2 ^ 53) by lia.
  rewrite Eabs. change (Z.log2 (2 ^ 53) - 52) with 1.
  change ((2 ^ 53) mod 2 ^ 1) with 0. change (2 ^ (1 - 1)) with 1.
  change (2 ^ 53 / 2 ^ 1) with (2 ^ 52). simpl orb. cbv iota.
  change (2 ^ 52 * 2 ^ 1) with (2 ^ 53). rewrite <- Eabs. rewrite Z.mul_comm. apply Z.abs_sgn.
Qed.

(** Within the whole numbers both dtypes hold, both additions are the
    addition. *)
Lemma add_of_exact (t : Pandas.dtype) (a b : Z) :
  0 <= a -> 0 <= b -> a + b <= Float64.exact -> Pandas.add_of t a b = a + b.
Proof.
  intros Ha Hb Hab. destruct t; simpl.
  - unfold Int64.add. apply wrap_in_range, exact_in_range. lia.
  - unfold Float64.add. apply round_exact. lia.
Qed.

Lemma cast_exact (t : Pandas.dtype) (v : Z) :
  Z.abs v <= Float64.exact -> Pandas.cast t v = v.
Proof. intros Hv. destruct t; simpl; [reflexivity | now apply round_exact]. Qed.

Lemma int64_sum_wrap (l : list Z) : Int64.sum l = Int64.wrap (fold_right Z.add 0 l).
Proof.
  induction l as [|a l IH]; [reflexivity|].
  change (Int64.sum (a :: l)) with (Int64.add a (Int64.sum l)). rewrite IH.
  change (fold_right Z.add 0 (a :: l)) with (a + fold_right Z.add 0 l).
  unfold Int64.add at 1.
  rewrite (wrap_add a (Int64.wrap (fold_right Z.add 0 l))).
  rewrite (wrap_in_range (Int64.wrap (fold_right Z.add 0 l))) by apply wrap_range.
  symmetry. apply wrap_add.
Qed.

Lemma in_strings_In (x : string) (l : list string) :
  RKI.in_strings x l = true <-> In x l.
Proof.
  unfold RKI.in_strings. rewrite existsb_exists. split.
  - intros [y [Hy Heq]]. apply String.eqb_eq in Heq. now subst.
  - intros Hx. exists x. split; [assumption | apply String.eqb_refl].
Qed.

Lemma option_eqb_eq (a b : option string) :
  Pandas.option_eqb a b = true <-> a = b.
Proof.
  destruct a as [x|], b as [y|]; simpl; split; intros E;
    try discriminate; try reflexivity.
  - apply String.eqb_eq in E. now subst.
  - injection E as ->. apply String.eqb_refl.
Qed.

Lemma in_levels_In (x : option string) (l : list (option string)) :
  RKI.in_levels x l = true <-> In x l.
Proof.
  unfold RKI.in_levels. rewrite existsb_exists. split.
  - intros [y [Hy Heq]]. apply option_eqb_eq in Heq. now subst.
  - intros Hx. exists x. split; [assumption | now apply option_eqb_eq].
Qed.

Lemma sorted_ascendingb (idx : list Z) :
  Sorted Z.lt idx -> Pandas.ascendingb idx = true.
Proof.
  induction 1 as [|a l Hl IH Hhd]; [reflexivity|].
  destruct l as [|b l']; [reflexivity|].
  change (Pandas.ascendingb (a :: b :: l')) with ((a <=? b) && Pandas.ascendingb (b :: l')).
  rewrite IH. inversion Hhd; subst. rewrite andb_true_r. apply Z.leb_le. lia.
Qed.

Lemma StronglySorted_filter {A : Type} (R : A -> A -> Prop) (f : A -> bool) (l : list A) :
  StronglySorted R l -> StronglySorted R (List.filter f l).
Proof.
  induction 1 as [|a l Hl IH Hall]; simpl; [constructor|].
  destruct (f a); [|exact IH].
  constructor; [exact IH|].
  rewrite Forall_forall in *. intros x Hx. apply Hall.
  apply filter_In in Hx. tauto.
Qed.

Lemma Forall_filter {A : Type} (P : A -> Prop) (f : A -> bool) (l : list A) :
  Forall P l -> Forall P (List.filter f l).
Proof.
  rewrite !Forall_forall. intros Hall x Hx. apply Hall. apply filter_In in Hx. tauto.
Qed.

(** The keys of the groups and the labels of a running sum do not depend
    on the dtype of the values. *)
Section Keys.

Variable add : Z -> Z -> Z.

Lemma add_to_group_hd (a k v : Z) (g : list (Z * Z)) :
  a < k -> HdRel Z.lt a (map fst g) -> HdRel Z.lt a (map fst (Pandas.add_to_group add k v g)).
Proof.
  intros Hak Hg. destruct g as [|[k' v'] rest]; simpl.
  - constructor. exact Hak.
  - destruct (k <? k'); [|destruct (k =? k')]; simpl; constructor;
      try exact Hak; inversion Hg; assumption.
Qed.

Lemma add_to_group_sorted (k v : Z) (g : list (Z * Z)) :
  Sorted Z.lt (map fst g) -> Sorted Z.lt (map fst (Pandas.add_to_group add k v g)).
Proof.
  induction g as [|[k' v'] rest IH]; simpl; intros Hs.
  - repeat constructor.
  - inversion Hs as [|? ? Hrest Hhd]; subst.
    destruct (k <? k') eqn:Hlt; [|destruct (k =? k') eqn:Heq]; simpl.
    + constructor; [exact Hs|]. constructor. apply Z.ltb_lt. exact Hlt.
    + exact Hs.
    + constructor; [apply IH; exact Hrest|].
      apply add_to_group_hd; [|exact Hhd].
      apply Z.ltb_ge in Hlt. apply Z.eqb_neq in Heq. lia.
Qed.

Lemma groupby_sum_from_sorted (rows g : list (Z * Z)) :
  Sorted Z.lt (map fst g) ->
  Sorted Z.lt (map fst (fold_left (fun groups r => Pandas.add_to_group add (fst r) (snd r) groups)
                                  rows g)).
Proof.
  revert g. induction rows as [|r rows IH]; simpl; intros g Hg.
  - exact Hg.
  - apply IH. apply add_to_group_sorted. exact Hg.
Qed.

Lemma groupby_sum_sorted (rows : list (Z * Z)) :
  Sorted Z.lt (map fst (Pandas.groupby_sum add rows)).
Proof. apply groupby_sum_from_sorted. constructor. Qed.

Lemma groupby_sorted_strongly (rows : list (Z * Z)) :
  StronglySorted Z.lt (map fst (Pandas.groupby_sum add rows)).
Proof.
  apply Sorted_StronglySorted; [intros x y z; apply Z.lt_trans | apply groupby_sum_sorted].
Qed.

Lemma cumsum_from_index {L : Type} (acc : Z) (s : list (L * Z)) :
  map fst (Pandas.cumsum_from add acc s) = map fst s.
Proof.
  revert acc. induction s as [|[l v] rest IH]; simpl; intros acc; [reflexivity|].
  now rewrite IH.
Qed.

Lemma add_to_group_keys (k0 v0 : Z) (g : list (Z * Z)) (k : Z) :
  In k (map fst (Pandas.add_to_group add k0 v0 g)) <-> k = k0 \/ In k (map fst g).
Proof.
  induction g as [|[k' v'] rest IH]; simpl.
  - intuition.
  - destruct (k0 <? k'); [|destruct (k0 =? k') eqn:E]; simpl.
    + intuition.
    + apply Z.eqb_eq in E. subst. intuition.
    + rewrite IH. intuition.
Qed.

Lemma groupby_from_keys (rows g : list (Z * Z)) (k : Z) :
  In k (map fst (fold_left (fun groups r => Pandas.add_to_group add (fst r) (snd r) groups)
                           rows g))
  <-> In k (map fst rows) \/ In k (map fst g).
Proof.
  revert g. induction rows as [|r rows IH]; simpl; intros g.
  - intuition.
  - rewrite IH, add_to_group_keys. intuition.
Qed.

Lemma groupby_sum_keys (rows : list (Z * Z)) (k : Z) :
  In k (map fst (Pandas.groupby_sum add rows)) <-> In k (map fst rows).
Proof. unfold Pandas.groupby_sum. rewrite groupby_from_keys. simpl. intuition. Qed.

Lemma groupby_cumsum_ascending (rows : list (Z * Z)) :
  Pandas.ascendingb (map fst (Pandas.cumsum add (Pandas.groupby_sum add rows))) = true.
Proof.
  unfold Pandas.cumsum. rewrite cumsum_from_index.
  apply sorted_ascendingb, groupby_sum_sorted.
Qed.

(** The keys of the groups do not depend on the values either. *)
Lemma add_to_group_keys_eq (add' : Z -> Z -> Z) (k v v' : Z) (g g' : list (Z * Z)) :
  map fst g = map fst g' ->
  map fst (Pandas.add_to_group add k v g) = map fst (Pandas.add_to_group add' k v' g').
Proof.
  revert g'. induction g as [|[k1 v1] rest IH]; intros [|[k1' v1'] rest'] E;
    try discriminate; [reflexivity|].
  simpl in E. injection E as <- E. simpl.
  destruct (k <? k1); [|destruct (k =? k1)]; simpl; rewrite ?E; try reflexivity.
  f_equal. apply IH. exact E.
Qed.

Lemma groupby_from_keys_eq (add' : Z -> Z -> Z) (rows rows' g g' : list (Z * Z)) :
  map fst rows = map fst rows' ->
  map fst g = map fst g' ->
  map fst (fold_left (fun groups r => Pandas.add_to_group add (fst r) (snd r) groups) rows g)
  = map fst (fold_left (fun groups r => Pandas.add_to_group add' (fst r) (snd r) groups) rows' g').
Proof.
  revert rows' g g'. induction rows as [|r rows IH]; intros [|r' rows'] g g' Er Eg;
    try discriminate; [exact Eg|].
  simpl in Er. injection Er as Ek Er. simpl. apply IH; [exact Er|].
  rewrite Ek. now apply add_to_group_keys_eq.
Qed.

End Keys.

(** In whole numbers without bound. *)
Lemma add_to_group_nonneg (k v : Z) (g : list (Z * Z)) :
  0 <= v -> Forall (fun r => 0 <= snd r) g ->
  Forall (fun r => 0 <= snd r) (Pandas.add_to_group Z.add k v g).
Proof.
  intros Hv. induction g as [|[k' v'] rest IH]; simpl; intros Hg.
  - constructor; [exact Hv | constructor].
  - inversion Hg as [|? ? Hhd Hrest]; subst. simpl in Hhd.
    destruct (k <? k'); [|destruct (k =? k')].
    + constructor; [exact Hv | exact Hg].
    + constructor; [simpl; lia | exact Hrest].
    + constructor; [exact Hhd | apply IH; exact Hrest].
Qed.

Lemma cumsum_from_lower (acc : Z) (s : list (Z * Z)) :
  Forall (fun r => 0 <= snd r) s ->
  Forall (fun r => acc <= snd r) (Pandas.cumsum_from Z.add acc s).
Proof.
  revert acc. induction s as [|[l v] rest IH]; simpl; intros acc Hs; [constructor|].
  inversion Hs as [|? ? Hv Hrest]; subst. simpl in Hv.
  constructor; [simpl; lia|].
  eapply Forall_impl; [|apply IH; exact Hrest]. simpl. intros r Hr. lia.
Qed.

Lemma cumsum_from_nondecreasing (acc : Z) (s : list (Z * Z)) :
  StronglySorted Z.lt (map fst s) ->
  Forall (fun r => 0 <= snd r) s ->
  nondecreasing (Pandas.cumsum_from Z.add acc s).
Proof.
  unfold nondecreasing.
  revert acc. induction s as [|[l v] rest IH]; simpl; intros acc Hk Hs; [constructor|].
  inversion Hk as [|? ? Hrest Hall]; subst.
  inversion Hs as [|? ? Hv Hvs]; subst. simpl in Hv.
  constructor; [apply IH; assumption|].
  apply Forall_forall. intros r Hr. simpl. split.
  - rewrite Forall_forall in Hall. apply Hall.
    rewrite <- (cumsum_from_index Z.add (acc + v)). now apply in_map.
  - pose proof (cumsum_from_lower (acc + v) rest Hvs) as Hlow.
    rewrite Forall_forall in Hlow. now apply Hlow.
Qed.

(** A running sum of non-negative values stays between where it starts
    and where it ends. *)
Lemma cumsum_from_bounded (acc : Z) (s : list (Z * Z)) :
  Forall (fun r => 0 <= snd r) s ->
  Forall (fun r => acc <= snd r <= acc + fold_right Z.add 0 (map snd s))
         (Pandas.cumsum_from Z.add acc s).
Proof.
  revert acc. induction s as [|[l v] rest IH]; simpl; intros acc Hs; [constructor|].
  inversion Hs as [|? ? Hv Hrest]; subst. simpl in Hv.
  assert (Hsum : 0 <= fold_right Z.add 0 (map snd rest)).
  { clear - Hrest. induction Hrest as [|r rest Hr _ IH]; simpl; lia. }
  constructor; [simpl; lia|].
  eapply Forall_impl; [|apply IH; exact Hrest]. simpl. intros r Hr. lia.
Qed.

(** Where an addition is exact on the sums the running sum goes through,
    the running sum is the one in whole numbers. *)
Lemma cumsum_from_exact (add : Z -> Z -> Z) (bound acc : Z) (s : list (Z * Z)) :
  (forall a b, 0 <= a -> 0 <= b -> a + b <= bound -> add a b = a + b) ->
  0 <= acc ->
  Forall (fun r => 0 <= snd r) s ->
  acc + fold_right Z.add 0 (map snd s) <= bound ->
  Pandas.cumsum_from add acc s = Pandas.cumsum_from Z.add acc s.
Proof.
  intros Hadd. revert acc. induction s as [|[l v] rest IH]; simpl; intros acc Hacc Hs Hle;
    [reflexivity|].
  inversion Hs as [|? ? Hv Hrest]; subst. simpl in Hv.
  assert (Hsum : 0 <= fold_right Z.add 0 (map snd rest)).
  { clear - Hrest. induction Hrest as [|r rest Hr _ IH]; simpl; lia. }
  rewrite (Hadd acc v) by lia. f_equal. apply IH; [lia | exact Hrest | lia].
Qed.

(** Reducing to int64 commutes with grouping and with the running sum. *)
Lemma wrapped_index {L : Type} (s : list (L * Z)) : map fst (wrapped s) = map fst s.
Proof. unfold wrapped. rewrite map_map. reflexivity. Qed.

Lemma wrapped_in_range {L : Type} (s : list (L * Z)) :
  Forall (fun r => Int64.in_range (snd r)) s -> wrapped s = s.
Proof.
  induction 1 as [|[l v] s Hv _ IH]; [reflexivity|].
  unfold wrapped in *. simpl in *. rewrite IH, (wrap_in_range v Hv). reflexivity.
Qed.

Lemma add_to_group_wrapped (k v : Z) (g : list (Z * Z)) :
  wrapped (Pandas.add_to_group Z.add k v g)
  = Pandas.add_to_group Int64.add k (Int64.wrap v) (wrapped g).
Proof.
  unfold wrapped. induction g as [|[k' v'] rest IH]; simpl; [reflexivity|].
  destruct (k <? k'); [|destruct (k =? k')]; simpl.
  - reflexivity.
  - now rewrite wrap_add.
  - now rewrite IH.
Qed.

Lemma groupby_from_wrapped (rows g : list (Z * Z)) :
  wrapped (fold_left (fun groups r => Pandas.add_to_group Z.add (fst r) (snd r) groups) rows g)
  = fold_left (fun groups r => Pandas.add_to_group Int64.add (fst r) (snd r) groups)
              (wrapped rows) (wrapped g).
Proof.
  revert g. induction rows as [|r rows IH]; simpl; intros g; [reflexivity|].
  now rewrite IH, add_to_group_wrapped.
Qed.

Lemma groupby_sum_wrapped (rows : list (Z * Z)) :
  wrapped (Pandas.groupby_sum Z.add rows) = Pandas.groupby_sum Int64.add (wrapped rows).
Proof. unfold Pandas.groupby_sum. now rewrite groupby_from_wrapped. Qed.

Lemma cumsum_from_wrapped {L : Type} (acc : Z) (s : list (L * Z)) :
  wrapped (Pandas.cumsum_from Z.add acc s)
  = Pandas.cumsum_from Int64.add (Int64.wrap acc) (wrapped s).
Proof.
  unfold wrapped. revert acc. induction s as [|[l v] rest IH]; simpl; intros acc; [reflexivity|].
  now rewrite IH, wrap_add.
Qed.

(** *** RKI.filter *)

Lemma filter_all (A : Type) (l : list A) : List.filter (fun _ => true) l = l.
Proof. induction l as [|a l IH]; simpl; [reflexivity | now rewrite IH]. Qed.

Lemma total_upto_cons (d : Z) (p : Z * Z) (l : list (Z * Z)) :
  total_upto d (p :: l) = (if fst p <=? d then snd p else 0) + total_upto d l.
Proof. unfold total_upto. simpl. destruct (fst p <=? d); simpl; lia. Qed.

Lemma add_to_group_total_upto (d k0 v0 : Z) (g : list (Z * Z)) :
  total_upto d (Pandas.add_to_group Z.add k0 v0 g)
  = total_upto d g + (if k0 <=? d then v0 else 0).
Proof.
  induction g as [|[k' v'] rest IH]; simpl.
  - rewrite total_upto_cons. simpl. unfold total_upto. simpl. lia.
  - destruct (k0 <? k'); [|destruct (k0 =? k') eqn:E].
    + rewrite total_upto_cons. simpl. lia.
    + apply Z.eqb_eq in E. subst k'. rewrite !total_upto_cons. simpl.
      destruct (k0 <=? d); lia.
    + rewrite !total_upto_cons, IH. simpl. lia.
Qed.

Lemma groupby_from_total_upto (d : Z) (rows g : list (Z * Z)) :
  total_upto d (fold_left (fun groups r => Pandas.add_to_group Z.add (fst r) (snd r) groups)
                          rows g)
  = total_upto d g + total_upto d rows.
Proof.
  revert g. induction rows as [|r rows IH]; simpl; intros g.
  - unfold total_upto at 3. simpl. lia.
  - rewrite IH, add_to_group_total_upto, total_upto_cons. lia.
Qed.

Lemma groupby_sum_total_upto (d : Z) (rows : list (Z * Z)) :
  total_upto d (Pandas.groupby_sum Z.add rows) = total_upto d rows.
Proof. unfold Pandas.groupby_sum. rewrite groupby_from_total_upto. reflexivity. Qed.

Lemma total_upto_above (d : Z) (l : list (Z * Z)) :
  Forall (fun k => d < k) (map fst l) -> total_upto d l = 0.
Proof.
  induction l as [|p l IH]; simpl; intros Hl; [reflexivity|].
  inversion Hl as [|? ? Hp Hrest]; subst. rewrite total_upto_cons, IH by assumption.
  assert (E : (fst p <=? d) = false) by (apply Z.leb_gt; exact Hp). now rewrite E.
Qed.

(** Over strictly ascending keys the running sum at a key is the sum of
    everything keyed that key or earlier. *)
Lemma cumsum_from_value (acc : Z) (g : list (Z * Z)) :
  StronglySorted Z.lt (map fst g) ->
  forall d v, In (d, v) (Pandas.cumsum_from Z.add acc g) -> v = acc + total_upto d g.
Proof.
  revert acc. induction g as [|[k1 v1] rest IH]; simpl; intros acc Hs d v Hin; [contradiction|].
  inversion Hs as [|? ? Hrest Hall]; subst. rewrite total_upto_cons. simpl.
  destruct Hin as [E|Hin].
  - injection E as <- <-. rewrite Z.leb_refl, total_upto_above by exact Hall. lia.
  - assert (Hd : k1 < d).
    { rewrite Forall_forall in Hall. apply Hall.
      rewrite <- (cumsum_from_index Z.add (acc + v1) rest).
      change d with (fst (d, v)). now apply in_map. }
    assert (E : (k1 <=? d) = true) by (apply Z.leb_le; lia). rewrite E.
    rewrite (IH (acc + v1) Hrest d v Hin). lia.
Qed.

Lemma total_upto_map (key count : RKI.row -> Z) (rows : RKI.table) (d : Z) :
  total_upto d (map (fun r => (key r, count r)) rows) = running_total key count rows d.
Proof.
  unfold running_total. induction rows as [|r rows IH]; [reflexivity|].
  simpl map at 1. rewrite total_upto_cons, IH. simpl.
  destruct (key r <=? d); simpl; lia.
Qed.

Lemma total_at_cons (d : Z) (p : Z * Z) (l : list (Z * Z)) :
  total_at d (p :: l) = (if fst p =? d then snd p else 0) + total_at d l.
Proof. unfold total_at. simpl. destruct (fst p =? d); simpl; lia. Qed.

Lemma add_to_group_total_at (d k0 v0 : Z) (g : list (Z * Z)) :
  total_at d (Pandas.add_to_group Z.add k0 v0 g)
  = total_at d g + (if k0 =? d then v0 else 0).
Proof.
  induction g as [|[k' v'] rest IH]; simpl.
  - rewrite total_at_cons. simpl. unfold total_at. simpl. lia.
  - destruct (k0 <? k'); [|destruct (k0 =? k') eqn:E].
    + rewrite total_at_cons. simpl. lia.
    + apply Z.eqb_eq in E. subst k'. rewrite !total_at_cons. simpl.
      destruct (k0 =? d); lia.
    + rewrite !total_at_cons, IH. simpl. lia.
Qed.

Lemma groupby_from_total_at (d : Z) (rows g : list (Z * Z)) :
  total_at d (fold_left (fun groups r => Pandas.add_to_group Z.add (fst r) (snd r) groups)
                        rows g)
  = total_at d g + total_at d rows.
Proof.
  revert g. induction rows as [|r rows IH]; simpl; intros g.
  - unfold total_at at 3. simpl. lia.
  - rewrite IH, add_to_group_total_at, total_at_cons. lia.
Qed.

Lemma total_at_absent (d : Z) (l : list (Z * Z)) :
  ~ In d (map fst l) -> total_at d l = 0.
Proof.
  induction l as [|p l IH]; simpl; intros Hl; [reflexivity|].
  rewrite total_at_cons, IH by tauto.
  assert (E : (fst p =? d) = false) by (apply Z.eqb_neq; tauto). now rewrite E.
Qed.

Lemma total_at_sorted (g : list (Z * Z)) (k v : Z) :
  StronglySorted Z.lt (map fst g) -> In (k, v) g -> total_at k g = v.
Proof.
  induction g as [|[k1 v1] rest IH]; simpl; intros Hs Hin; [contradiction|].
  inversion Hs as [|? ? Hrest Hall]; subst. rewrite total_at_cons. simpl.
  rewrite Forall_forall in Hall.
  destruct Hin as [E|Hin].
  - injection E as <- <-. rewrite Z.eqb_refl, total_at_absent; [lia|].
    intros Hk. apply Hall in Hk. lia.
  - assert (Hk : k1 < k).
    { apply Hall. change k with (fst (k, v)). now apply in_map. }
    assert (E : (k1 =? k) = false) by (apply Z.eqb_neq; lia). rewrite E.
    rewrite (IH Hrest Hin). lia.
Qed.

Lemma total_at_map (key count : RKI.row -> Z) (rows : RKI.table) (d : Z) :
  total_at d (map (fun r => (key r, count r)) rows) = day_total key count rows d.
Proof.
  unfold day_total. induction rows as [|r rows IH]; [reflexivity|].
  simpl map at 1. rewrite total_at_cons, IH. simpl.
  destruct (key r =? d); simpl; lia.
Qed.

(** The sum of a group is the sum of the counts of its date. *)
Lemma groupby_sum_value (key count : RKI.row -> Z) (rows : RKI.table) (k v : Z) :
  In (k, v) (Pandas.groupby_sum Z.add (map (fun r => (key r, count r)) rows)) ->
  v = day_total key count rows k.
Proof.
  intros Hin.
  pose proof (total_at_sorted _ k v (groupby_sorted_strongly Z.add _) Hin) as E.
  unfold Pandas.groupby_sum in E. rewrite groupby_from_total_at, total_at_map in E.
  unfold total_at in E. simpl in E. lia.
Qed.

Lemma add_to_group_sum (k v : Z) (g : list (Z * Z)) :
  fold_right Z.add 0 (map snd (Pandas.add_to_group Z.add k v g))
  = fold_right Z.add 0 (map snd g) + v.
Proof.
  induction g as [|[k' v'] rest IH]; simpl; [lia|].
  destruct (k <? k'); [|destruct (k =? k')]; simpl; try rewrite IH; lia.
Qed.

Lemma groupby_from_sum (rows g : list (Z * Z)) :
  fold_right Z.add 0
    (map snd (fold_left (fun groups r => Pandas.add_to_group Z.add (fst r) (snd r) groups) rows g))
  = fold_right Z.add 0 (map snd g) + fold_right Z.add 0 (map snd rows).
Proof.
  revert g. induction rows as [|r rows IH]; simpl; intros g; [lia|].
  rewrite IH, add_to_group_sum. lia.
Qed.

Lemma groupby_sum_total (key count : RKI.row -> Z) (rows : RKI.table) :
  fold_right Z.add 0 (map snd (Pandas.groupby_sum Z.add (map (fun r => (key r, count r)) rows)))
  = total count rows.
Proof.
  unfold Pandas.groupby_sum, total. rewrite groupby_from_sum, map_map. simpl. reflexivity.
Qed.

Lemma cumulative_index (key count : RKI.row -> Z) (rows : RKI.table) :
  map fst (cumulative key count rows) = map fst (unbounded_cumulative key count rows).
Proof.
  unfold cumulative, unbounded_cumulative, Pandas.cumsum. rewrite !cumsum_from_index.
  unfold Pandas.groupby_sum. now apply groupby_from_keys_eq.
Qed.

Lemma cumulative_ascending (key count : RKI.row -> Z) (rows : RKI.table) :
  Pandas.ascendingb (map fst (cumulative key count rows)) = true.
Proof. apply groupby_cumsum_ascending. Qed.

Lemma cumulative_dates_sorted key count rows :
  StronglySorted Z.lt (map fst (cumulative key count rows)).
Proof.
  unfold cumulative, Pandas.cumsum. rewrite cumsum_from_index.
  apply groupby_sorted_strongly.
Qed.

(** Every row of the cumulative series is dated like one of the
    records. *)
Lemma cumulative_dates key count rows d :
  In d (map fst (cumulative key count rows)) -> exists r, In r rows /\ key r = d.
Proof.
  intros Hk. unfold cumulative, Pandas.cumsum in Hk.
  rewrite cumsum_from_index, groupby_sum_keys, map_map in Hk. simpl in Hk.
  apply in_map_iff in Hk. destruct Hk as [r [E Hr]]. now exists r.
Qed.

(** On int64 counts the series of the code is the series in whole
    numbers, reduced to int64 value by value. *)
Lemma cumulative_wrapped (key count : RKI.row -> Z) (rows : RKI.table) :
  int64_column count rows ->
  cumulative key count rows = wrapped (unbounded_cumulative key count rows).
Proof.
  intros Hrange. unfold cumulative, unbounded_cumulative, Pandas.cumsum.
  rewrite cumsum_from_wrapped, groupby_sum_wrapped.
  rewrite (wrapped_in_range (map (fun r => (key r, count r)) rows)); [reflexivity|].
  apply Forall_forall. intros x Hx. apply in_map_iff in Hx. destruct Hx as [r [<- Hr]].
  simpl. unfold int64_column in Hrange. rewrite Forall_forall in Hrange. now apply Hrange.
Qed.

Lemma unbounded_value key count rows d v :
  In (d, v) (unbounded_cumulative key count rows) -> v = running_total key count rows d.
Proof.
  intros Hin. unfold unbounded_cumulative, Pandas.cumsum in Hin.
  apply cumsum_from_value in Hin; [|apply groupby_sorted_strongly].
  rewrite Hin, groupby_sum_total_upto, total_upto_map. lia.
Qed.

(** Every value of the cumulative series is the sum of the counts dated
    that day or earlier, reduced to int64. *)
Lemma cumulative_value key count rows d v :
  int64_column count rows ->
  In (d, v) (cumulative key count rows) ->
  v = Int64.wrap (running_total key count rows d).
Proof.
  intros Hrange Hin. rewrite (cumulative_wrapped key count rows Hrange) in Hin.
  unfold wrapped in Hin. apply in_map_iff in Hin. destruct Hin as [[d' v'] [E Hin]].
  simpl in E. injection E as <- <-. f_equal. now apply unbounded_value.
Qed.

(** When the sum of every day is non-negative, the series in whole
    numbers never falls and stays between 0 and the sum of all counts. *)
Lemma unbounded_nondecreasing key count rows :
  (forall d, 0 <= day_total key count rows d) ->
  nondecreasing (unbounded_cumulative key count rows)
  /\ Forall (fun r => 0 <= snd r <= total count rows) (unbounded_cumulative key count rows).
Proof.
  intros Hdays.
  assert (Hgroups : Forall (fun r => 0 <= snd r)
                      (Pandas.groupby_sum Z.add (map (fun r => (key r, count r)) rows))).
  { apply Forall_forall. intros [k v] Hin. simpl.
    rewrite (groupby_sum_value key count rows k v Hin). apply Hdays. }
  split.
  - apply cumsum_from_nondecreasing; [apply groupby_sorted_strongly | exact Hgroups].
  - pose proof (cumsum_from_bounded 0 _ Hgroups) as Hb.
    rewrite groupby_sum_total in Hb. exact Hb.
Qed.

(** With int64 counts, non-negative sums of the days and a sum of all
    counts within int64, nothing wraps around. *)
Lemma cumulative_nondecreasing (key count : RKI.row -> Z) (rows : RKI.table) :
  int64_column count rows ->
  (forall d, 0 <= day_total key count rows d) ->
  total count rows <= Int64.max ->
  cumulative key count rows = unbounded_cumulative key count rows
  /\ nondecreasing (cumulative key count rows).
Proof.
  intros Hrange Hdays Hmax.
  destruct (unbounded_nondecreasing key count rows Hdays) as [Hnondecr Hbounds].
  assert (E : cumulative key count rows = unbounded_cumulative key count rows).
  { rewrite (cumulative_wrapped key count rows Hrange). apply wrapped_in_range.
    eapply Forall_impl; [|exact Hbounds]. intros r Hr. cbv beta in Hr.
    unfold Int64.in_range, Int64.min, Int64.max in *. lia. }
  split; [exact E | rewrite E; exact Hnondecr].
Qed.

Lemma day_total_nonneg (key count : RKI.row -> Z) (rows : RKI.table) :
  (forall r, In r rows -> 0 <= count r) -> forall d, 0 <= day_total key count rows d.
Proof.
  intros Hnonneg d. unfold day_total.
  induction rows as [|r rows IH]; simpl; [lia|].
  assert (0 <= count r) by (apply Hnonneg; now left).
  assert (0 <= fold_right Z.add 0 (map count (List.filter (fun r0 => key r0 =? d) rows)))
    by (apply IH; intros x Hx; apply Hnonneg; now right).
  destruct (key r =? d); simpl; lia.
Qed.

Lemma nonneg_int64_column (count : RKI.row -> Z) (rows : RKI.table) :
  (forall r, In r rows -> 0 <= count r) ->
  total count rows <= Int64.max ->
  int64_column count rows.
Proof.
  unfold int64_column, total. intros Hnonneg Hmax.
  induction rows as [|r rows IH]; [constructor|]. simpl in Hmax.
  assert (Hr : 0 <= count r) by (apply Hnonneg; now left).
  assert (Hrest : 0 <= fold_right Z.add 0 (map count rows)).
  { clear - Hnonneg. induction rows as [|x rows IH]; simpl; [lia|].
    assert (0 <= count x) by (apply Hnonneg; right; now left).
    assert (0 <= fold_right Z.add 0 (map count rows)).
    { apply IH. intros y [<-|Hy]; apply Hnonneg; [now left | right; now right]. }
    lia. }
  constructor.
  - unfold Int64.in_range, Int64.min, Int64.max in *. lia.
  - apply IH; [intros x Hx; apply Hnonneg; now right | lia].
Qed.

Section RKI_filter.

Context `{Pandas.Indexing}.

(** With valid names the filter is the date defaulting, the guard and a
    slice of the cumulative series of the selected rows. *)
Lemma RKI_filter_unfold self_data begin_date end_date variable date_type level value_ :
  In variable RKI.valid_variables ->
  In level RKI.valid_levels ->
  In date_type RKI.valid_date_types ->
  exists key count,
    RKI.date_column date_type = Returned key /\
    RKI.int_column variable = Returned count /\
    RKI.filter self_data begin_date end_date variable date_type level value_ =
      (data <- RKI.getattr_data self_data ;;
       let df := RKI.sort_values key data in
       b <- RKI.default_bound begin_date (RKI.iloc_first (map key df)) ;;
       e <- RKI.default_bound end_date (RKI.iloc_last (map key df)) ;;
       if date_guard b e then Raised (ValueError Msg.invalid_dates)
       else Pandas.slice_dates (cumulative key count (List.filter (in_region level value_) data)) b e).
Proof.
  intros Hv Hl Hd.
  assert (Ev : RKI.in_strings variable RKI.valid_variables = true) by now apply in_strings_In.
  assert (El : RKI.in_levels level RKI.valid_levels = true) by now apply in_levels_In.
  assert (Ed : RKI.in_strings date_type RKI.valid_date_types = true) by now apply in_strings_In.
  unfold RKI.filter. rewrite Ev, El, Ed. simpl negb. cbv iota.
  assert (Hkey : exists key, RKI.date_column date_type = Returned key).
  { simpl in Hd. destruct Hd as [<-|[<-|[]]]; eexists; reflexivity. }
  assert (Hcount : exists count, RKI.int_column variable = Returned count).
  { simpl in Hv. destruct Hv as [<-|[<-|[<-|[]]]]; eexists; reflexivity. }
  destruct Hkey as [key Hkey], Hcount as [count Hcount].
  exists key, count. split; [exact Hkey|]. split; [exact Hcount|].
  rewrite Hkey, Hcount.
  destruct self_data as [data|]; [|reflexivity]. simpl.
  destruct (RKI.default_bound begin_date _) as [b|]; [|reflexivity]. simpl.
  destruct (RKI.default_bound end_date _) as [e|]; [|reflexivity]. simpl.
  destruct (date_guard b e); [reflexivity|].
  simpl in Hl. destruct Hl as [<-|[<-|[<-|[]]]]; simpl; try reflexivity.
  unfold cumulative. now rewrite filter_all.
Qed.

Lemma slice_dates_cumulative key count rows b e :
  Pandas.slice_dates (cumulative key count rows) b e =
    (tb <- Pandas.cast_bound Pandas.Left b ;;
     te <- Pandas.cast_bound Pandas.Right e ;;
     Returned (Pandas.between tb te (cumulative key count rows))).
Proof. unfold Pandas.slice_dates. now rewrite cumulative_ascending. Qed.

(** What a returning call returns. *)
Lemma RKI_filter_returned self_data begin_date end_date variable date_type level value_ s :
  RKI.filter self_data begin_date end_date variable date_type level value_ = Returned s ->
  exists data key count tb te,
    self_data = Some data /\
    RKI.date_column date_type = Returned key /\
    RKI.int_column variable = Returned count /\
    s = Pandas.between tb te (cumulative key count (List.filter (in_region level value_) data)).
Proof.
  intros Hret.
  assert (Ev : In variable RKI.valid_variables).
  { apply in_strings_In. unfold RKI.filter in Hret.
    destruct (RKI.in_strings variable RKI.valid_variables); [reflexivity | discriminate]. }
  assert (El : In level RKI.valid_levels).
  { apply in_levels_In. unfold RKI.filter in Hret.
    destruct (RKI.in_strings variable RKI.valid_variables); [|discriminate].
    destruct (RKI.in_levels level RKI.valid_levels); [reflexivity | discriminate]. }
  assert (Ed : In date_type RKI.valid_date_types).
  { apply in_strings_In. unfold RKI.filter in Hret.
    destruct (RKI.in_strings variable RKI.valid_variables); [|discriminate].
    destruct (RKI.in_levels level RKI.valid_levels); [|discriminate].
    destruct (RKI.in_strings date_type RKI.valid_date_types); [reflexivity | discriminate]. }
  destruct (RKI_filter_unfold self_data begin_date end_date variable date_type level value_ Ev El Ed)
    as [key [count [Hkey [Hcount Heq]]]].
  rewrite Heq in Hret. clear Heq.
  destruct self_data as [data|]; [|discriminate]. simpl in Hret.
  destruct (RKI.default_bound begin_date _) as [b|]; [|discriminate]. simpl in Hret.
  destruct (RKI.default_bound end_date _) as [e|]; [|discriminate]. simpl in Hret.
  destruct (date_guard b e); [discriminate|].
  rewrite slice_dates_cumulative in Hret.
  destruct (Pandas.cast_bound Pandas.Left b) as [tb|]; [|discriminate]. simpl in Hret.
  destruct (Pandas.cast_bound Pandas.Right e) as [te|]; [|discriminate]. simpl in Hret.
  injection Hret as <-.
  exists data, key, count, tb, te. repeat split; assumption.
Qed.

(** C1 (amended).  On a table whose counts of the metric are int64
    values, whenever the counts of the selected region sum to a
    non-negative number on every date and to a number within int64 over
    all dates, the series [RKI.filter] returns is non-decreasing in date:
    its dates ascend strictly and its values never fall. *)
Theorem RKI_filter_nondecreasing
    (data : RKI.table) (begin_date end_date : option value)
    (variable date_type : string) (level value_ : option string)
    (key count : RKI.row -> Z) (s : list (Z * Z)) :
  RKI.date_column date_type = Returned key ->
  RKI.int_column variable = Returned count ->
  int64_column count data ->
  (forall d, 0 <= day_total key count (List.filter (in_region level value_) data) d) ->
  total count (List.filter (in_region level value_) data) <= Int64.max ->
  RKI.filter (Some data) begin_date end_date variable date_type level value_ = Returned s ->
  nondecreasing s.
Proof.
  intros Hkey Hcount Hrange Hdays Hmax Hret.
  apply RKI_filter_returned in Hret.
  destruct Hret as [data' [key' [count' [tb [te [Hdata [Hkey' [Hcount' ->]]]]]]]].
  injection Hdata as <-.
  rewrite Hkey in Hkey'. injection Hkey' as <-.
  rewrite Hcount in Hcount'. injection Hcount' as <-.
  apply StronglySorted_filter.
  apply cumulative_nondecreasing; [now apply Forall_filter | exact Hdays | exact Hmax].
Qed.

(** C2.  A metric name, a level or a date kind outside its enumeration
    makes [RKI.filter] raise one of its three descriptive ValueErrors,
    whatever the adapter holds, also when [self.data] was never
    assigned: the data is not consulted and nothing is defaulted. *)
Theorem RKI_filter_rejects_invalid_names
    (begin_date end_date : option value)
    (variable date_type : string) (level value_ : option string) :
  ~ In variable RKI.valid_variables \/
  ~ In level RKI.valid_levels \/
  ~ In date_type RKI.valid_date_types ->
  exists msg,
    In msg [Msg.invalid_variable; Msg.invalid_level; Msg.invalid_date_type] /\
    forall self_data,
      RKI.filter self_data begin_date end_date variable date_type level value_
      = Raised (ValueError msg).
Proof.
  intros Hbad. unfold RKI.filter.
  destruct (RKI.in_strings variable RKI.valid_variables) eqn:Ev; cbn [negb].
  2:{ exists Msg.invalid_variable. split; [simpl; tauto | reflexivity]. }
  destruct (RKI.in_levels level RKI.valid_levels) eqn:El; cbn [negb].
  2:{ exists Msg.invalid_level. split; [simpl; tauto | reflexivity]. }
  destruct (RKI.in_strings date_type RKI.valid_date_types) eqn:Ed; cbn [negb].
  2:{ exists Msg.invalid_date_type. split; [simpl; tauto | reflexivity]. }
  apply in_strings_In in Ev, Ed. apply in_levels_In in El. tauto.
Qed.

End RKI_filter.

(** Witness of [RKI_filter_nondecreasing]: two days of non-negative
    counts. *)
Lemma RKI_filter_nondecreasing_witness :
  @RKI.filter Sample.indexing (Some Sample.growing) None None "AnzahlFall" "date" None None
    = Returned [(1, 5); (2, 8)]
  /\ nondecreasing [(1, 5); (2, 8)].
Proof.
  split; [reflexivity|].
  apply (@RKI_filter_nondecreasing Sample.indexing Sample.growing None None
           "AnzahlFall" "date" None None RKI.date (fun r => RKI.AnzahlFall (RKI.attrs r))).
  - reflexivity.
  - reflexivity.
  - repeat apply Forall_cons; try apply Forall_nil;
      unfold Int64.in_range, Int64.min, Int64.max; simpl; lia.
  - apply day_total_nonneg. intros r Hin. simpl in Hin.
    destruct Hin as [<-|[<-|[]]]; simpl; lia.
  - vm_compute. discriminate.
  - reflexivity.
Defined.

(** C1 as stated fails: a record with a negative count (a withdrawn case)
    makes the cumulative series fall. *)
Lemma RKI_filter_falls_on_negative_count :
  exists s,
    @RKI.filter Sample.indexing (Some Sample.revised) None None "AnzahlFall" "date" None None
      = Returned s
    /\ ~ nondecreasing s.
Proof.
  exists [(1, 5); (2, 3)]. split; [reflexivity|].
  intros Hs. inversion Hs as [|? ? _ Hall]; subst.
  inversion Hall as [|? ? [_ Hle] _]; subst. simpl in Hle. lia.
Qed.

(** The sums are int64 sums: two counts of 2^62 on consecutive days give
    2^62 and then, wrapped around, -2^63. *)
Lemma RKI_filter_wraps_around :
  @RKI.filter Sample.indexing (Some Sample.overflowing) None None "AnzahlFall" "date" None None
    = Returned [(1, 2 ^ 62); (2, - 2 ^ 63)].
Proof. vm_compute. reflexivity. Qed.

(** Witness of [RKI_filter_rejects_invalid_names]: the metric name foo. *)
Lemma RKI_filter_rejects_invalid_names_witness :
  exists msg,
    In msg [Msg.invalid_variable; Msg.invalid_level; Msg.invalid_date_type] /\
    @RKI.filter Sample.indexing None None None "foo" "date" None None
    = Raised (ValueError msg).
Proof.
  destruct (@RKI_filter_rejects_invalid_names Sample.indexing None None "foo" "date" None None)
    as [msg [Hin Hraise]].
  - left. simpl. intros [E|[E|[E|[]]]]; discriminate E.
  - exists msg. split; [exact Hin | exact (Hraise None)].
Defined.

(** *** Selectors that match nothing *)

Lemma insert_by_nonempty key r l : RKI.insert_by key r l <> [].
Proof. destruct l as [|x l]; simpl; [discriminate|]. destruct (key r <? key x); discriminate. Qed.

Lemma sort_values_nonempty key data : data <> [] -> RKI.sort_values key data <> [].
Proof.
  destruct data as [|r data]; [congruence|]. intros _. simpl. apply insert_by_nonempty.
Qed.

Lemma iloc_first_nonempty (l : list Z) :
  l <> [] -> exists t, RKI.iloc_first l = Returned (VDatetime t).
Proof. destruct l as [|t l]; [congruence|]. intros _. now exists t. Qed.

Lemma iloc_last_nonempty (l : list Z) :
  l <> [] -> exists t, RKI.iloc_last l = Returned (VDatetime t).
Proof.
  intros Hl. unfold RKI.iloc_last. destruct (rev l) as [|t l'] eqn:E.
  - exfalso. apply Hl. rewrite <- (rev_involutive l), E. reflexivity.
  - now exists t.
Qed.

Lemma default_bound_datetime (b : option value) (fallback : outcome value) :
  datetime_or_omitted b ->
  (exists t, fallback = Returned (VDatetime t)) ->
  exists t, RKI.default_bound b fallback = Returned (VDatetime t).
Proof.
  destruct b as [[t|c st|x]|]; simpl; intros Hb Hf; try discriminate.
  - now exists t.
  - exact Hf.
Qed.

Lemma map_nonempty {A B : Type} (f : A -> B) (l : list A) : l <> [] -> map f l <> [].
Proof. destruct l; [congruence | discriminate]. Qed.

Lemma filter_none {A : Type} (f : A -> bool) (l : list A) :
  (forall x, In x l -> f x = false) -> List.filter f l = [].
Proof.
  induction l as [|a l IH]; simpl; intros Hf; [reflexivity|].
  rewrite (Hf a) by now left. apply IH. intros x Hx. apply Hf. now right.
Qed.

Lemma region_eqb_eq (a b : Pandas.region) : Pandas.region_eqb a b = true <-> a = b.
Proof.
  destruct a as [c s], b as [c' s']. unfold Pandas.region_eqb. simpl.
  rewrite andb_true_iff, String.eqb_eq, option_eqb_eq. split.
  - intros [-> ->]. reflexivity.
  - intros E. injection E as -> ->. split; reflexivity.
Qed.

Lemma none_string_some (c : string) :
  c <> "None"%string -> JHU.none_string (Some c) = Some c.
Proof. intros Hc. simpl. apply String.eqb_neq in Hc. now rewrite Hc. Qed.

Section Unmatched.

Context `{Pandas.Indexing}.

(** On a table with at least one record, valid names and bounds that
    are omitted or datetimes, [RKI.filter] returns, and what it returns
    is a date range of the cumulative series of the selected rows. *)
Lemma RKI_filter_returns data begin_date end_date variable date_type level value_ :
  data <> [] ->
  In variable RKI.valid_variables ->
  In level RKI.valid_levels ->
  In date_type RKI.valid_date_types ->
  datetime_or_omitted begin_date ->
  datetime_or_omitted end_date ->
  exists key count tb te,
    RKI.date_column date_type = Returned key /\
    RKI.int_column variable = Returned count /\
    RKI.filter (Some data) begin_date end_date variable date_type level value_ =
      Returned (Pandas.between tb te
                  (cumulative key count (List.filter (in_region level value_) data))).
Proof.
  intros Hdata Hv Hl Hd Hb He.
  destruct (RKI_filter_unfold (Some data) begin_date end_date variable date_type level value_ Hv Hl Hd)
    as [key [count [Hkey [Hcount Heq]]]].
  assert (Hsorted : map key (RKI.sort_values key data) <> [])
    by now apply map_nonempty, sort_values_nonempty.
  destruct (default_bound_datetime begin_date _ Hb (iloc_first_nonempty _ Hsorted)) as [tb Etb].
  destruct (default_bound_datetime end_date _ He (iloc_last_nonempty _ Hsorted)) as [te Ete].
  exists key, count, tb, te. split; [exact Hkey|]. split; [exact Hcount|].
  rewrite Heq. simpl. rewrite Etb. simpl. rewrite Ete. simpl.
  now rewrite slice_dates_cumulative.
Qed.

Lemma select_unknown_country table df c :
  table = Some df -> unknown_country df c ->
  JHU.select_sum_axis1 table (Some c) None = Raised KeyError.
Proof.
  intros -> Hc. simpl. unfold JHU.getitem_country.
  rewrite filter_none; [reflexivity|].
  intros col Hcol. apply String.eqb_neq. now apply Hc.
Qed.

Lemma select_unknown_state table df c st :
  table = Some df -> unknown_state df c st ->
  JHU.select_sum_axis1 table (Some c) (Some st) = Raised KeyError.
Proof.
  intros -> Hc. simpl. unfold JHU.getitem_column.
  rewrite filter_none; [reflexivity|].
  intros col Hcol. destruct (Pandas.region_eqb (fst col) (c, Some st)) eqn:E; [|reflexivity].
  apply region_eqb_eq in E. now apply Hc in Hcol.
Qed.


End Unmatched.



(** *** The guard on the date range *)

Lemma map_fst_graph {A B : Type} (f : A -> B) (l : list A) :
  map fst (map (fun d => (d, f d)) l) = l.
Proof. induction l as [|a l IH]; simpl; [reflexivity | now rewrite IH]. Qed.

Lemma pivot_index key count (df : RKI.table) (dates : list Z) (lands : list string) :
  map fst (RKI.pivot key count df dates lands) = dates.
Proof. unfold RKI.pivot. apply map_fst_graph. Qed.

Lemma pivot_fillna_index (t : Pandas.dtype) (cells : list (Z * list (option Z))) :
  map fst (RKI.pivot_fillna t cells) = map fst cells.
Proof. unfold RKI.pivot_fillna. rewrite map_map. reflexivity. Qed.

Section Guard.

Context `{Pandas.Indexing}.

Lemma cast_slice_not_invalid_dates {A B : Type} (a b : value) (df : list (Z * A))
    (k : list (Z * A) -> B) :
  Pandas.ascendingb (map fst df) = true ->
  (rows <- Pandas.slice_dates df a b ;; Returned (k rows))
  <> Raised (ValueError Msg.invalid_dates).
Proof.
  intros Hasc. unfold Pandas.slice_dates. rewrite Hasc.
  destruct a as [ta|c st|x], b as [tb|c' st'|y]; simpl; try discriminate;
    repeat match goal with
           | |- context [Pandas.cast_slice_bound ?sd ?x] =>
               destruct (Pandas.cast_slice_bound sd x); simpl
           end; discriminate.
Qed.

(** C3, evaluated where it fails.  The guard only fires when the begin
    is no datetime and the end is one.  With two strings as bounds it is
    false, and the three accessors go on to slice with the strings:
    [JHU.filter_date] and [RKI.filter] hand them to pandas, and none of
    the two RKI accessors raises the ValueError about the dates.  A
    datetime begin with a string end passes the guard as well. *)
Theorem date_guard_passes_non_datetime_bounds (a b : string) :
  date_guard (VStr a) (VStr b) = false
  /\ (forall t, date_guard (VDatetime t) (VStr b) = false)
  /\ (forall t, date_guard (VStr a) (VDatetime t) = true)
  /\ (forall df,
        JHU.filter_date df (Some (VStr a)) (Some (VStr b))
        = JHU.getitem_slice df (VStr a) (VStr b))
  /\ (forall data,
        RKI.filter (Some data) (Some (VStr a)) (Some (VStr b)) "AnzahlFall" "date" None None
        = Pandas.slice_dates
            (cumulative RKI.date (fun r => RKI.AnzahlFall (RKI.attrs r)) data)
            (VStr a) (VStr b))
  /\ (forall data,
        RKI.filter (Some data) (Some (VStr a)) (Some (VStr b)) "AnzahlFall" "date" None None
        <> Raised (ValueError Msg.invalid_dates))
  /\ (forall data,
        RKI.filter_all_bundesland (Some data) (Some (VStr a)) (Some (VStr b)) "AnzahlFall" "date"
        <> Raised (ValueError Msg.invalid_dates)).
Proof.
  assert (Hfilter : forall data,
    RKI.filter (Some data) (Some (VStr a)) (Some (VStr b)) "AnzahlFall" "date" None None
    = Pandas.slice_dates
        (cumulative RKI.date (fun r => RKI.AnzahlFall (RKI.attrs r)) data)
        (VStr a) (VStr b)).
  { intros data. reflexivity. }
  split; [reflexivity|]. split; [reflexivity|]. split; [reflexivity|].
  split; [reflexivity|]. split; [exact Hfilter|]. split.
  - intros data. rewrite Hfilter.
    intros E.
    apply (cast_slice_not_invalid_dates (VStr a) (VStr b)
             (cumulative RKI.date (fun r => RKI.AnzahlFall (RKI.attrs r)) data)
             (fun rows => rows)).
    + apply cumulative_ascending.
    + destruct (Pandas.slice_dates _ _ _); simpl; [discriminate E | exact E].
  - intros data. unfold RKI.filter_all_bundesland.
    cbn -[RKI.pivot_fillna RKI.pivot RKI.pivot_dtype Pandas.groupby_sum RKI.bundeslaender
          RKI.cumsum_rows Pandas.slice_dates].
    apply cast_slice_not_invalid_dates.
    rewrite pivot_fillna_index, pivot_index. apply sorted_ascendingb, groupby_sum_sorted.
Qed.

End Guard.

(** *** Daily series *)

Lemma diff_from_index {L : Type} (prev : Z) (s : list (L * Z)) :
  map fst (Pandas.diff_from prev s) = map fst s.
Proof.
  revert prev. induction s as [|[l v] rest IH]; simpl; intros prev; [reflexivity|].
  now rewrite IH.
Qed.

Lemma filter_keeps_all {A : Type} (f : A -> bool) (l : list A) :
  (forall x, In x l -> f x = true) -> List.filter f l = l.
Proof.
  induction l as [|a l IH]; simpl; intros Hf; [reflexivity|].
  rewrite (Hf a) by now left. f_equal. apply IH. intros x Hx. apply Hf. now right.
Qed.

Section Daily.

Context `{Pandas.Indexing} {L : Type}.
Variable eqb : L -> L -> bool.
Hypothesis eqb_eq : forall a b, eqb a b = true <-> a = b.

(** A difference of at most 2^53 in magnitude goes through int64 and
    float64 and back unchanged. *)
Lemma exact_step (a b : Z) :
  Z.abs (b - a) <= Float64.exact ->
  Pandas.to_int64 (Float64.of_int64 (Int64.sub b a)) = b - a.
Proof.
  intros Hstep. unfold Int64.sub, Float64.of_int64, Pandas.to_int64.
  rewrite (wrap_in_range (b - a)) by now apply exact_in_range.
  rewrite (round_exact (b - a) Hstep).
  now rewrite (int64_in_rangeb (b - a)) by now apply exact_in_range.
Qed.

Lemma astype_int_diff_from (prev : Z) (s : list (L * Z)) :
  Forall (fun r => Z.abs (snd r) <= Float64.exact) (deltas prev s) ->
  Pandas.astype_int (Pandas.diff_from prev s) = Returned (deltas prev s).
Proof.
  revert prev. induction s as [|[l v] rest IH]; simpl; intros prev Hsmall; [reflexivity|].
  inversion Hsmall as [|? ? Hv Hrest]; subst. simpl in Hv.
  rewrite (IH v Hrest). simpl. now rewrite (exact_step prev v Hv).
Qed.

(** On a frame whose labels are distinct, the one-liner drops exactly
    the first row, and no NaN is left for the integer cast; where the
    steps are small the differences come out as they are. *)
Lemma diff_drop_first_spec (s : list (L * Z)) :
  s <> [] ->
  NoDup (map fst s) ->
  small_steps s ->
  diff_drop_first eqb s = Returned (first_difference s).
Proof.
  destruct s as [|[l0 v0] rest]; [congruence|]. intros _ Hnodup Hsmall.
  inversion Hnodup as [|? ? Hnotin _]; subst.
  assert (Hrefl : eqb l0 l0 = true) by now apply eqb_eq.
  unfold diff_drop_first, Pandas.drop. simpl. rewrite Hrefl. simpl.
  rewrite filter_keeps_all; [now apply astype_int_diff_from|].
  intros x Hx. destruct (eqb l0 (fst x)) eqn:E; [|reflexivity].
  apply eqb_eq in E. exfalso. apply Hnotin.
  rewrite E, <- (diff_from_index v0 rest). now apply in_map.
Qed.

Lemma diff_drop_first_empty : diff_drop_first eqb [] = Raised IndexError.
Proof. reflexivity. Qed.

End Daily.

Lemma first_difference_single {L : Type} (s : list (L * Z)) :
  List.length s = 1%nat -> first_difference s = [].
Proof. destruct s as [|[l v] [|r rest]]; simpl; intros E; try discriminate; reflexivity. Qed.

Lemma StronglySorted_lt_NoDup (l : list Z) : StronglySorted Z.lt l -> NoDup l.
Proof.
  induction 1 as [|a l Hl IH Hall]; constructor; [|exact IH].
  intros Hin. rewrite Forall_forall in Hall. specialize (Hall a Hin). lia.
Qed.

Lemma NoDup_map_filter {A B : Type} (g : A -> B) (f : A -> bool) (l : list A) :
  NoDup (map g l) -> NoDup (map g (List.filter f l)).
Proof.
  induction l as [|a l IH]; simpl; intros Hn; [constructor|].
  inversion Hn as [|? ? Hnotin Hrest]; subst.
  destruct (f a); simpl; [|now apply IH].
  constructor; [|now apply IH].
  intros Hin. apply Hnotin. apply in_map_iff in Hin. destruct Hin as [x [Hx Hxin]].
  apply filter_In in Hxin. rewrite <- Hx. apply in_map. tauto.
Qed.

Lemma series_unique_single (df : JHU.series) :
  series_length df = 1%nat -> series_unique df.
Proof.
  destruct df as [[|r [|r' rows]]|[|r [|r' rows]]]; simpl; intros E; try discriminate;
    (constructor; [intros [] | constructor]).
Qed.

Lemma series_small_steps_single (df : JHU.series) :
  series_length df = 1%nat -> series_small_steps df.
Proof.
  destruct df as [rows|rows]; simpl; intros E; unfold small_steps;
    rewrite (first_difference_single rows E); constructor.
Qed.

Section Daily_accessors.

Context `{Pandas.Indexing}.

(** The dates of a series [RKI.filter] returns are distinct. *)
Lemma RKI_filter_unique self_data begin_date end_date variable date_type level value_ s :
  RKI.filter self_data begin_date end_date variable date_type level value_ = Returned s ->
  NoDup (map fst s).
Proof.
  intros Hret. apply RKI_filter_returned in Hret.
  destruct Hret as [data [key [count [tb [te [_ [_ [_ ->]]]]]]]].
  apply NoDup_map_filter, StronglySorted_lt_NoDup, cumulative_dates_sorted.
Qed.

Lemma RKI_daily self_data begin_date end_date variable date_type level value_ s :
  s <> [] ->
  small_steps s ->
  RKI.filter self_data begin_date end_date variable date_type level value_ = Returned s ->
  (df <- RKI.filter self_data begin_date end_date variable date_type level value_ ;;
   diff_drop_first Z.eqb df) = Returned (first_difference s).
Proof.
  intros Hs Hsmall Hret. rewrite Hret. simpl.
  apply (diff_drop_first_spec Z.eqb Z.eqb_eq s Hs); [|exact Hsmall].
  exact (RKI_filter_unique _ _ _ _ _ _ _ _ Hret).
Qed.

Lemma JHU_daily (df : JHU.series) :
  series_length df <> 0%nat ->
  series_unique df ->
  series_small_steps df ->
  JHU.daily df = Returned (series_first_difference df).
Proof.
  destruct df as [rows|rows]; simpl; intros Hlen Hnodup Hsmall.
  - rewrite (diff_drop_first_spec Z.eqb Z.eqb_eq rows); [reflexivity| |exact Hnodup|exact Hsmall].
    intros ->. now apply Hlen.
  - rewrite (diff_drop_first_spec Pandas.region_eqb region_eqb_eq rows);
      [reflexivity| |exact Hnodup|exact Hsmall].
    intros ->. now apply Hlen.
Qed.

(** What [get_recovered] hands to [filter_date] without a country is
    labelled by regions, and so is what comes back. *)
Lemma JHU_get_recovered_by_region self state begin_date end_date df :
  JHU.get_recovered self None state begin_date end_date = Returned df ->
  exists rows, df = JHU.ByRegion rows.
Proof.
  unfold JHU.get_recovered. simpl.
  destruct (JHU.recovered self) as [table|]; simpl; [|discriminate].
  unfold JHU.filter_date, JHU.getitem_slice, JHU.first_label, JHU.last_label.
  destruct begin_date as [b|], end_date as [e|]; simpl;
    repeat match goal with
           | |- context [Pandas.index_first ?r] => destruct (Pandas.index_first r); simpl
           | |- context [Pandas.index_last ?r] => destruct (Pandas.index_last r); simpl
           | |- context [date_guard ?x ?y] => destruct (date_guard x y); simpl
           | |- context [Pandas.multiindex_slice ?r ?x ?y] =>
               destruct (Pandas.multiindex_slice r x y) as [rows|]; simpl
           end;
    intros E; try discriminate E; injection E as <-; eexists; reflexivity.
Qed.


End Daily_accessors.



(** *** JHU retrieval and the recovered accessor *)

(** C5, evaluated where it fails.  The three download methods call
    [__download_from_source] without a fallback name.  On a machine where
    the URL cannot be fetched, and every local file could be read, the
    notice is printed and then the path of the local copy cannot be built:
    the call raises TypeError, returns no table and assigns no
    attribute. *)
Theorem JHU_download_raises_when_fetch_fails
    (strptime : string -> option Z) (this_dir : string) (bundled : JHU.csv)
    (url : string) (save : bool) (s : JHU.state) :
  let read_csv := Sample.unreachable bundled url in
  JHU.download_confirmed read_csv strptime this_dir url save s
    = (Raised TypeError, JHU.print JHU.failed_notice s)
  /\ JHU.download_deaths read_csv strptime this_dir url save s
    = (Raised TypeError, JHU.print JHU.failed_notice s)
  /\ JHU.download_recovered read_csv strptime this_dir url save s
    = (Raised TypeError, JHU.print JHU.failed_notice s)
  /\ JHU.self (JHU.print JHU.failed_notice s) = JHU.self s.
Proof.
  unfold JHU.download_confirmed, JHU.download_deaths, JHU.download_recovered,
    JHU.__download_from_source, Sample.unreachable.
  rewrite String.eqb_refl. simpl. repeat split.
Qed.

Section Recovered.

Context `{Pandas.Indexing}.

(** C8, evaluated where it fails.  Without a selector [get_recovered]
    never returns a frame indexed by date: [self.recovered.sum()] sums
    over the dates, so the frame it hands to [filter_date] has one row
    per (country, state) column.  On the table of two dates and two
    countries, [get_confirmed] gives the two per-date totals 3 and 7,
    [get_recovered] slices the two per-country totals 4 and 6. *)
Theorem JHU_get_recovered_is_indexed_by_region :
  (forall self begin_date end_date,
      match JHU.get_recovered self None None begin_date end_date with
      | Returned (JHU.ByDate _) => False
      | _ => True
      end)
  /\ JHU.get_confirmed Sample.jhu None None None None
      = Returned (JHU.ByDate [(1, 3); (2, 7)])
  /\ JHU.get_deaths Sample.jhu None None None None
      = Returned (JHU.ByDate [(1, 3); (2, 7)])
  /\ JHU.get_recovered Sample.jhu None None None None
      = fmap JHU.ByRegion
          (Pandas.multiindex_slice
             [(("Germany"%string, None), 4); (("Italy"%string, None), 6)]
             (VTuple "Germany" None) (VTuple "Italy" None)).
Proof.
  split; [|repeat split].
  intros self begin_date end_date. unfold JHU.get_recovered. simpl.
  destruct (JHU.recovered self) as [df|]; simpl; [|exact I].
  unfold JHU.filter_date, JHU.getitem_slice, JHU.first_label, JHU.last_label.
  destruct begin_date as [b|], end_date as [e|]; simpl;
    repeat match goal with
           | |- True => exact I
           | |- context [Pandas.index_first ?r] => destruct (Pandas.index_first r); simpl
           | |- context [Pandas.index_last ?r] => destruct (Pandas.index_last r); simpl
           | |- context [date_guard ?x ?y] => destruct (date_guard x y); simpl
           | |- context [Pandas.multiindex_slice ?r ?x ?y] =>
               destruct (Pandas.multiindex_slice r x y); simpl
           end.
Qed.

End Recovered.

(** *** RKI retrieval *)

Lemma insert_by_ext (k1 k2 : RKI.row -> Z) (r : RKI.row) (l : list RKI.row) :
  (forall x, In x (r :: l) -> k1 x = k2 x) ->
  RKI.insert_by k1 r l = RKI.insert_by k2 r l.
Proof.
  induction l as [|a l IH]; simpl; intros Hk; [reflexivity|].
  rewrite (Hk r), (Hk a) by tauto.
  destruct (k2 r <? k2 a); [reflexivity|].
  f_equal. apply IH. intros x [<-|Hx]; apply Hk; simpl; tauto.
Qed.

Lemma insert_by_In (k : RKI.row -> Z) (r x : RKI.row) (l : list RKI.row) :
  In x (RKI.insert_by k r l) -> x = r \/ In x l.
Proof.
  induction l as [|a l IH]; simpl.
  - intros [<-|[]]. now left.
  - destruct (k r <? k a); simpl.
    + intros [<-|[<-|Hx]]; tauto.
    + intros [<-|Hx]; [tauto|]. apply IH in Hx. tauto.
Qed.

Lemma sort_values_In (k : RKI.row -> Z) (x : RKI.row) (data : RKI.table) :
  In x (RKI.sort_values k data) -> In x data.
Proof.
  induction data as [|r data IH]; simpl; [tauto|].
  intros Hx. apply insert_by_In in Hx. destruct Hx as [->|Hx]; [now left | right; now apply IH].
Qed.

Lemma sort_values_ext (k1 k2 : RKI.row -> Z) (data : RKI.table) :
  (forall x, In x data -> k1 x = k2 x) ->
  RKI.sort_values k1 data = RKI.sort_values k2 data.
Proof.
  induction data as [|r data IH]; simpl; intros Hk; [reflexivity|].
  rewrite IH by (intros x Hx; apply Hk; now right).
  apply insert_by_ext. intros x [<-|Hx]; apply Hk; [now left|].
  right. now apply (sort_values_In k2).
Qed.

Lemma in_combine_diag {A : Type} (x y : A) (l : list A) : In (x, y) (combine l l) -> x = y.
Proof.
  induction l as [|a l IH]; simpl; [tauto|].
  intros [E|Hin]; [now injection E as <- <- | now apply IH].
Qed.

Section Date_kinds.

Context `{Pandas.Indexing}.

(** On a table whose two date columns agree row by row, the date kind
    makes no difference to [RKI.filter]. *)
Lemma RKI_filter_date_kinds_agree data begin_date end_date variable level value_ :
  (forall r, In r data -> RKI.date_ref r = RKI.date r) ->
  RKI.filter (Some data) begin_date end_date variable "date_ref" level value_
  = RKI.filter (Some data) begin_date end_date variable "date" level value_.
Proof.
  intros Hsame.
  assert (E1 : map RKI.date_ref (RKI.sort_values RKI.date_ref data)
               = map RKI.date (RKI.sort_values RKI.date data)).
  { rewrite (sort_values_ext RKI.date_ref RKI.date data Hsame).
    apply map_ext_in. intros r Hr. apply Hsame. now apply (sort_values_In RKI.date). }
  assert (E2 : forall (f : RKI.row -> bool) (count : RKI.row -> Z),
             map (fun r => (RKI.date_ref r, count r)) (List.filter f data)
             = map (fun r => (RKI.date r, count r)) (List.filter f data)).
  { intros f count. apply map_ext_in. intros r Hr. apply filter_In in Hr.
    now rewrite Hsame. }
  assert (E3 : forall count : RKI.row -> Z,
             map (fun r => (RKI.date_ref r, count r)) data
             = map (fun r => (RKI.date r, count r)) data).
  { intros count. apply map_ext_in. intros r Hr. now rewrite Hsame. }
  unfold RKI.filter.
  destruct (negb (RKI.in_strings variable RKI.valid_variables)); [reflexivity|].
  destruct (negb (RKI.in_levels level RKI.valid_levels)); [reflexivity|].
  simpl. rewrite E1.
  destruct (RKI.default_bound begin_date _) as [b|]; [|reflexivity]. simpl.
  destruct (RKI.default_bound end_date _) as [e|]; [|reflexivity]. simpl.
  destruct (date_guard b e); [reflexivity|].
  destruct level as [lv|]; simpl.
  - destruct (RKI.str_column lv) as [col|]; [|reflexivity]. simpl.
    destruct (RKI.int_column variable) as [count|]; [|reflexivity]. simpl.
    now rewrite E2.
  - destruct (RKI.int_column variable) as [count|]; [|reflexivity]. simpl.
    now rewrite E3.
Qed.

End Date_kinds.

Section RKI_download.

Context `{Pandas.Indexing}.
Variable World : Type.
Variable urlopen_ids : string -> World -> option (list string) * World.
Variable urlopen_rows : string -> World -> option (list RKI.attributes) * World.
Variable fromtimestamp : Z -> Z.
Variable read_fallback : string -> option (list RKI.fallback_record).
Variable to_datetime : string -> option Z.
Variable this_dir : string.

Abbreviation state := (RKI.state World).
Abbreviation try_query := (RKI.try_query World urlopen_rows).
Abbreviation all_tries_fail := (all_tries_fail World urlopen_rows).
Abbreviation while_tries := (RKI.while_tries World urlopen_rows).
Abbreviation for_landkreise := (RKI.for_landkreise World urlopen_rows).
Abbreviation load_fallback := (RKI.load_fallback read_fallback to_datetime this_dir).
Abbreviation download_all_available_data :=
  (RKI.download_all_available_data World urlopen_ids urlopen_rows fromtimestamp
     read_fallback to_datetime this_dir).

Lemma while_tries_step try_max count_try url data_flat s :
  while_tries try_max count_try url data_flat s =
    if count_try <? try_max then
      match try_query url s with
      | (Some features, s') => (count_try, Some features, s')
      | (None, s') => while_tries try_max (count_try + 1) url data_flat s'
      end
    else (count_try, data_flat, s).
Proof.
  rewrite RKI.while_tries_equation_1.
  destruct (Z_lt_dec count_try try_max) as [Hlt|Hge]; simpl.
  - rewrite (proj2 (Z.ltb_lt count_try try_max) Hlt).
    destruct (try_query url s) as [[features|] s']; reflexivity.
  - rewrite (proj2 (Z.ltb_nlt count_try try_max) Hge). reflexivity.
Qed.

Lemma try_query_frame url s :
  RKI.requests (snd (try_query url s)) = RKI.requests s ++ [url]
  /\ RKI.stdout (snd (try_query url s)) = RKI.stdout s
  /\ RKI.data (snd (try_query url s)) = RKI.data s.
Proof.
  unfold RKI.try_query, RKI.fetch_rows.
  destruct (urlopen_rows url (RKI.world s)) as [[features|] w]; simpl.
  - destruct (Z.of_nat (List.length features) >? RKI.query_limit); simpl; auto.
  - auto.
Qed.

(** The loop, by the number of tries it still has. *)
Lemma while_tries_spec (n : nat) :
  forall try_max count_try url data_flat s,
    n = Z.to_nat (try_max - count_try) ->
    count_try <= try_max ->
    let r := while_tries try_max count_try url data_flat s in
    RKI.stdout (snd r) = RKI.stdout s
    /\ RKI.data (snd r) = RKI.data s
    /\ count_try <= fst (fst r) <= try_max
    /\ (exists k, RKI.requests (snd r) = RKI.requests s ++ repeat url k
                  /\ (k <= n)%nat
                  /\ (fst (fst r) < try_max -> (1 <= k)%nat))
    /\ (fst (fst r) < try_max -> exists features, snd (fst r) = Some features)
    /\ (fst (fst r) = try_max <-> all_tries_fail n url s).
Proof.
  induction n as [|n IH]; intros try_max count_try url data_flat s Hn Hle r; subst r.
  - rewrite while_tries_step.
    assert (Hge : (count_try <? try_max) = false) by (apply Z.ltb_ge; lia).
    rewrite Hge. simpl.
    split; [reflexivity|]. split; [reflexivity|]. split; [lia|].
    split; [exists 0%nat; simpl; rewrite app_nil_r; repeat split; lia|].
    split; [lia|]. split; [intros _; exact I | intros _; lia].
  - rewrite while_tries_step.
    assert (Hlt : (count_try <? try_max) = true) by (apply Z.ltb_lt; lia).
    rewrite Hlt.
    pose proof (try_query_frame url s) as [Hreq [Hout Hdata]].
    change (all_tries_fail (S n) url s)
      with (fst (try_query url s) = None /\ all_tries_fail n url (snd (try_query url s))).
    destruct (try_query url s) as [[features|] s'] eqn:Etry; simpl in *.
    + split; [assumption|]. split; [assumption|]. split; [lia|].
      split; [exists 1%nat; simpl; repeat split; [assumption | lia | lia]|].
      split; [intros _; now exists features|].
      split; [lia | intros [E _]; discriminate E].
    + specialize (IH try_max (count_try + 1) url data_flat s').
      destruct IH as [Hout' [Hdata' [Hcount [[k [Hreq' [Hk Hk1]]] [Hsome Hfail]]]]];
        [lia | lia |].
      split; [now rewrite Hout'|]. split; [now rewrite Hdata'|]. split; [lia|].
      split.
      { exists (S k). rewrite Hreq', Hreq, <- app_assoc. simpl.
        repeat split; [lia | lia]. }
      split; [exact Hsome|].
      split; [intros E; split; [reflexivity | now apply Hfail] | intros [_ Hall]; now apply Hfail].
Qed.

(** A loop that is not allowed a single try leaves everything as it
    was. *)
Lemma while_tries_none try_max url data_flat s :
  try_max <= 0 -> while_tries try_max 0 url data_flat s = (0, data_flat, s).
Proof.
  intros Hle. rewrite while_tries_step.
  assert (Hge : (0 <? try_max) = false) by (apply Z.ltb_ge; lia).
  now rewrite Hge.
Qed.

Lemma for_landkreise_app try_max pre post df data_flat s :
  for_landkreise try_max (pre ++ post) df data_flat s =
    match for_landkreise try_max pre df data_flat s with
    | (Returned (df', data_flat'), s') => for_landkreise try_max post df' data_flat' s'
    | (Raised e, s') => (Raised e, s')
    end.
Proof.
  revert df data_flat s. induction pre as [|id pre IH]; intros df data_flat s; [reflexivity|].
  simpl.
  destruct (while_tries try_max 0 (RKI.url_str id) data_flat s) as [[c d] s1].
  destruct (c =? try_max); [reflexivity|].
  destruct d as [df_temp|]; [apply IH | reflexivity].
Qed.

(** What the loop over the districts leaves behind: it prints nothing
    and assigns nothing, every request it makes is the query of one of
    the districts, a run that comes back has queried each of them, and a
    run that does not has exhausted the tries of one. *)
Lemma for_landkreise_spec try_max :
  0 <= try_max ->
  forall unique_ids df data_flat s r s',
    for_landkreise try_max unique_ids df data_flat s = (r, s') ->
    RKI.stdout s' = RKI.stdout s
    /\ RKI.data s' = RKI.data s
    /\ exists reqs,
         RKI.requests s' = RKI.requests s ++ reqs
         /\ Forall (fun u => exists id, In id unique_ids /\ u = RKI.url_str id) reqs
         /\ match r with
            | Returned _ => forall id, In id unique_ids -> In (RKI.url_str id) reqs
            | Raised e => e = ValueError Msg.max_tries
            end.
Proof.
  intros Hmax unique_ids.
  induction unique_ids as [|id rest IH]; intros df data_flat s r s' Hrun; simpl in Hrun.
  - injection Hrun as <- <-. split; [reflexivity|]. split; [reflexivity|].
    exists []. rewrite app_nil_r. split; [reflexivity|]. split; [constructor|].
    intros id [].
  - pose proof (while_tries_spec (Z.to_nat try_max) try_max 0 (RKI.url_str id) data_flat s)
      as Hloop.
    destruct (while_tries try_max 0 (RKI.url_str id) data_flat s) as [[c d] s1].
    simpl in Hloop.
    destruct Hloop as [Hout [Hdata [Hc [[k [Hreq [Hk Hk1]]] [Hsome Hfail]]]]];
      [f_equal; lia | lia |].
    assert (Hurls : Forall (fun u => exists id', In id' (id :: rest) /\ u = RKI.url_str id')
                           (repeat (RKI.url_str id) k)).
    { apply Forall_forall. intros u Hu. apply repeat_spec in Hu. exists id. simpl. tauto. }
    destruct (c =? try_max) eqn:Ec.
    + injection Hrun as <- <-. split; [exact Hout|]. split; [exact Hdata|].
      exists (repeat (RKI.url_str id) k). repeat split; assumption.
    + apply Z.eqb_neq in Ec.
      destruct Hsome as [features ->]; [lia|].
      apply IH in Hrun. destruct Hrun as [Hout' [Hdata' [reqs [Hreq' [Hall Hres]]]]].
      split; [now rewrite Hout'|]. split; [now rewrite Hdata'|].
      exists (repeat (RKI.url_str id) k ++ reqs).
      split; [now rewrite Hreq', Hreq, app_assoc|].
      split.
      * apply Forall_app. split; [exact Hurls|].
        eapply Forall_impl; [|exact Hall]. intros u [id' [Hin ->]]. exists id'. simpl. tauto.
      * destruct r as [res|e]; [|exact Hres].
        intros id' [<-|Hin]; apply in_or_app.
        -- left. destruct k as [|k']; [lia | now left].
        -- right. now apply Hres.
Qed.

Lemma for_landkreise_negative try_max id rest df s :
  try_max < 0 ->
  for_landkreise try_max (id :: rest) df None s = (Raised UnboundLocalError, s).
Proof.
  intros Hneg. simpl. rewrite while_tries_none by lia.
  assert (E : (0 =? try_max) = false) by (apply Z.eqb_neq; lia).
  now rewrite E.
Qed.

Lemma for_landkreise_exhausted try_max id post df data_flat s :
  0 <= try_max ->
  all_tries_fail (Z.to_nat try_max) (RKI.url_str id) s ->
  exists s',
    for_landkreise try_max (id :: post) df data_flat s = (Raised (ValueError Msg.max_tries), s')
    /\ RKI.data s' = RKI.data s.
Proof.
  intros Hmax Hfail. simpl.
  pose proof (while_tries_spec (Z.to_nat try_max) try_max 0 (RKI.url_str id) data_flat s)
    as Hloop.
  destruct (while_tries try_max 0 (RKI.url_str id) data_flat s) as [[c d] s1].
  simpl in Hloop.
  destruct Hloop as [_ [Hdata [_ [_ [_ Hiff]]]]]; [f_equal; lia | lia |].
  apply Hiff in Hfail. subst c. rewrite Z.eqb_refl.
  exists s1. split; [reflexivity | exact Hdata].
Qed.

Lemma load_fallback_dates df :
  load_fallback = Returned df -> forall r, In r df -> RKI.date_ref r = RKI.date r.
Proof.
  unfold RKI.load_fallback.
  destruct (read_fallback _) as [records|]; [|discriminate].
  destruct (RKI.to_datetime_text to_datetime _) as [dates|]; [|discriminate].
  simpl. intros E r Hr. injection E as <-.
  apply in_map_iff in Hr. destruct Hr as [[rec [d dref]] [<- Hin]]. simpl.
  apply in_combine_r in Hin. unfold RKI.to_datetime_datetimes in Hin.
  symmetry. now apply (in_combine_diag d dref dates).
Qed.

(** C6.  With a non-negative [try_max], on the per-district path: the
    loop of one district opens its URL at most [try_max] times, a reply
    of more than 5000 features counts as a failed try, and as soon as
    the [try_max] tries of one district all fail, the districts before
    it having been fetched, the call raises the ValueError of the
    exhausted tries and leaves [self.data] as it was.  No call returns a
    table without assigning it, and no call that raises assigns one. *)
Theorem RKI_retries_bounded_and_exhaustion_fatal (try_max : Z) :
  0 <= try_max ->
  (forall url data_flat s,
      exists k, RKI.requests (snd (while_tries try_max 0 url data_flat s))
                = RKI.requests s ++ repeat url k
                /\ Z.of_nat k <= try_max)
  /\
  (forall url s features w,
      urlopen_rows url (RKI.world s) = (Some features, w) ->
      RKI.query_limit < Z.of_nat (List.length features) ->
      fst (try_query url s) = None)
  /\
  (forall s unique_ids w pre id post df_pre data_flat s_pre,
      urlopen_ids RKI.url_id (RKI.world s) = (Some unique_ids, w) ->
      RKI.landkreise_max <= Z.of_nat (List.length unique_ids) ->
      unique_ids = pre ++ id :: post ->
      for_landkreise try_max pre [] None
        (after_discovery s w (Z.of_nat (List.length unique_ids)))
        = (Returned (df_pre, data_flat), s_pre) ->
      all_tries_fail (Z.to_nat try_max) (RKI.url_str id) s_pre ->
      exists s',
        download_all_available_data try_max s = (Raised (ValueError Msg.max_tries), s')
        /\ RKI.data s' = RKI.data s)
  /\
  (forall s,
      match download_all_available_data try_max s with
      | (Returned df, s') => RKI.data s' = Some df
      | (Raised _, s') => RKI.data s' = RKI.data s
      end).
Proof.
  intros Hmax. split; [|split; [|split]].
  - intros url data_flat s.
    destruct (while_tries_spec (Z.to_nat try_max) try_max 0 url data_flat s)
      as [_ [_ [_ [[k [Hreq [Hk _]]] _]]]]; [f_equal; lia | lia |].
    exists k. split; [exact Hreq | lia].
  - intros url s features w Hopen Hmany.
    unfold RKI.try_query, RKI.fetch_rows. rewrite Hopen.
    assert (E : (Z.of_nat (List.length features) >? RKI.query_limit) = true).
    { rewrite Z.gtb_ltb. apply Z.ltb_lt. exact Hmany. }
    now rewrite E.
  - intros s unique_ids w pre id post df_pre data_flat s_pre Hopen Hmany -> Hpre Hfail.
    destruct (for_landkreise_exhausted try_max id post df_pre data_flat s_pre Hmax Hfail)
      as [s' [Hrun Hdata]].
    exists s'. split.
    + unfold RKI.download_all_available_data, RKI.fetch_ids. rewrite Hopen.
      assert (E : (Z.of_nat (List.length (pre ++ id :: post)) >=? RKI.landkreise_max) = true).
      { rewrite Z.geb_leb. apply Z.leb_le. exact Hmany. }
      rewrite E. rewrite for_landkreise_app.
      unfold after_discovery, after_index_query in Hpre. rewrite Hpre, Hrun. reflexivity.
    + rewrite Hdata.
      apply for_landkreise_spec in Hpre; [|exact Hmax].
      destruct Hpre as [_ [-> _]]. reflexivity.
  - intros s. unfold RKI.download_all_available_data, RKI.fetch_ids.
    destruct (urlopen_ids RKI.url_id (RKI.world s)) as [[unique_ids|] w]; [|reflexivity].
    destruct (Z.of_nat (List.length unique_ids) >=? RKI.landkreise_max).
    + destruct (for_landkreise _ _ _ _ _) as [[[df dflat]|e] s3] eqn:Erun.
      * reflexivity.
      * apply for_landkreise_spec in Erun; [|exact Hmax].
        destruct Erun as [_ [-> _]]. reflexivity.
    + destruct load_fallback as [df|e]; reflexivity.
Qed.

(** Below the threshold the call is the loading of the snapshot. *)
Lemma download_takes_snapshot try_max s unique_ids w :
  urlopen_ids RKI.url_id (RKI.world s) = (Some unique_ids, w) ->
  Z.of_nat (List.length unique_ids) < RKI.landkreise_max ->
  download_all_available_data try_max s =
    let s2 := RKI.print (RKI.QueryReturned (Z.of_nat (List.length unique_ids))
                           RKI.landkreise_max) (after_index_query s w) in
    match load_fallback with
    | Returned df => (Returned df, RKI.set_data df (RKI.print RKI.FinishedDownloading s2))
    | Raised e => (Raised e, s2)
    end.
Proof.
  intros Hopen Hfew.
  unfold RKI.download_all_available_data, RKI.fetch_ids. rewrite Hopen.
  assert (E : (Z.of_nat (List.length unique_ids) >=? RKI.landkreise_max) = false).
  { rewrite Z.geb_leb. apply Z.leb_gt. exact Hfew. }
  rewrite E. reflexivity.
Qed.

Abbreviation one_answer := (answer World urlopen_rows).
Abbreviation first_answer := (first_answer World urlopen_rows).
Abbreviation retrieval := (retrieval World urlopen_rows).

Lemma try_query_answer url s :
  try_query url s
  = (fst (one_answer url (RKI.world s)), moved s (snd (one_answer url (RKI.world s))) [url]).
Proof.
  unfold RKI.try_query, RKI.fetch_rows, answer, moved.
  destruct (urlopen_rows url (RKI.world s)) as [[features|] w']; simpl; [|reflexivity].
  rewrite Z.gtb_ltb, Z.ltb_antisym.
  destruct (Z.of_nat (List.length features) <=? RKI.query_limit); reflexivity.
Qed.

Lemma moved_nil (s : state) : moved s (RKI.world s) [] = s.
Proof. destruct s. unfold moved. simpl. now rewrite app_nil_r. Qed.

Lemma moved_moved (s : state) w reqs w' reqs' :
  moved (moved s w reqs) w' reqs' = moved s w' (reqs ++ reqs').
Proof. unfold moved. simpl. now rewrite app_assoc. Qed.

(** The loop of one district is the first answer among its tries. *)
Lemma while_tries_first_answer (n : nat) :
  forall try_max count_try url data_flat s,
    n = Z.to_nat (try_max - count_try) ->
    count_try <= try_max ->
    match first_answer n url (RKI.world s) with
    | (Some features, w', k) =>
        (1 <= k <= n)%nat
        /\ while_tries try_max count_try url data_flat s
           = (count_try + Z.of_nat k - 1, Some features, moved s w' (repeat url k))
    | (None, w', k) =>
        while_tries try_max count_try url data_flat s
        = (try_max, data_flat, moved s w' (repeat url k))
    end.
Proof.
  induction n as [|n IH]; intros try_max count_try url data_flat s Hn Hle.
  - simpl. rewrite while_tries_step.
    assert (Hge : (count_try <? try_max) = false) by (apply Z.ltb_ge; lia).
    rewrite Hge, moved_nil. f_equal. f_equal. lia.
  - rewrite while_tries_step.
    assert (Hlt : (count_try <? try_max) = true) by (apply Z.ltb_lt; lia).
    rewrite Hlt, try_query_answer. simpl.
    destruct (one_answer url (RKI.world s)) as [[features|] w1]; simpl.
    + split; [lia|]. f_equal. f_equal. lia.
    + specialize (IH try_max (count_try + 1) url data_flat (moved s w1 [url])).
      simpl in IH.
      destruct (first_answer n url w1) as [[[features|] w2] k].
      * destruct IH as [Hk Hrun]; [lia | lia |]. split; [lia|].
        rewrite Hrun, moved_moved. f_equal. f_equal. lia.
      * rewrite IH by lia. now rewrite moved_moved.
Qed.

(** The loop over the districts is the retrieval by district. *)
Lemma for_landkreise_retrieval try_max :
  0 <= try_max ->
  forall unique_ids df data_flat s,
    match retrieval (Z.to_nat try_max) unique_ids (RKI.world s) with
    | (Some more, w', reqs) =>
        (exists data_flat',
           for_landkreise try_max unique_ids df data_flat s
           = (Returned (df ++ more, data_flat'), moved s w' reqs))
        /\ forall id, In id unique_ids -> In (RKI.url_str id) reqs
    | (None, w', reqs) =>
        for_landkreise try_max unique_ids df data_flat s
        = (Raised (ValueError Msg.max_tries), moved s w' reqs)
    end.
Proof.
  intros Hmax unique_ids.
  induction unique_ids as [|id rest IH]; intros df data_flat s.
  - simpl. rewrite moved_nil, app_nil_r. split; [now exists data_flat | intros id []].
  - simpl.
    pose proof (while_tries_first_answer (Z.to_nat try_max) try_max 0 (RKI.url_str id)
                  data_flat s) as Hloop.
    destruct (first_answer (Z.to_nat try_max) (RKI.url_str id) (RKI.world s))
      as [[[features|] w1] k].
    + destruct Hloop as [Hk Hrun]; [f_equal; lia | lia |]. rewrite Hrun.
      assert (E : (0 + Z.of_nat k - 1 =? try_max) = false) by (apply Z.eqb_neq; lia).
      rewrite E.
      specialize (IH (df ++ features) (Some features) (moved s w1 (repeat (RKI.url_str id) k))).
      simpl in IH.
      destruct (retrieval (Z.to_nat try_max) rest w1) as [[[more|] w2] reqs]; simpl.
      * destruct IH as [[dflat Hrest] Hall]. split.
        -- exists dflat. rewrite Hrest, moved_moved, <- app_assoc. reflexivity.
        -- intros id' [<-|Hin]; apply in_or_app.
           ++ left. destruct k as [|k']; [lia | now left].
           ++ right. now apply Hall.
      * rewrite IH, moved_moved. reflexivity.
    + rewrite Hloop by (try (f_equal; lia); lia). rewrite Z.eqb_refl. reflexivity.
Qed.


(** C10.  A table populated from the snapshot has its reference-date
    column computed from its report-date column: after a call that took
    the snapshot path and returned, the two columns agree on every row,
    and [RKI.filter] on the adapter gives the same series for the date
    kind date_ref as for the date kind date, for every metric, selector
    and date range. *)
Theorem RKI_fallback_date_kinds_coincide
    (try_max : Z) (s s' : state) (unique_ids : list string) (w : World) (df : RKI.table) :
  urlopen_ids RKI.url_id (RKI.world s) = (Some unique_ids, w) ->
  Z.of_nat (List.length unique_ids) < RKI.landkreise_max ->
  download_all_available_data try_max s = (Returned df, s') ->
  RKI.data s' = Some df
  /\ (forall r, In r df -> RKI.date_ref r = RKI.date r)
  /\ (forall begin_date end_date variable level value_,
        RKI.filter (RKI.data s') begin_date end_date variable "date_ref" level value_
        = RKI.filter (RKI.data s') begin_date end_date variable "date" level value_).
Proof.
  intros Hopen Hfew Hrun.
  rewrite (download_takes_snapshot try_max s unique_ids w Hopen Hfew) in Hrun.
  cbv zeta in Hrun.
  destruct load_fallback as [df'|e] eqn:Eload; [|discriminate].
  injection Hrun as <- <-. simpl.
  pose proof (load_fallback_dates df' Eload) as Hsame.
  split; [reflexivity|]. split; [exact Hsame|].
  intros begin_date end_date variable level value_.
  now apply RKI_filter_date_kinds_agree.
Qed.

End RKI_download.

(** Witness of [RKI_retries_bounded_and_exhaustion_fatal]: 412 districts,
    the first is fetched, the two tries of the second fail. *)
Lemma RKI_retries_bounded_and_exhaustion_fatal_witness :
  exists s',
    RKI.download_all_available_data unit (Sample.index_of 412) Sample.only_muenchen
      Sample.utc Sample.snapshot Sample.day_month_year "." 2 Sample.fresh
    = (Raised (ValueError Msg.max_tries), s')
    /\ RKI.data s' = None.
Proof.
  assert (Hmax : 0 <= 2) by lia.
  destruct (RKI_retries_bounded_and_exhaustion_fatal unit (Sample.index_of 412)
              Sample.only_muenchen Sample.utc Sample.snapshot Sample.day_month_year "."
              2 Hmax) as [_ [_ [Habort _]]].
  eapply (Habort Sample.fresh (Sample.muenchen :: repeat Sample.elsewhere 411) tt
            [Sample.muenchen] Sample.elsewhere (repeat Sample.elsewhere 410)).
  - reflexivity.
  - vm_compute. discriminate.
  - reflexivity.
  - vm_compute. reflexivity.
  - vm_compute. auto.
Defined.



(** Witness of [RKI_fallback_date_kinds_coincide]: the adapter left by the
    same call. *)
Lemma RKI_fallback_date_kinds_coincide_witness :
  @RKI.filter Sample.indexing (Some Sample.snapshot_table) None None "AnzahlFall"
    "date_ref" None None
  = @RKI.filter Sample.indexing (Some Sample.snapshot_table) None None "AnzahlFall"
      "date" None None.
Proof.
  refine (proj2 (proj2 (@RKI_fallback_date_kinds_coincide Sample.indexing unit
            (Sample.index_of 3) Sample.only_muenchen Sample.utc Sample.snapshot
            Sample.day_month_year "." 10 Sample.fresh _
            (Sample.muenchen :: repeat Sample.elsewhere 2) tt Sample.snapshot_table
            eq_refl _ eq_refl)) None None "AnzahlFall"%string None None).
  reflexivity.
Defined.

(** After a download from the service the two date kinds do differ: a
    record reported on the second day for a case of the first. *)
Lemma RKI_live_date_kinds_differ :
  @RKI.filter Sample.indexing (Some Sample.growing) None None "AnzahlFall" "date" None None
    = Returned [(1, 5); (2, 8)]
  /\ @RKI.filter Sample.indexing (Some Sample.growing) None None "AnzahlFall" "date_ref" None None
    = Returned [(1, 8)].
Proof. split; reflexivity. Qed.

(** ** Further properties of the accessors and of the retrieval *)

(** *** What RKI.filter computes *)

Lemma StronglySorted_map_filter {A B : Type} (R : B -> B -> Prop) (g : A -> B)
    (f : A -> bool) (l : list A) :
  StronglySorted R (map g l) -> StronglySorted R (map g (List.filter f l)).
Proof.
  induction l as [|a l IH]; simpl; intros Hs; [constructor|].
  inversion Hs as [|? ? Hrest Hall]; subst.
  destruct (f a); simpl; [|now apply IH].
  constructor; [now apply IH|].
  rewrite Forall_forall in *. intros x Hx. apply Hall.
  apply in_map_iff in Hx. destruct Hx as [y [<- Hy]]. apply in_map.
  apply filter_In in Hy. tauto.
Qed.

Lemma between_In {A : Type} (b e : Z) (df : list (Z * A)) (r : Z * A) :
  In r (Pandas.between b e df) <-> In r df /\ b <= fst r <= e.
Proof.
  unfold Pandas.between. rewrite filter_In, andb_true_iff, !Z.leb_le. tauto.
Qed.

Section RKI_filter_meaning.

Context `{Pandas.Indexing}.

(** What a returning call returns, with the bounds it used. *)
Lemma RKI_filter_returned_range self_data begin_date end_date variable date_type level value_ s :
  RKI.filter self_data begin_date end_date variable date_type level value_ = Returned s ->
  exists data key count b e tb te,
    self_data = Some data /\
    RKI.date_column date_type = Returned key /\
    RKI.int_column variable = Returned count /\
    RKI.default_bound begin_date (RKI.iloc_first (map key (RKI.sort_values key data)))
      = Returned b /\
    RKI.default_bound end_date (RKI.iloc_last (map key (RKI.sort_values key data)))
      = Returned e /\
    Pandas.cast_bound Pandas.Left b = Returned tb /\
    Pandas.cast_bound Pandas.Right e = Returned te /\
    s = Pandas.between tb te (cumulative key count (List.filter (in_region level value_) data)).
Proof.
  intros Hret.
  assert (Ev : In variable RKI.valid_variables).
  { apply in_strings_In. unfold RKI.filter in Hret.
    destruct (RKI.in_strings variable RKI.valid_variables); [reflexivity | discriminate]. }
  assert (El : In level RKI.valid_levels).
  { apply in_levels_In. unfold RKI.filter in Hret.
    destruct (RKI.in_strings variable RKI.valid_variables); [|discriminate].
    destruct (RKI.in_levels level RKI.valid_levels); [reflexivity | discriminate]. }
  assert (Ed : In date_type RKI.valid_date_types).
  { apply in_strings_In. unfold RKI.filter in Hret.
    destruct (RKI.in_strings variable RKI.valid_variables); [|discriminate].
    destruct (RKI.in_levels level RKI.valid_levels); [|discriminate].
    destruct (RKI.in_strings date_type RKI.valid_date_types); [reflexivity | discriminate]. }
  destruct (RKI_filter_unfold self_data begin_date end_date variable date_type level value_ Ev El Ed)
    as [key [count [Hkey [Hcount Heq]]]].
  rewrite Heq in Hret. clear Heq.
  destruct self_data as [data|]; [|discriminate]. simpl in Hret.
  destruct (RKI.default_bound begin_date _) as [b|] eqn:Eb; [|discriminate]. simpl in Hret.
  destruct (RKI.default_bound end_date _) as [e|] eqn:Ee; [|discriminate]. simpl in Hret.
  destruct (date_guard b e); [discriminate|].
  rewrite slice_dates_cumulative in Hret.
  destruct (Pandas.cast_bound Pandas.Left b) as [tb|] eqn:Etb; [|discriminate]. simpl in Hret.
  destruct (Pandas.cast_bound Pandas.Right e) as [te|] eqn:Ete; [|discriminate]. simpl in Hret.
  injection Hret as <-.
  exists data, key, count, b, e, tb, te. repeat split; assumption.
Qed.

(** X1.  On a table whose counts of the metric are int64 values, every
    row [RKI.filter] returns is dated like a record of the selected
    region, and its value is the sum of the metric over all records of
    that region dated that day or earlier, as an int64 (a sum outside the
    range of int64 has wrapped around): the running total counts from the
    start of the records, whatever [begin_date] is. *)
Theorem RKI_filter_running_total
    (data : RKI.table) (begin_date end_date : option value)
    (variable date_type : string) (level value_ : option string)
    (key count : RKI.row -> Z) (s : list (Z * Z)) (d v : Z) :
  RKI.date_column date_type = Returned key ->
  RKI.int_column variable = Returned count ->
  int64_column count data ->
  RKI.filter (Some data) begin_date end_date variable date_type level value_ = Returned s ->
  In (d, v) s ->
  (exists r, In r data /\ in_region level value_ r = true /\ key r = d)
  /\ v = Int64.wrap (running_total key count (List.filter (in_region level value_) data) d).
Proof.
  intros Hkey Hcount Hrange Hret Hin.
  apply RKI_filter_returned in Hret.
  destruct Hret as [data' [key' [count' [tb [te [Hdata [Hkey' [Hcount' ->]]]]]]]].
  injection Hdata as <-.
  rewrite Hkey in Hkey'. injection Hkey' as <-.
  rewrite Hcount in Hcount'. injection Hcount' as <-.
  apply between_In in Hin. destruct Hin as [Hin _].
  split; [|apply cumulative_value; [now apply Forall_filter | exact Hin]].
  apply (in_map fst) in Hin. apply cumulative_dates in Hin. destruct Hin as [r [Hr Hd]].
  apply filter_In in Hr. exists r. tauto.
Qed.

(** X2.  The series [RKI.filter] returns has strictly ascending dates, and
    no date before a datetime [begin_date] or after a datetime
    [end_date]. *)
Theorem RKI_filter_ordered_within_bounds
    (self_data : option RKI.table) (begin_date end_date : option value)
    (variable date_type : string) (level value_ : option string) (s : list (Z * Z)) :
  RKI.filter self_data begin_date end_date variable date_type level value_ = Returned s ->
  StronglySorted Z.lt (map fst s)
  /\ (forall tb, begin_date = Some (VDatetime tb) -> Forall (fun r => tb <= fst r) s)
  /\ (forall te, end_date = Some (VDatetime te) -> Forall (fun r => fst r <= te) s).
Proof.
  intros Hret. apply RKI_filter_returned_range in Hret.
  destruct Hret as [data [key [count [b [e [tb [te
    [_ [_ [_ [Hb [He [Htb [Hte ->]]]]]]]]]]]]]].
  split; [apply StronglySorted_map_filter, cumulative_dates_sorted|].
  split.
  - intros tb' ->. simpl in Hb. injection Hb as <-. simpl in Htb. injection Htb as <-.
    apply Forall_forall. intros r Hr. apply between_In in Hr. lia.
  - intros te' ->. simpl in He. injection He as <-. simpl in Hte. injection Hte as <-.
    apply Forall_forall. intros r Hr. apply between_In in Hr. lia.
Qed.

End RKI_filter_meaning.

(** Witness of [RKI_filter_running_total]: the second day of the growing
    table. *)
Lemma RKI_filter_running_total_witness :
  (exists r, In r Sample.growing /\ in_region None None r = true /\ RKI.date r = 2)
  /\ 8 = Int64.wrap (running_total RKI.date (fun r => RKI.AnzahlFall (RKI.attrs r))
                       (List.filter (in_region None None) Sample.growing) 2).
Proof.
  apply (@RKI_filter_running_total Sample.indexing Sample.growing None None
           "AnzahlFall" "date" None None RKI.date (fun r => RKI.AnzahlFall (RKI.attrs r))
           [(1, 5); (2, 8)] 2 8).
  - reflexivity.
  - reflexivity.
  - repeat apply Forall_cons; try apply Forall_nil;
      unfold Int64.in_range, Int64.min, Int64.max; simpl; lia.
  - reflexivity.
  - simpl. tauto.
Defined.

(** Witness of [RKI_filter_ordered_within_bounds]: the growing table from
    its second day on. *)
Lemma RKI_filter_ordered_within_bounds_witness :
  StronglySorted Z.lt (map fst [(2, 8)]) /\ Forall (fun r : Z * Z => 2 <= fst r) [(2, 8)].
Proof.
  destruct (@RKI_filter_ordered_within_bounds Sample.indexing (Some Sample.growing)
              (Some (VDatetime 2)) None "AnzahlFall" "date" None None [(2, 8)] eq_refl)
    as [Hsorted [Hbegin _]].
  split; [exact Hsorted | exact (Hbegin 2 eq_refl)].
Defined.

(** *** Date ranges, totals and tables without records *)

Lemma insert_by_In_rev (k : RKI.row -> Z) (r x : RKI.row) (l : list RKI.row) :
  x = r \/ In x l -> In x (RKI.insert_by k r l).
Proof.
  induction l as [|a l IH]; simpl.
  - intros [->|[]]. now left.
  - destruct (k r <? k a); simpl.
    + intros [->|[->|Hx]]; tauto.
    + intros [->|[->|Hx]]; [right; apply IH; now left | now left | right; apply IH; now right].
Qed.

Lemma sort_values_In_rev (k : RKI.row -> Z) (x : RKI.row) (data : RKI.table) :
  In x data -> In x (RKI.sort_values k data).
Proof.
  induction data as [|r data IH]; simpl; [tauto|].
  intros [->|Hx]; apply insert_by_In_rev; [now left | right; now apply IH].
Qed.

Lemma insert_by_hd (k : RKI.row -> Z) (r : RKI.row) (a : Z) (l : list RKI.row) :
  a <= k r -> HdRel Z.le a (map k l) -> HdRel Z.le a (map k (RKI.insert_by k r l)).
Proof.
  intros Ha Hl. destruct l as [|x l]; simpl.
  - constructor. exact Ha.
  - destruct (k r <? k x); simpl; constructor; [exact Ha | inversion Hl; assumption].
Qed.

Lemma insert_by_sorted (k : RKI.row -> Z) (r : RKI.row) (l : list RKI.row) :
  Sorted Z.le (map k l) -> Sorted Z.le (map k (RKI.insert_by k r l)).
Proof.
  induction l as [|x l IH]; simpl; intros Hs.
  - repeat constructor.
  - inversion Hs as [|? ? Hrest Hhd]; subst.
    destruct (k r <? k x) eqn:E; simpl.
    + constructor; [exact Hs|]. constructor. apply Z.ltb_lt in E. lia.
    + constructor; [now apply IH|]. apply insert_by_hd; [|exact Hhd].
      apply Z.ltb_ge in E. exact E.
Qed.

Lemma sort_values_sorted (k : RKI.row -> Z) (data : RKI.table) :
  StronglySorted Z.le (map k (RKI.sort_values k data)).
Proof.
  apply Sorted_StronglySorted; [intros x y z; apply Z.le_trans|].
  induction data as [|r data IH]; simpl; [constructor | now apply insert_by_sorted].
Qed.

Lemma sorted_last_max (l : list Z) :
  StronglySorted Z.le l ->
  forall t rest, rev l = t :: rest -> forall x, In x l -> x <= t.
Proof.
  induction 1 as [|a l Hl IH Hall]; intros t rest Hrev x Hx; [contradiction|].
  simpl in Hrev. rewrite Forall_forall in Hall.
  destruct (rev l) as [|t' rest'] eqn:E.
  - assert (l = []) as -> by (rewrite <- (rev_involutive l), E; reflexivity).
    simpl in Hrev. injection Hrev as <- <-. destruct Hx as [<-|[]]. lia.
  - simpl in Hrev. injection Hrev as <- <-.
    assert (Ht : In t' l) by (apply in_rev; rewrite E; now left).
    destruct Hx as [<-|Hx]; [now apply Hall | now apply (IH t' rest')].
Qed.

(** The defaults of the two bounds are the earliest and the latest date of
    the table. *)
Lemma sort_values_bounds (k : RKI.row -> Z) (data : RKI.table) :
  data <> [] ->
  exists tmin tmax,
    RKI.iloc_first (map k (RKI.sort_values k data)) = Returned (VDatetime tmin)
    /\ RKI.iloc_last (map k (RKI.sort_values k data)) = Returned (VDatetime tmax)
    /\ forall r, In r data -> tmin <= k r <= tmax.
Proof.
  intros Hdata.
  pose proof (sort_values_sorted k data) as Hs.
  assert (Hne : map k (RKI.sort_values k data) <> [])
    by now apply map_nonempty, sort_values_nonempty.
  assert (Hall : forall r, In r data -> In (k r) (map k (RKI.sort_values k data))).
  { intros r Hr. apply in_map. now apply sort_values_In_rev. }
  unfold RKI.iloc_first, RKI.iloc_last.
  destruct (map k (RKI.sort_values k data)) as [|tmin l] eqn:El; [congruence|].
  destruct (rev (tmin :: l)) as [|tmax rest] eqn:Er.
  { exfalso. apply (f_equal (@rev Z)) in Er. rewrite rev_involutive in Er. discriminate Er. }
  exists tmin, tmax. split; [reflexivity|]. split; [reflexivity|].
  intros r Hr. specialize (Hall r Hr). split.
  - inversion Hs as [|? ? _ Hfa]; subst. rewrite Forall_forall in Hfa.
    destruct Hall as [<-|Hin]; [lia | now apply Hfa].
  - now apply (sorted_last_max (tmin :: l) Hs tmax rest Er).
Qed.

Lemma names_valid_In variable date_type level :
  names_valid variable date_type level = true <->
  In variable RKI.valid_variables /\ In level RKI.valid_levels /\ In date_type RKI.valid_date_types.
Proof.
  unfold names_valid. rewrite !andb_true_iff, !in_strings_In, in_levels_In. tauto.
Qed.

Lemma last_cons {A : Type} (a d : A) (l : list A) : last (a :: l) d = last l a.
Proof.
  revert a d. induction l as [|b l IH]; intros a d; [reflexivity|].
  change (last (a :: b :: l) d) with (last (b :: l) d). now rewrite !IH.
Qed.

Lemma cumsum_from_last (acc : Z) (g : list (Z * Z)) (d : Z * Z) :
  snd d = acc ->
  snd (last (Pandas.cumsum_from Z.add acc g) d) = acc + fold_right Z.add 0 (map snd g).
Proof.
  revert acc d. induction g as [|[k v] rest IH]; simpl Pandas.cumsum_from; intros acc d Hd.
  - simpl. lia.
  - rewrite last_cons, IH by reflexivity. simpl. lia.
Qed.

Lemma last_map {A B : Type} (f : A -> B) (l : list A) (d : A) :
  last (map f l) (f d) = f (last l d).
Proof.
  induction l as [|a l IH]; [reflexivity|].
  destruct l as [|b l]; [reflexivity|].
  change (last (map f (a :: b :: l)) (f d)) with (last (map f (b :: l)) (f d)).
  rewrite IH. reflexivity.
Qed.

Lemma cumulative_last key count rows :
  int64_column count rows ->
  snd (last (cumulative key count rows) (0, 0)) = Int64.wrap (total count rows).
Proof.
  intros Hrange. rewrite (cumulative_wrapped key count rows Hrange). unfold wrapped.
  change (0, 0) with ((fun p : Z * Z => (fst p, Int64.wrap (snd p))) (0, 0)) at 1.
  rewrite last_map. simpl. f_equal.
  unfold unbounded_cumulative, Pandas.cumsum.
  rewrite cumsum_from_last by reflexivity. rewrite groupby_sum_total. reflexivity.
Qed.

Lemma between_covering {A : Type} (b e : Z) (df : list (Z * A)) :
  (forall r, In r df -> b <= fst r <= e) -> Pandas.between b e df = df.
Proof.
  intros Hall. apply filter_keeps_all. intros r Hr.
  apply andb_true_iff. rewrite !Z.leb_le. now apply Hall.
Qed.

(** The steps of a series that never falls and stays between 0 and a
    bound are between 0 and the bound. *)
Lemma first_difference_bounded (bound : Z) (s : list (Z * Z)) :
  nondecreasing s ->
  Forall (fun r => 0 <= snd r <= bound) s ->
  Forall (fun r => 0 <= snd r <= bound) (first_difference s).
Proof.
  unfold nondecreasing. destruct s as [|[l0 v0] rest]; [constructor|]. simpl.
  intros Hs Hb. inversion Hs as [|? ? Hrest Hall]; subst. clear Hs.
  inversion Hb as [|? ? Hv0 Hbrest]; subst. clear Hb. simpl in Hv0.
  revert l0 v0 Hv0 Hall.
  induction rest as [|[l v] rest IH]; simpl; intros l0 v0 Hv0 Hall; [constructor|].
  inversion Hall as [|? ? [_ Hle] _]; subst. simpl in Hle.
  inversion Hrest as [|? ? Hrest' Hall']; subst.
  inversion Hbrest as [|? ? Hv Hbrest']; subst. simpl in Hv.
  constructor; [simpl; lia | now apply (IH Hrest' Hbrest' l v)].
Qed.

Section RKI_filter_ranges.

Context `{Pandas.Indexing}.

Lemma RKI_filter_invalid_names self_data variable date_type level value_ :
  names_valid variable date_type level = false ->
  forall b e b' e',
    RKI.filter self_data b e variable date_type level value_
    = RKI.filter self_data b' e' variable date_type level value_.
Proof.
  unfold names_valid, RKI.filter. intros Hbad b e b' e'.
  destruct (RKI.in_strings variable RKI.valid_variables); [|reflexivity].
  destruct (RKI.in_levels level RKI.valid_levels); [|reflexivity].
  destruct (RKI.in_strings date_type RKI.valid_date_types); [discriminate | reflexivity].
Qed.

(** Without bounds the filter gives the whole cumulative series of the
    selected rows. *)
Lemma RKI_filter_full_range (data : RKI.table) variable date_type level value_ :
  data <> [] ->
  names_valid variable date_type level = true ->
  exists key count,
    RKI.date_column date_type = Returned key /\
    RKI.int_column variable = Returned count /\
    RKI.filter (Some data) None None variable date_type level value_
    = Returned (cumulative key count (List.filter (in_region level value_) data)).
Proof.
  intros Hdata Hvalid. apply names_valid_In in Hvalid. destruct Hvalid as [Hv [Hl Hd]].
  destruct (RKI_filter_unfold (Some data) None None variable date_type level value_ Hv Hl Hd)
    as [key [count [Hkey [Hcount Heq]]]].
  exists key, count. split; [exact Hkey|]. split; [exact Hcount|].
  destruct (sort_values_bounds key data Hdata) as [tmin [tmax [Efirst [Elast Hrange]]]].
  rewrite Heq. simpl. rewrite Efirst. simpl. rewrite Elast. simpl.
  rewrite slice_dates_cumulative. simpl. f_equal.
  apply between_covering. intros [d v] Hin.
  apply (in_map fst) in Hin. apply cumulative_dates in Hin. destruct Hin as [r [Hr <-]].
  apply filter_In in Hr. simpl. apply Hrange. tauto.
Qed.

(** X3.  On a table with at least one record, a range given by two
    datetimes selects rows of the series the same call returns without
    bounds: the filter with [begin_date] and [end_date] is the filter
    without them, cut to the dates between the two, both ends kept (and the
    same error when the names are invalid). *)
Theorem RKI_filter_range_is_slice
    (data : RKI.table) (tb te : Z) (variable date_type : string) (level value_ : option string) :
  data <> [] ->
  RKI.filter (Some data) (Some (VDatetime tb)) (Some (VDatetime te)) variable date_type level value_
  = fmap (Pandas.between tb te)
      (RKI.filter (Some data) None None variable date_type level value_).
Proof.
  intros Hdata.
  destruct (names_valid variable date_type level) eqn:Hvalid.
  - destruct (RKI_filter_full_range data variable date_type level value_ Hdata Hvalid)
      as [key [count [Hkey [Hcount Hfull]]]].
    rewrite Hfull. simpl.
    apply names_valid_In in Hvalid. destruct Hvalid as [Hv [Hl Hd]].
    destruct (RKI_filter_unfold (Some data) (Some (VDatetime tb)) (Some (VDatetime te))
                variable date_type level value_ Hv Hl Hd)
      as [key' [count' [Hkey' [Hcount' Heq]]]].
    rewrite Hkey in Hkey'. injection Hkey' as <-.
    rewrite Hcount in Hcount'. injection Hcount' as <-.
    rewrite Heq. simpl. now rewrite slice_dates_cumulative.
  - rewrite (RKI_filter_invalid_names (Some data) variable date_type level value_ Hvalid
               (Some (VDatetime tb)) (Some (VDatetime te)) None None).
    unfold names_valid, RKI.filter in *.
    destruct (RKI.in_strings variable RKI.valid_variables); [|reflexivity].
    destruct (RKI.in_levels level RKI.valid_levels); [|reflexivity].
    destruct (RKI.in_strings date_type RKI.valid_date_types); [discriminate | reflexivity].
Qed.

(** X4.  On a table whose counts of the metric are int64 values, without
    bounds the last value of the series [RKI.filter] returns is the sum of
    the metric over all records of the selected region, as an int64 (a sum
    outside the range of int64 has wrapped around; 0 for the empty series
    of a region without records). *)
Theorem RKI_filter_last_is_total
    (data : RKI.table) (variable date_type : string) (level value_ : option string)
    (count : RKI.row -> Z) (s : list (Z * Z)) :
  RKI.int_column variable = Returned count ->
  int64_column count data ->
  RKI.filter (Some data) None None variable date_type level value_ = Returned s ->
  snd (last s (0, 0)) = Int64.wrap (total count (List.filter (in_region level value_) data)).
Proof.
  intros Hcount Hrange Hret.
  assert (Hdata : data <> []).
  { intros ->. apply RKI_filter_returned_range in Hret.
    destruct Hret as [data [key [count' [b [e [tb [te [Hd [_ [_ [Hb _]]]]]]]]]]].
    injection Hd as <-. discriminate Hb. }
  assert (Hvalid : names_valid variable date_type level = true).
  { destruct (names_valid variable date_type level) eqn:E; [reflexivity|]. exfalso.
    unfold names_valid, RKI.filter in *.
    destruct (RKI.in_strings variable RKI.valid_variables); [|discriminate].
    destruct (RKI.in_levels level RKI.valid_levels); [|discriminate].
    destruct (RKI.in_strings date_type RKI.valid_date_types); discriminate. }
  destruct (RKI_filter_full_range data variable date_type level value_ Hdata Hvalid)
    as [key [count' [_ [Hcount' Hfull]]]].
  rewrite Hcount in Hcount'. injection Hcount' as <-.
  rewrite Hfull in Hret. injection Hret as <-.
  apply cumulative_last. now apply Forall_filter.
Qed.

(** X5.  Valid names do not protect a call on an adapter without
    records.  Before any download [RKI.filter] raises AttributeError; on a
    table of zero records it raises IndexError as soon as one bound is
    omitted, and returns the empty series when both bounds are
    datetimes. *)
Theorem RKI_filter_without_records
    (begin_date end_date : option value)
    (variable date_type : string) (level value_ : option string) :
  names_valid variable date_type level = true ->
  RKI.filter None begin_date end_date variable date_type level value_ = Raised AttributeError
  /\ (begin_date = None \/ end_date = None ->
      RKI.filter (Some []) begin_date end_date variable date_type level value_
      = Raised IndexError)
  /\ (forall tb te,
        RKI.filter (Some []) (Some (VDatetime tb)) (Some (VDatetime te))
          variable date_type level value_ = Returned []).
Proof.
  intros Hvalid. apply names_valid_In in Hvalid. destruct Hvalid as [Hv [Hl Hd]].
  split; [|split].
  - destruct (RKI_filter_unfold None begin_date end_date variable date_type level value_ Hv Hl Hd)
      as [key [count [_ [_ ->]]]]. reflexivity.
  - intros Hnone.
    destruct (RKI_filter_unfold (Some []) begin_date end_date variable date_type level value_
                Hv Hl Hd) as [key [count [_ [_ ->]]]]. simpl.
    destruct begin_date as [b|]; [|reflexivity].
    destruct end_date as [e|]; [|reflexivity].
    destruct Hnone; discriminate.
  - intros tb te.
    destruct (RKI_filter_unfold (Some []) (Some (VDatetime tb)) (Some (VDatetime te))
                variable date_type level value_ Hv Hl Hd) as [key [count [_ [_ ->]]]].
    reflexivity.
Qed.

End RKI_filter_ranges.

(** Witness of [RKI_filter_range_is_slice]: the second day of the growing
    table. *)
Lemma RKI_filter_range_is_slice_witness :
  @RKI.filter Sample.indexing (Some Sample.growing) (Some (VDatetime 2)) (Some (VDatetime 2))
    "AnzahlFall" "date" None None
  = fmap (Pandas.between 2 2)
      (@RKI.filter Sample.indexing (Some Sample.growing) None None "AnzahlFall" "date" None None).
Proof.
  apply (@RKI_filter_range_is_slice Sample.indexing Sample.growing 2 2).
  discriminate.
Defined.

(** Witness of [RKI_filter_last_is_total]: eight cases in the growing
    table. *)
Lemma RKI_filter_last_is_total_witness :
  snd (last [(1, 5); (2, 8)] (0, 0))
  = Int64.wrap (total (fun r => RKI.AnzahlFall (RKI.attrs r))
                  (List.filter (in_region None None) Sample.growing)).
Proof.
  apply (@RKI_filter_last_is_total Sample.indexing Sample.growing "AnzahlFall" "date" None None
           (fun r => RKI.AnzahlFall (RKI.attrs r)) [(1, 5); (2, 8)]); try reflexivity.
  repeat apply Forall_cons; try apply Forall_nil;
    unfold Int64.in_range, Int64.min, Int64.max; simpl; lia.
Defined.

(** Witness of [RKI_filter_without_records]: the default names. *)
Lemma RKI_filter_without_records_witness :
  @RKI.filter Sample.indexing None None None "AnzahlFall" "date" None None = Raised AttributeError
  /\ @RKI.filter Sample.indexing (Some []) None None "AnzahlFall" "date" None None
     = Raised IndexError.
Proof.
  destruct (@RKI_filter_without_records Sample.indexing None None "AnzahlFall" "date" None None
              eq_refl) as [Hattr [Hindex _]].
  split; [exact Hattr | apply Hindex; now left].
Defined.

(** *** Daily series of RKI *)

Section RKI_daily.

Context `{Pandas.Indexing}.

(** With non-negative counts that sum to at most 2^53, the series
    [RKI.filter] returns never falls and stays between 0 and that sum. *)
Lemma RKI_filter_values_ascend (data : RKI.table) begin_date end_date variable date_type
    level value_ count s :
  RKI.int_column variable = Returned count ->
  (forall r, In r data -> in_region level value_ r = true -> 0 <= count r) ->
  total count (List.filter (in_region level value_) data) <= Float64.exact ->
  RKI.filter (Some data) begin_date end_date variable date_type level value_ = Returned s ->
  nondecreasing s /\ Forall (fun r => 0 <= snd r <= Float64.exact) s.
Proof.
  intros Hcount Hnonneg Hexact Hret. apply RKI_filter_returned in Hret.
  destruct Hret as [data' [key [count' [tb [te [Hdata [_ [Hcount' ->]]]]]]]].
  injection Hdata as <-. rewrite Hcount in Hcount'. injection Hcount' as <-.
  assert (Hsel : forall r, In r (List.filter (in_region level value_) data) -> 0 <= count r).
  { intros r Hr. apply filter_In in Hr. destruct Hr as [Hin Hr]. now apply Hnonneg. }
  assert (Hmax : total count (List.filter (in_region level value_) data) <= Int64.max).
  { unfold Float64.exact in Hexact. unfold Int64.max. lia. }
  pose proof (day_total_nonneg key count _ Hsel) as Hdays.
  destruct (cumulative_nondecreasing key count _
              (nonneg_int64_column count _ Hsel Hmax) Hdays Hmax) as [E Hnondecr].
  split; [now apply StronglySorted_filter|].
  apply Forall_filter. rewrite E.
  destruct (unbounded_nondecreasing key count _ Hdays) as [_ Hbounds].
  eapply Forall_impl; [|exact Hbounds]. intros r Hr. cbv beta in Hr. lia.
Qed.

Lemma RKI_filter_daily_nonneg (data : RKI.table) begin_date end_date variable date_type
    level value_ count d :
  RKI.int_column variable = Returned count ->
  (forall r, In r data -> in_region level value_ r = true -> 0 <= count r) ->
  total count (List.filter (in_region level value_) data) <= Float64.exact ->
  (df <- RKI.filter (Some data) begin_date end_date variable date_type level value_ ;;
   diff_drop_first Z.eqb df) = Returned d ->
  Forall (fun r => 0 <= snd r) d.
Proof.
  intros Hcount Hnonneg Hexact Hret.
  destruct (RKI.filter (Some data) begin_date end_date variable date_type level value_)
    as [s|] eqn:Es; [|discriminate]. simpl in Hret.
  destruct s as [|r0 s']; [discriminate|].
  destruct (RKI_filter_values_ascend data _ _ _ _ _ _ count _ Hcount Hnonneg Hexact Es)
    as [Hnondecr Hbounds].
  pose proof (first_difference_bounded Float64.exact (r0 :: s') Hnondecr Hbounds) as Hsteps.
  rewrite (diff_drop_first_spec Z.eqb Z.eqb_eq (r0 :: s')) in Hret;
    [|discriminate | exact (RKI_filter_unique _ _ _ _ _ _ _ _ Es) |].
  - injection Hret as <-. eapply Forall_impl; [|exact Hsteps]. intros r Hr. cbv beta in Hr. lia.
  - unfold small_steps. eapply Forall_impl; [|exact Hsteps]. intros r Hr. cbv beta in Hr. lia.
Qed.

(** X6.  On a table whose counts of a metric are int64 values, when these
    counts are non-negative on the records of the selected region and sum
    to at most 2^53 there, every value of the daily series of that metric
    is non-negative. *)
Theorem RKI_daily_nonnegative
    (data : RKI.table) (bundesland landkreis : option string)
    (begin_date end_date : option value) (date_type : string) (d : list (Z * Z)) :
  let level := fst (RKI.selector bundesland landkreis) in
  let value_ := snd (RKI.selector bundesland landkreis) in
  let rows := List.filter (in_region level value_) data in
  (int64_column (fun r => RKI.AnzahlFall (RKI.attrs r)) data ->
   (forall r, In r rows -> 0 <= RKI.AnzahlFall (RKI.attrs r)) ->
   total (fun r => RKI.AnzahlFall (RKI.attrs r)) rows <= Float64.exact ->
   RKI.get_new_confirmed (Some data) bundesland landkreis begin_date end_date date_type
     = Returned d ->
   Forall (fun r => 0 <= snd r) d)
  /\
  (int64_column (fun r => RKI.AnzahlTodesfall (RKI.attrs r)) data ->
   (forall r, In r rows -> 0 <= RKI.AnzahlTodesfall (RKI.attrs r)) ->
   total (fun r => RKI.AnzahlTodesfall (RKI.attrs r)) rows <= Float64.exact ->
   RKI.get_new_deaths (Some data) bundesland landkreis begin_date end_date date_type
     = Returned d ->
   Forall (fun r => 0 <= snd r) d)
  /\
  (int64_column (fun r => RKI.AnzahlGenesen (RKI.attrs r)) data ->
   (forall r, In r rows -> 0 <= RKI.AnzahlGenesen (RKI.attrs r)) ->
   total (fun r => RKI.AnzahlGenesen (RKI.attrs r)) rows <= Float64.exact ->
   RKI.get_new_recovered (Some data) bundesland landkreis begin_date end_date date_type
     = Returned d ->
   Forall (fun r => 0 <= snd r) d).
Proof.
  intros level value_ rows. subst level value_ rows.
  unfold RKI.get_new_confirmed, RKI.get_new_deaths, RKI.get_new_recovered,
    RKI.get_confirmed, RKI.get_deaths, RKI.get_recovered.
  destruct (RKI.selector bundesland landkreis) as [level value_]. simpl fst. simpl snd.
  repeat split; intros _ Hnonneg Hexact Hret;
    (eapply RKI_filter_daily_nonneg;
     [ | | exact Hexact | exact Hret];
     [reflexivity | intros r Hin Hsel; apply Hnonneg; apply filter_In; tauto]).
Qed.

(** X7.  A Landkreis no record carries makes the three daily accessors
    raise IndexError: the cumulative series is empty, and the one-liner
    asks for its first label. *)
Theorem RKI_daily_of_unmatched_landkreis_raises
    (data : RKI.table) (bundesland : option string) (landkreis : string)
    (begin_date end_date : option value) (date_type : string) :
  data <> [] ->
  In date_type RKI.valid_date_types ->
  datetime_or_omitted begin_date ->
  datetime_or_omitted end_date ->
  (forall r, In r data -> RKI.Landkreis (RKI.attrs r) <> landkreis) ->
  RKI.get_new_confirmed (Some data) bundesland (Some landkreis) begin_date end_date date_type
    = Raised IndexError
  /\ RKI.get_new_deaths (Some data) bundesland (Some landkreis) begin_date end_date date_type
    = Raised IndexError
  /\ RKI.get_new_recovered (Some data) bundesland (Some landkreis) begin_date end_date date_type
    = Raised IndexError.
Proof.
  intros Hdata Hd Hb He Hnone.
  assert (Hsel : RKI.selector bundesland (Some landkreis)
                 = (Some "Landkreis"%string, Some landkreis))
    by (destruct bundesland; reflexivity).
  assert (Hunmatched : forall r, In r data ->
            in_region (Some "Landkreis"%string) (Some landkreis) r = false).
  { intros r Hr. simpl. apply String.eqb_neq. now apply Hnone. }
  assert (Hempty : forall variable, In variable RKI.valid_variables ->
            RKI.filter (Some data) begin_date end_date variable date_type
              (Some "Landkreis"%string) (Some landkreis) = Returned []).
  { intros variable Hv.
    destruct (RKI_filter_returns data begin_date end_date variable date_type
                (Some "Landkreis"%string) (Some landkreis) Hdata Hv)
      as [key [count [tb [te [_ [_ Heq]]]]]]; try assumption; [simpl; tauto|].
    etransitivity; [exact Heq|]. now rewrite (filter_none _ _ Hunmatched). }
  unfold RKI.get_new_confirmed, RKI.get_new_deaths, RKI.get_new_recovered,
    RKI.get_confirmed, RKI.get_deaths, RKI.get_recovered.
  rewrite Hsel. rewrite !Hempty by (simpl; tauto). repeat split.
Qed.

End RKI_daily.

(** Witness of [RKI_daily_nonnegative]: the growing table. *)
Lemma RKI_daily_nonnegative_witness :
  Forall (fun r : Z * Z => 0 <= snd r) [(2, 3)].
Proof.
  destruct (@RKI_daily_nonnegative Sample.indexing Sample.growing None None None None
              "date" [(2, 3)]) as [Hconfirmed _].
  apply Hconfirmed; [| | |reflexivity].
  - repeat apply Forall_cons; try apply Forall_nil;
      unfold Int64.in_range, Int64.min, Int64.max; simpl; lia.
  - intros r Hin. simpl in Hin. destruct Hin as [<-|[<-|[]]]; simpl; lia.
  - vm_compute. discriminate.
Defined.

(** Witness of [RKI_daily_of_unmatched_landkreis_raises]. *)
Lemma RKI_daily_of_unmatched_landkreis_raises_witness :
  @RKI.get_new_confirmed Sample.indexing (Some Sample.growing) None
     (Some "LK Nirgendwo"%string) None None "date" = Raised IndexError.
Proof.
  apply (@RKI_daily_of_unmatched_landkreis_raises Sample.indexing Sample.growing None
           "LK Nirgendwo" None None "date").
  - discriminate.
  - simpl. tauto.
  - exact I.
  - exact I.
  - intros r Hin. simpl in Hin. destruct Hin as [<-|[<-|[]]]; discriminate.
Defined.

(** *** The filter by Bundesland *)

Lemma string_lt_trans (a b c : string) : string_lt a b -> string_lt b c -> string_lt a c.
Proof.
  unfold string_lt. intros Hab Hbc.
  apply String_as_OT.cmp_lt in Hab, Hbc. apply String_as_OT.cmp_lt.
  eapply String_as_OT.lt_trans; eassumption.
Qed.

Lemma string_lt_irrefl (a : string) : ~ string_lt a a.
Proof.
  unfold string_lt. intros E. apply String_as_OT.cmp_lt in E.
  apply String_as_OT.lt_not_eq in E. apply E. reflexivity.
Qed.

Lemma string_gt_lt (a b : string) : String.compare a b = Gt -> string_lt b a.
Proof.
  unfold string_lt. intros E. rewrite String.compare_antisym, E. reflexivity.
Qed.

Lemma insert_name_In (n x : string) (l : list string) :
  In x (RKI.insert_name n l) <-> x = n \/ In x l.
Proof.
  induction l as [|a l IH]; simpl.
  - intuition.
  - destruct (String.compare n a) eqn:E; simpl.
    + apply String.compare_eq_iff in E. subst. intuition.
    + intuition.
    + rewrite IH. intuition.
Qed.

Lemma insert_name_hd (n a : string) (l : list string) :
  string_lt a n -> HdRel string_lt a l -> HdRel string_lt a (RKI.insert_name n l).
Proof.
  intros Han Hl. destruct l as [|x l]; simpl.
  - constructor. exact Han.
  - destruct (String.compare n x); constructor; try exact Han; inversion Hl; assumption.
Qed.

Lemma insert_name_sorted (n : string) (l : list string) :
  Sorted string_lt l -> Sorted string_lt (RKI.insert_name n l).
Proof.
  induction l as [|x l IH]; simpl; intros Hs.
  - repeat constructor.
  - inversion Hs as [|? ? Hrest Hhd]; subst.
    destruct (String.compare n x) eqn:E.
    + exact Hs.
    + constructor; [exact Hs|]. constructor. exact E.
    + constructor; [now apply IH|]. apply insert_name_hd; [|exact Hhd].
      now apply string_gt_lt.
Qed.

Lemma bundeslaender_from (df : RKI.table) (acc : list string) :
  let lands := fold_left (fun acc r => RKI.insert_name (RKI.Bundesland (RKI.attrs r)) acc) df acc in
  (Sorted string_lt acc -> Sorted string_lt lands)
  /\ (forall land, In land lands <->
                   In land acc \/ exists r, In r df /\ RKI.Bundesland (RKI.attrs r) = land).
Proof.
  revert acc. induction df as [|r df IH]; simpl; intros acc.
  - split; [tauto|]. intros land. split; [tauto|]. intros [Hin|[r [[] _]]]. exact Hin.
  - destruct (IH (RKI.insert_name (RKI.Bundesland (RKI.attrs r)) acc)) as [Hs Hin].
    split.
    + intros Hacc. apply Hs. now apply insert_name_sorted.
    + intros land. rewrite Hin, insert_name_In. split.
      * intros [[->|Hacc]|[r' [Hr' E]]].
        -- right. exists r. tauto.
        -- now left.
        -- right. exists r'. tauto.
      * intros [Hacc|[r' [[<-|Hr'] E]]].
        -- left. now right.
        -- left. left. now symmetry.
        -- right. exists r'. tauto.
Qed.

(** The column labels are the Bundeslaender of the table, each once, in
    the order of strings. *)
Lemma bundeslaender_spec (df : RKI.table) :
  StronglySorted string_lt (RKI.bundeslaender df)
  /\ (forall land, In land (RKI.bundeslaender df) <->
                   exists r, In r df /\ RKI.Bundesland (RKI.attrs r) = land).
Proof.
  destruct (bundeslaender_from df []) as [Hs Hin]. split.
  - apply Sorted_StronglySorted; [exact string_lt_trans|]. apply Hs. constructor.
  - intros land. unfold RKI.bundeslaender. rewrite Hin. simpl. tauto.
Qed.

Lemma cumsum_rows_index (add : Z -> Z -> Z) (acc : list Z) (rows : list (Z * list Z)) :
  map fst (RKI.cumsum_rows add acc rows) = map fst rows.
Proof.
  revert acc. induction rows as [|[d cells] rows IH]; simpl; intros acc; [reflexivity|].
  now rewrite IH.
Qed.

Lemma add_rows_length (add : Z -> Z -> Z) (a b : list Z) :
  List.length a = List.length b -> List.length (RKI.add_rows add a b) = List.length b.
Proof.
  intros E. unfold RKI.add_rows. rewrite length_map, length_combine, E. apply Nat.min_id.
Qed.

Lemma add_rows_nth (add : Z -> Z -> Z) (a b : list Z) (i : nat) :
  add 0 0 = 0 ->
  List.length a = List.length b ->
  nth i (RKI.add_rows add a b) 0 = add (nth i a 0) (nth i b 0).
Proof.
  intros Hzero. unfold RKI.add_rows.
  revert b i. induction a as [|x a IH]; intros [|y b] i E; try discriminate.
  - destruct i; simpl; now rewrite Hzero.
  - destruct i as [|i]; simpl; [reflexivity|]. apply IH. now injection E.
Qed.

Lemma cumsum_rows_lengths (add : Z -> Z -> Z) (n : nat) (acc : list Z)
    (rows : list (Z * list Z)) :
  List.length acc = n ->
  Forall (fun row => List.length (snd row) = n) rows ->
  Forall (fun row => List.length (snd row) = n) (RKI.cumsum_rows add acc rows).
Proof.
  revert acc. induction rows as [|[d cells] rows IH]; simpl; intros acc Hacc Hrows; [constructor|].
  inversion Hrows as [|? ? Hcells Hrest]; subst. simpl in Hcells.
  assert (Hlen : List.length (RKI.add_rows add acc cells) = List.length acc).
  { rewrite add_rows_length by congruence. congruence. }
  constructor; [exact Hlen | now apply IH].
Qed.

(** A column of the accumulated frame is the running sum of that column
    of the frame. *)
Lemma cumsum_rows_column (add : Z -> Z -> Z) (i n : nat) (acc : list Z)
    (rows : list (Z * list Z)) :
  add 0 0 = 0 ->
  List.length acc = n ->
  Forall (fun row => List.length (snd row) = n) rows ->
  column_at i (RKI.cumsum_rows add acc rows)
  = Pandas.cumsum_from add (nth i acc 0) (column_at i rows).
Proof.
  intros Hzero. unfold column_at.
  revert acc. induction rows as [|[d cells] rows IH]; simpl; intros acc Hacc Hrows; [reflexivity|].
  inversion Hrows as [|? ? Hcells Hrest]; subst. simpl in Hcells.
  rewrite (add_rows_nth add acc cells i Hzero) by congruence. f_equal.
  rewrite IH; [|rewrite add_rows_length; congruence | exact Hrest].
  now rewrite (add_rows_nth add acc cells i Hzero) by congruence.
Qed.

Lemma add_of_zero (t : Pandas.dtype) : Pandas.add_of t 0 0 = 0.
Proof. destruct t; reflexivity. Qed.

Lemma pivot_frame_index key count df :
  map fst (pivot_frame key count df)
  = map fst (Pandas.groupby_sum Int64.add (map (fun r => (key r, 0)) df)).
Proof. unfold pivot_frame, pivot_cells. now rewrite pivot_fillna_index, pivot_index. Qed.

Lemma pivot_frame_sorted key count df :
  StronglySorted Z.lt (map fst (pivot_frame key count df)).
Proof. rewrite pivot_frame_index. apply groupby_sorted_strongly. Qed.

Lemma pivot_frame_lengths key count df :
  Forall (fun row => List.length (snd row) = List.length (RKI.bundeslaender df))
         (pivot_frame key count df).
Proof.
  unfold pivot_frame, pivot_cells, RKI.pivot_fillna, RKI.pivot. apply Forall_forall.
  intros row Hrow. rewrite map_map in Hrow.
  apply in_map_iff in Hrow. destruct Hrow as [d [<- _]]. simpl. now rewrite !length_map.
Qed.

Lemma unbounded_frame_index key count df :
  map fst (unbounded_frame key count df)
  = map fst (Pandas.groupby_sum Int64.add (map (fun r => (key r, 0)) df)).
Proof. unfold unbounded_frame. apply map_fst_graph. Qed.

Lemma unbounded_frame_sorted key count df :
  StronglySorted Z.lt (map fst (unbounded_frame key count df)).
Proof. rewrite unbounded_frame_index. apply groupby_sorted_strongly. Qed.

Lemma unbounded_frame_lengths key count df :
  Forall (fun row => List.length (snd row) = List.length (RKI.bundeslaender df))
         (unbounded_frame key count df).
Proof.
  unfold unbounded_frame. apply Forall_forall. intros row Hrow.
  apply in_map_iff in Hrow. destruct Hrow as [d [<- _]]. simpl. apply length_map.
Qed.

Lemma sum_nonneg (count : RKI.row -> Z) (rows : RKI.table) :
  (forall r, In r rows -> 0 <= count r) -> 0 <= fold_right Z.add 0 (map count rows).
Proof.
  induction rows as [|r rows IH]; simpl; intros Hall; [lia|].
  assert (0 <= count r) by (apply Hall; now left).
  assert (0 <= fold_right Z.add 0 (map count rows)) by (apply IH; intros x Hx; apply Hall; now right).
  lia.
Qed.

Lemma sum_filter_le (count : RKI.row -> Z) (f : RKI.row -> bool) (rows : RKI.table) :
  (forall r, In r rows -> 0 <= count r) ->
  0 <= fold_right Z.add 0 (map count (List.filter f rows)) <= total count rows.
Proof.
  unfold total. induction rows as [|r rows IH]; simpl; intros Hall; [lia|].
  assert (0 <= count r) by (apply Hall; now left).
  assert (0 <= fold_right Z.add 0 (map count (List.filter f rows))
          <= fold_right Z.add 0 (map count rows))
    by (apply IH; intros x Hx; apply Hall; now right).
  destruct (f r); simpl; lia.
Qed.

(** With non-negative counts that sum to at most 2^53, the frame the code
    slices is the frame in whole numbers, whatever its dtype. *)
Lemma pivot_frame_exact key count (df : RKI.table) :
  (forall r, In r df -> 0 <= count r) ->
  total count df <= Float64.exact ->
  pivot_frame key count df = unbounded_frame key count df.
Proof.
  intros Hnonneg Hexact.
  unfold pivot_frame, pivot_cells, RKI.pivot_fillna, RKI.pivot, unbounded_frame.
  rewrite map_map. apply map_ext. intros d. simpl. f_equal.
  rewrite map_map. apply map_ext. intros land.
  unfold RKI.pivot_cell.
  destruct (List.filter
              (fun r => (key r =? d) && String.eqb (RKI.Bundesland (RKI.attrs r)) land) df)
    as [|r0 group] eqn:E; [reflexivity|].
  rewrite <- E. simpl.
  pose proof (sum_filter_le count
                (fun r => (key r =? d) && String.eqb (RKI.Bundesland (RKI.attrs r)) land)
                df Hnonneg) as Hb.
  rewrite int64_sum_wrap, wrap_in_range by (apply exact_in_range; lia).
  apply cast_exact. lia.
Qed.

Lemma nth_map_default {A B : Type} (f : A -> B) (l : list A) (i : nat) (d : B) (d' : A) :
  (i < List.length l)%nat -> nth i (map f l) d = f (nth i l d').
Proof.
  revert i. induction l as [|a l IH]; simpl; intros i Hi; [lia|].
  destruct i as [|i]; [reflexivity|]. apply IH. lia.
Qed.

Lemma sum_map_zero {A : Type} (f : A -> Z) (l : list A) :
  (forall x, In x l -> f x = 0) -> fold_right Z.add 0 (map f l) = 0.
Proof.
  induction l as [|a l IH]; simpl; intros Hf; [reflexivity|].
  rewrite (Hf a) by now left. rewrite IH; [reflexivity|]. intros x Hx. apply Hf. now right.
Qed.

Lemma sum_map_add {A : Type} (f g : A -> Z) (l : list A) :
  fold_right Z.add 0 (map (fun x => f x + g x) l)
  = fold_right Z.add 0 (map f l) + fold_right Z.add 0 (map g l).
Proof. induction l as [|a l IH]; simpl; [reflexivity | rewrite IH; lia]. Qed.

(** Over distinct dates only the date of a record counts it. *)
Lemma sum_single (dates : list Z) (k x : Z) (g : Z -> bool) (q : bool) :
  NoDup dates -> In k dates ->
  fold_right Z.add 0
    (map (fun d => if g d then (if (k =? d) && q then x else 0) else 0) dates)
  = if g k && q then x else 0.
Proof.
  induction dates as [|a dates IH]; simpl; intros Hnodup Hin; [contradiction|].
  inversion Hnodup as [|? ? Hnotin Hrest]; subst.
  destruct Hin as [->|Hin].
  - rewrite Z.eqb_refl. simpl.
    rewrite sum_map_zero.
    + destruct (g k), q; simpl; lia.
    + intros d Hd. assert (E : (k =? d) = false) by (apply Z.eqb_neq; congruence).
      rewrite E. simpl. now destruct (g d).
  - assert (E : (k =? a) = false) by (apply Z.eqb_neq; congruence).
    rewrite E. simpl. rewrite IH by assumption. destruct (g a); lia.
Qed.

(** Summing, over distinct dates that cover the table, the per-date sums
    of the selected records counts every selected record once. *)
Lemma sum_by_date (key count : RKI.row -> Z) (q : RKI.row -> bool) (g : Z -> bool)
    (dates : list Z) (rows : RKI.table) :
  NoDup dates ->
  (forall r, In r rows -> In (key r) dates) ->
  fold_right Z.add 0
    (map (fun d => if g d
                   then fold_right Z.add 0
                          (map count (List.filter (fun r => (key r =? d) && q r) rows))
                   else 0) dates)
  = fold_right Z.add 0 (map count (List.filter (fun r => g (key r) && q r) rows)).
Proof.
  intros Hnodup. induction rows as [|r rows IH]; intros Hcover.
  - simpl. apply sum_map_zero. intros d _. now destruct (g d).
  - rewrite (map_ext _ (fun d => (if g d then (if (key r =? d) && q r then count r else 0) else 0)
                                 + (if g d
                                    then fold_right Z.add 0
                                           (map count
                                              (List.filter (fun r => (key r =? d) && q r) rows))
                                    else 0))).
    + rewrite sum_map_add, IH by (intros x Hx; apply Hcover; now right).
      rewrite sum_single; [|exact Hnodup | apply Hcover; now left].
      simpl. destruct (g (key r) && q r); simpl; lia.
    + intros d. simpl. destruct (g d); [|reflexivity].
      destruct ((key r =? d) && q r); simpl; lia.
Qed.

Lemma total_upto_column (i : nat) (cells : Z -> list Z) (tb te d : Z) (dates : list Z) :
  total_upto d (column_at i (Pandas.between tb te (map (fun d' => (d', cells d')) dates)))
  = fold_right Z.add 0
      (map (fun d' => if (tb <=? d') && (d' <=? te) && (d' <=? d)
                      then nth i (cells d') 0 else 0) dates).
Proof.
  unfold column_at, Pandas.between.
  induction dates as [|a dates IH]; [reflexivity|]. simpl.
  destruct ((tb <=? a) && (a <=? te)) eqn:E; simpl.
  - rewrite total_upto_cons, IH. simpl. reflexivity.
  - rewrite IH. reflexivity.
Qed.

Lemma column_sum (i : nat) (cells : Z -> list Z) (tb te : Z) (dates : list Z) :
  fold_right Z.add 0
    (map snd (column_at i (Pandas.between tb te (map (fun d' => (d', cells d')) dates))))
  = fold_right Z.add 0
      (map (fun d' => if (tb <=? d') && (d' <=? te) then nth i (cells d') 0 else 0) dates).
Proof.
  unfold column_at, Pandas.between.
  induction dates as [|a dates IH]; [reflexivity|]. simpl.
  destruct ((tb <=? a) && (a <=? te)) eqn:E; simpl; now rewrite IH.
Qed.

Lemma nth_zeros {A : Type} (l : list A) (i : nat) : nth i (map (fun _ => 0) l) 0 = 0.
Proof.
  revert i. induction l as [|a l IH]; intros [|i]; simpl; try reflexivity. apply IH.
Qed.

(** A cell of the frame in whole numbers. *)
Lemma unbounded_cell key count (df : RKI.table) (i : nat) (d : Z) :
  nth i (map (fun land =>
                fold_right Z.add 0
                  (map count
                     (List.filter (fun r => (key r =? d)
                                            && String.eqb (RKI.Bundesland (RKI.attrs r)) land)
                                  df)))
             (RKI.bundeslaender df)) 0
  = if Nat.ltb i (List.length (RKI.bundeslaender df))
    then fold_right Z.add 0
           (map count
              (List.filter (fun r => (key r =? d)
                                     && String.eqb (RKI.Bundesland (RKI.attrs r))
                                          (nth i (RKI.bundeslaender df) EmptyString))
                           df))
    else 0.
Proof.
  destruct (Nat.ltb i (List.length (RKI.bundeslaender df))) eqn:E.
  - apply Nat.ltb_lt in E. now rewrite (nth_map_default _ _ _ 0 EmptyString E).
  - apply Nat.ltb_ge in E. apply nth_overflow. now rewrite length_map.
Qed.

(** The sum of a column of a date range of the frame in whole numbers
    counts records of the table, each at most once. *)
Lemma unbounded_column_sum key count (df : RKI.table) (i : nat) (tb te : Z) :
  (forall r, In r df -> 0 <= count r) ->
  Forall (fun r => 0 <= snd r) (column_at i (Pandas.between tb te (unbounded_frame key count df)))
  /\ fold_right Z.add 0
       (map snd (column_at i (Pandas.between tb te (unbounded_frame key count df))))
     <= total count df.
Proof.
  intros Hnonneg. split.
  - unfold column_at. apply Forall_forall. intros cell Hcell.
    apply in_map_iff in Hcell. destruct Hcell as [row [<- Hrow]]. simpl.
    apply between_In in Hrow. destruct Hrow as [Hrow _].
    unfold unbounded_frame in Hrow. apply in_map_iff in Hrow. destruct Hrow as [d [<- _]].
    simpl. rewrite unbounded_cell.
    destruct (Nat.ltb i (List.length (RKI.bundeslaender df))); [|lia].
    apply sum_nonneg. intros r Hr. apply filter_In in Hr. now apply Hnonneg.
  - unfold unbounded_frame. rewrite column_sum.
    rewrite (map_ext _
               (fun d' => if (tb <=? d') && (d' <=? te)
                          then fold_right Z.add 0
                                 (map count
                                    (List.filter
                                       (fun r => (key r =? d')
                                                 && (Nat.ltb i (List.length (RKI.bundeslaender df))
                                                     && String.eqb
                                                          (RKI.Bundesland (RKI.attrs r))
                                                          (nth i (RKI.bundeslaender df)
                                                             EmptyString)))
                                       df))
                          else 0)).
    + rewrite (sum_by_date key count
                 (fun r => Nat.ltb i (List.length (RKI.bundeslaender df))
                           && String.eqb (RKI.Bundesland (RKI.attrs r))
                                (nth i (RKI.bundeslaender df) EmptyString))
                 (fun d' => (tb <=? d') && (d' <=? te))).
      * apply sum_filter_le. exact Hnonneg.
      * apply StronglySorted_lt_NoDup, groupby_sorted_strongly.
      * intros r Hr. apply groupby_sum_keys. rewrite map_map. simpl. now apply in_map.
    + intros d'. destruct ((tb <=? d') && (d' <=? te)); [|reflexivity].
      rewrite unbounded_cell.
      destruct (Nat.ltb i (List.length (RKI.bundeslaender df))); simpl.
      * reflexivity.
      * symmetry. rewrite (filter_none _ df); [reflexivity|].
        intros r _. apply andb_false_r.
Qed.

Section RKI_by_bundesland.

Context `{Pandas.Indexing}.

Lemma slice_dates_pivot key count (df : RKI.table) b e :
  Pandas.slice_dates (pivot_frame key count df) b e =
    (tb <- Pandas.cast_bound Pandas.Left b ;;
     te <- Pandas.cast_bound Pandas.Right e ;;
     Returned (Pandas.between tb te (pivot_frame key count df))).
Proof.
  unfold Pandas.slice_dates.
  rewrite pivot_frame_index, (sorted_ascendingb _ (groupby_sum_sorted _ _)). reflexivity.
Qed.

(** With valid names, on an adapter that holds a table, the filter by
    Bundesland is the date defaulting, the guard, a slice of the pivoted
    frame and its accumulation. *)
Lemma RKI_filter_all_bundesland_unfold data begin_date end_date variable date_type :
  In variable RKI.valid_variables ->
  In date_type RKI.valid_date_types ->
  exists key count,
    RKI.date_column date_type = Returned key /\
    RKI.int_column variable = Returned count /\
    RKI.filter_all_bundesland (Some data) begin_date end_date variable date_type =
      (b <- RKI.default_bound begin_date (RKI.iloc_first (map key data)) ;;
       e <- RKI.default_bound end_date (RKI.iloc_last (map key data)) ;;
       if date_guard b e then Raised (ValueError Msg.invalid_dates)
       else
         tb <- Pandas.cast_bound Pandas.Left b ;;
         te <- Pandas.cast_bound Pandas.Right e ;;
         Returned {| RKI.pivot_columns := RKI.bundeslaender data;
                     RKI.pivot_rows :=
                       RKI.cumsum_rows (pivot_add key count data)
                         (map (fun _ => 0) (RKI.bundeslaender data))
                         (Pandas.between tb te (pivot_frame key count data)) |}).
Proof.
  intros Hv Hd.
  assert (Ev : RKI.in_strings variable RKI.valid_variables = true) by now apply in_strings_In.
  assert (Ed : RKI.in_strings date_type RKI.valid_date_types = true) by now apply in_strings_In.
  unfold RKI.filter_all_bundesland. rewrite Ev, Ed. simpl negb. cbv iota.
  assert (Hkey : exists key, RKI.date_column date_type = Returned key).
  { simpl in Hd. destruct Hd as [<-|[<-|[]]]; eexists; reflexivity. }
  assert (Hcount : exists count, RKI.int_column variable = Returned count).
  { simpl in Hv. destruct Hv as [<-|[<-|[<-|[]]]]; eexists; reflexivity. }
  destruct Hkey as [key Hkey], Hcount as [count Hcount].
  exists key, count. split; [exact Hkey|]. split; [exact Hcount|].
  rewrite Hkey, Hcount. cbn [bind RKI.getattr_data].
  destruct (RKI.default_bound begin_date _) as [b|]; [|reflexivity]. cbn [bind].
  destruct (RKI.default_bound end_date _) as [e|]; [|reflexivity]. cbn [bind].
  destruct (date_guard b e); [reflexivity|].
  fold (pivot_cells key count data). fold (pivot_frame key count data).
  fold (pivot_add key count data).
  rewrite slice_dates_pivot.
  destruct (Pandas.cast_bound Pandas.Left b); [|reflexivity]. cbn [bind].
  destruct (Pandas.cast_bound Pandas.Right e); reflexivity.
Qed.

(** A call that returns was made on an adapter that holds a table. *)
Lemma RKI_filter_all_bundesland_populated self_data begin_date end_date variable date_type p :
  RKI.filter_all_bundesland self_data begin_date end_date variable date_type = Returned p ->
  In variable RKI.valid_variables /\ In date_type RKI.valid_date_types
  /\ exists data, self_data = Some data.
Proof.
  intros Hret. unfold RKI.filter_all_bundesland in Hret.
  destruct (RKI.in_strings variable RKI.valid_variables) eqn:Ev; [|discriminate].
  destruct (RKI.in_strings date_type RKI.valid_date_types) eqn:Ed; [|discriminate].
  split; [now apply in_strings_In|]. split; [now apply in_strings_In|].
  destruct self_data as [data|]; [now exists data|]. exfalso.
  cbn [negb] in Hret.
  destruct (RKI.date_column date_type) as [key|]; [|discriminate]. cbn [bind] in Hret.
  destruct begin_date as [b|]; [|discriminate]. cbn [bind RKI.default_bound] in Hret.
  destruct end_date as [e|]; [|discriminate]. cbn [bind RKI.default_bound] in Hret.
  destruct (date_guard b e); discriminate.
Qed.

Lemma RKI_filter_all_bundesland_returned self_data begin_date end_date variable date_type p :
  RKI.filter_all_bundesland self_data begin_date end_date variable date_type = Returned p ->
  exists data key count b e tb te,
    self_data = Some data /\
    RKI.date_column date_type = Returned key /\
    RKI.int_column variable = Returned count /\
    RKI.default_bound begin_date (RKI.iloc_first (map key data)) = Returned b /\
    RKI.default_bound end_date (RKI.iloc_last (map key data)) = Returned e /\
    Pandas.cast_bound Pandas.Left b = Returned tb /\
    Pandas.cast_bound Pandas.Right e = Returned te /\
    p = {| RKI.pivot_columns := RKI.bundeslaender data;
           RKI.pivot_rows :=
             RKI.cumsum_rows (pivot_add key count data)
               (map (fun _ => 0) (RKI.bundeslaender data))
               (Pandas.between tb te (pivot_frame key count data)) |}.
Proof.
  intros Hret.
  destruct (RKI_filter_all_bundesland_populated _ _ _ _ _ _ Hret) as [Ev [Ed [data ->]]].
  destruct (RKI_filter_all_bundesland_unfold data begin_date end_date variable date_type Ev Ed)
    as [key [count [Hkey [Hcount Heq]]]].
  rewrite Heq in Hret. clear Heq.
  destruct (RKI.default_bound begin_date _) as [b|] eqn:Eb; [|discriminate]. simpl in Hret.
  destruct (RKI.default_bound end_date _) as [e|] eqn:Ee; [|discriminate]. simpl in Hret.
  destruct (date_guard b e); [discriminate|].
  destruct (Pandas.cast_bound Pandas.Left b) as [tb|] eqn:Etb; [|discriminate]. simpl in Hret.
  destruct (Pandas.cast_bound Pandas.Right e) as [te|] eqn:Ete; [|discriminate]. simpl in Hret.
  injection Hret as <-.
  exists data, key, count, b, e, tb, te. repeat split; assumption.
Qed.

(** With non-negative counts that sum to at most 2^53, a column of the
    frame a call returns is the running sum, in whole numbers, of that
    column of the date range of the frame in whole numbers. *)
Lemma RKI_filter_all_bundesland_column key count (data : RKI.table) (tb te : Z) (i : nat) :
  (forall r, In r data -> 0 <= count r) ->
  total count data <= Float64.exact ->
  column_at i (RKI.cumsum_rows (pivot_add key count data)
                 (map (fun _ => 0) (RKI.bundeslaender data))
                 (Pandas.between tb te (pivot_frame key count data)))
  = Pandas.cumsum_from Z.add 0
      (column_at i (Pandas.between tb te (unbounded_frame key count data))).
Proof.
  intros Hnonneg Hexact.
  rewrite (pivot_frame_exact key count data Hnonneg Hexact).
  rewrite (cumsum_rows_column _ i (List.length (RKI.bundeslaender data)));
    [|apply add_of_zero | apply length_map | apply Forall_filter, unbounded_frame_lengths].
  rewrite nth_zeros.
  destruct (unbounded_column_sum key count data i tb te Hnonneg) as [Hcells Hsum].
  apply (cumsum_from_exact _ Float64.exact); [|lia|exact Hcells|lia].
  intros a b Ha Hb Hab. now apply add_of_exact.
Qed.

(** X8.  [RKI.filter_all_bundesland] checks the metric name, then the date
    kind, before anything else: a name outside its enumeration raises the
    matching ValueError for every adapter state.  With valid names and a
    bound omitted it reads [self.data] for the default: AttributeError
    before any download, IndexError on a table of zero records.  With
    valid names and both bounds given the guard on the bounds comes
    before the first read of [self.data]: bounds the guard rejects raise
    its ValueError for every adapter state, bounds it lets through raise
    AttributeError before any download. *)
Theorem RKI_filter_all_bundesland_checks
    (begin_date end_date : option value) (variable date_type : string) :
  (~ In variable RKI.valid_variables ->
   forall self_data,
     RKI.filter_all_bundesland self_data begin_date end_date variable date_type
     = Raised (ValueError Msg.invalid_variable))
  /\
  (In variable RKI.valid_variables -> ~ In date_type RKI.valid_date_types ->
   forall self_data,
     RKI.filter_all_bundesland self_data begin_date end_date variable date_type
     = Raised (ValueError Msg.invalid_date_type))
  /\
  (In variable RKI.valid_variables -> In date_type RKI.valid_date_types ->
   (begin_date = None \/ end_date = None ->
    RKI.filter_all_bundesland None begin_date end_date variable date_type
    = Raised AttributeError
    /\ RKI.filter_all_bundesland (Some []) begin_date end_date variable date_type
       = Raised IndexError)
   /\
   (forall b e,
      begin_date = Some b -> end_date = Some e ->
      (date_guard b e = true ->
       forall self_data,
         RKI.filter_all_bundesland self_data begin_date end_date variable date_type
         = Raised (ValueError Msg.invalid_dates))
      /\
      (date_guard b e = false ->
       RKI.filter_all_bundesland None begin_date end_date variable date_type
       = Raised AttributeError))).
Proof.
  split; [|split].
  - intros Hv self_data. unfold RKI.filter_all_bundesland.
    destruct (RKI.in_strings variable RKI.valid_variables) eqn:Ev; [|reflexivity].
    apply in_strings_In in Ev. contradiction.
  - intros Hv Hd self_data. unfold RKI.filter_all_bundesland.
    apply in_strings_In in Hv. rewrite Hv. cbn [negb].
    destruct (RKI.in_strings date_type RKI.valid_date_types) eqn:Ed; [|reflexivity].
    apply in_strings_In in Ed. contradiction.
  - intros Hv Hd.
    assert (Hkey : exists key, RKI.date_column date_type = Returned key).
    { simpl in Hd. destruct Hd as [<-|[<-|[]]]; eexists; reflexivity. }
    destruct Hkey as [key Hkey].
    apply in_strings_In in Hv, Hd.
    unfold RKI.filter_all_bundesland. rewrite Hv, Hd, Hkey. cbn [negb bind].
    split.
    + intros Hnone. split.
      * destruct begin_date as [b|]; [|reflexivity].
        destruct end_date as [e|]; [|reflexivity].
        destruct Hnone; discriminate.
      * destruct begin_date as [b|]; [|reflexivity].
        destruct end_date as [e|]; [|reflexivity].
        destruct Hnone; discriminate.
    + intros b e -> ->. cbn [RKI.default_bound bind]. split.
      * intros Hguard self_data. now rewrite Hguard.
      * intros Hguard. now rewrite Hguard.
Qed.

(** X9.  The frame [RKI.filter_all_bundesland] returns has one column per
    Bundesland that occurs in the table, each once and in the order of
    strings, one cell per column in every row, strictly ascending dates,
    and no date before a datetime [begin_date] or after a datetime
    [end_date]. *)
Theorem RKI_filter_all_bundesland_shape
    (self_data : option RKI.table) (begin_date end_date : option value)
    (variable date_type : string) (p : RKI.pivot_table) :
  RKI.filter_all_bundesland self_data begin_date end_date variable date_type = Returned p ->
  exists data,
    self_data = Some data
    /\ StronglySorted string_lt (RKI.pivot_columns p)
    /\ (forall land, In land (RKI.pivot_columns p) <->
                     exists r, In r data /\ RKI.Bundesland (RKI.attrs r) = land)
    /\ Forall (fun row => List.length (snd row) = List.length (RKI.pivot_columns p))
              (RKI.pivot_rows p)
    /\ StronglySorted Z.lt (map fst (RKI.pivot_rows p))
    /\ (forall tb, begin_date = Some (VDatetime tb) ->
                   Forall (fun row => tb <= fst row) (RKI.pivot_rows p))
    /\ (forall te, end_date = Some (VDatetime te) ->
                   Forall (fun row => fst row <= te) (RKI.pivot_rows p)).
Proof.
  intros Hret. apply RKI_filter_all_bundesland_returned in Hret.
  destruct Hret as [data [key [count [b [e [tb [te
    [-> [_ [_ [Hb [He [Htb [Hte ->]]]]]]]]]]]]]].
  exists data. simpl. split; [reflexivity|].
  destruct (bundeslaender_spec data) as [Hsorted Hlands].
  split; [exact Hsorted|]. split; [exact Hlands|].
  assert (Hbounds : forall row,
            In row (RKI.cumsum_rows (pivot_add key count data)
                      (map (fun _ => 0) (RKI.bundeslaender data))
                      (Pandas.between tb te (pivot_frame key count data))) ->
            tb <= fst row <= te).
  { intros row Hrow. apply (in_map fst) in Hrow. rewrite cumsum_rows_index in Hrow.
    apply in_map_iff in Hrow. destruct Hrow as [row' [<- Hrow']].
    apply between_In in Hrow'. tauto. }
  split; [|split; [|split]].
  - apply cumsum_rows_lengths; [apply length_map|].
    apply Forall_filter, pivot_frame_lengths.
  - rewrite cumsum_rows_index. apply StronglySorted_map_filter, pivot_frame_sorted.
  - intros tb' ->. simpl in Hb. injection Hb as <-. simpl in Htb. injection Htb as <-.
    apply Forall_forall. intros row Hrow. apply Hbounds in Hrow. lia.
  - intros te' ->. simpl in He. injection He as <-. simpl in Hte. injection Hte as <-.
    apply Forall_forall. intros row Hrow. apply Hbounds in Hrow. lia.
Qed.

(** X10.  When the counts of the metric are non-negative on every record
    and sum to at most 2^53 over the table, each column of the frame
    [RKI.filter_all_bundesland] returns, read as a series, is
    non-decreasing in date. *)
Theorem RKI_filter_all_bundesland_nondecreasing
    (data : RKI.table) (begin_date end_date : option value)
    (variable date_type : string) (count : RKI.row -> Z) (p : RKI.pivot_table) (i : nat) :
  RKI.int_column variable = Returned count ->
  (forall r, In r data -> 0 <= count r) ->
  total count data <= Float64.exact ->
  RKI.filter_all_bundesland (Some data) begin_date end_date variable date_type = Returned p ->
  nondecreasing (column_at i (RKI.pivot_rows p)).
Proof.
  intros Hcount Hnonneg Hexact Hret. apply RKI_filter_all_bundesland_returned in Hret.
  destruct Hret as [data' [key [count' [b [e [tb [te
    [Hdata [_ [Hcount' [_ [_ [_ [_ ->]]]]]]]]]]]]]].
  injection Hdata as <-. rewrite Hcount in Hcount'. injection Hcount' as <-. simpl.
  rewrite (RKI_filter_all_bundesland_column key count data tb te i Hnonneg Hexact).
  apply cumsum_from_nondecreasing.
  - unfold column_at. rewrite map_map. simpl.
    apply StronglySorted_map_filter, unbounded_frame_sorted.
  - apply (unbounded_column_sum key count data i tb te Hnonneg).
Qed.

(** X11.  When the counts of the metric are non-negative on every record
    and sum to at most 2^53 over the table, the cell of a date and a
    Bundesland in the frame [RKI.filter_all_bundesland] returns is the sum
    of the metric over the records of that Bundesland dated from the begin
    of the range to that date: the range is cut first and accumulated
    afterwards, so the totals start at [begin_date] (unlike [RKI.filter],
    whose totals start with the records). *)
Theorem RKI_filter_all_bundesland_running_total
    (data : RKI.table) (begin_date end_date : option value) (variable date_type : string)
    (key count : RKI.row -> Z) (p : RKI.pivot_table) (tb : Z) (i : nat) (d v : Z) :
  RKI.date_column date_type = Returned key ->
  RKI.int_column variable = Returned count ->
  (forall r, In r data -> 0 <= count r) ->
  total count data <= Float64.exact ->
  RKI.default_bound begin_date (RKI.iloc_first (map key data)) = Returned (VDatetime tb) ->
  RKI.filter_all_bundesland (Some data) begin_date end_date variable date_type = Returned p ->
  (i < List.length (RKI.pivot_columns p))%nat ->
  In (d, v) (column_at i (RKI.pivot_rows p)) ->
  v = land_total key count data (nth i (RKI.pivot_columns p) EmptyString) tb d.
Proof.
  intros Hkey Hcount Hnonneg Hexact Hbegin Hret Hi Hin.
  apply RKI_filter_all_bundesland_returned in Hret.
  destruct Hret as [data' [key' [count' [b [e [tb' [te
    [Hdata [Hkey' [Hcount' [Hb [_ [Htb [_ ->]]]]]]]]]]]]]].
  injection Hdata as <-.
  rewrite Hkey in Hkey'. injection Hkey' as <-.
  rewrite Hcount in Hcount'. injection Hcount' as <-.
  rewrite Hbegin in Hb. injection Hb as <-. simpl in Htb. injection Htb as <-.
  simpl in Hi, Hin |- *.
  rewrite (RKI_filter_all_bundesland_column key count data tb te i Hnonneg Hexact) in Hin.
  assert (Hd : tb <= d <= te).
  { apply (in_map fst) in Hin. rewrite cumsum_from_index in Hin.
    unfold column_at in Hin. rewrite map_map in Hin. simpl in Hin.
    apply in_map_iff in Hin. destruct Hin as [row [<- Hrow]].
    apply between_In in Hrow. tauto. }
  apply cumsum_from_value in Hin.
  2:{ unfold column_at. rewrite map_map. simpl.
      apply StronglySorted_map_filter, unbounded_frame_sorted. }
  rewrite Hin. unfold unbounded_frame. rewrite total_upto_column.
  rewrite (map_ext_in _
             (fun d' => if (tb <=? d') && (d' <=? te) && (d' <=? d)
                        then fold_right Z.add 0
                               (map count
                                  (List.filter
                                     (fun r => (key r =? d')
                                               && String.eqb (RKI.Bundesland (RKI.attrs r))
                                                    (nth i (RKI.bundeslaender data) EmptyString))
                                     data))
                        else 0)).
  2:{ intros d' _. destruct ((tb <=? d') && (d' <=? te) && (d' <=? d)); [|reflexivity].
      now rewrite (nth_map_default _ _ _ 0 EmptyString Hi). }
  rewrite (sum_by_date key count
             (fun r => String.eqb (RKI.Bundesland (RKI.attrs r))
                         (nth i (RKI.bundeslaender data) EmptyString))
             (fun d' => (tb <=? d') && (d' <=? te) && (d' <=? d))).
  - unfold land_total. simpl. f_equal. f_equal. apply filter_ext. intros r.
    f_equal.
    destruct (tb <=? key r); simpl; [|reflexivity].
    destruct (key r <=? d) eqn:E; [|now rewrite andb_false_r].
    rewrite andb_true_r. apply Z.leb_le. apply Z.leb_le in E. lia.
  - apply StronglySorted_lt_NoDup, groupby_sorted_strongly.
  - intros r Hr. apply groupby_sum_keys. rewrite map_map. simpl. now apply in_map.
Qed.

End RKI_by_bundesland.

(** Witness of [RKI_filter_all_bundesland_checks]: the metric name foo. *)
Lemma RKI_filter_all_bundesland_checks_witness :
  @RKI.filter_all_bundesland Sample.indexing None None None "foo" "date"
  = Raised (ValueError Msg.invalid_variable).
Proof.
  destruct (@RKI_filter_all_bundesland_checks Sample.indexing None None "foo" "date")
    as [Hvariable _].
  apply Hvariable. simpl. intros [E|[E|[E|[]]]]; discriminate E.
Defined.

(** The guard comes before the table: a fresh adapter, a string as the
    begin and a datetime as the end raise the ValueError of the guard. *)
Lemma RKI_filter_all_bundesland_guard_first :
  @RKI.filter_all_bundesland Sample.indexing None (Some (VStr "2020-03-01"))
     (Some (VDatetime 2)) "AnzahlFall" "date"
  = Raised (ValueError Msg.invalid_dates).
Proof. reflexivity. Qed.

(** Witness of [RKI_filter_all_bundesland_shape]: the three days of two
    Bundeslaender. *)
Lemma RKI_filter_all_bundesland_shape_witness :
  @RKI.filter_all_bundesland Sample.indexing (Some Sample.two_lands) None None "AnzahlFall" "date"
  = Returned {| RKI.pivot_columns := ["Bayern"; "Berlin"]%string;
                RKI.pivot_rows := [(1, [5; 0]); (2, [5; 3]); (3, [7; 3])] |}
  /\ StronglySorted string_lt ["Bayern"; "Berlin"]%string.
Proof.
  split; [reflexivity|].
  destruct (@RKI_filter_all_bundesland_shape Sample.indexing (Some Sample.two_lands) None None
              "AnzahlFall" "date"
              {| RKI.pivot_columns := ["Bayern"; "Berlin"]%string;
                 RKI.pivot_rows := [(1, [5; 0]); (2, [5; 3]); (3, [7; 3])] |} eq_refl)
    as [data [_ [Hsorted _]]].
  exact Hsorted.
Defined.

(** Witness of [RKI_filter_all_bundesland_nondecreasing]: the column of
    Bayern. *)
Lemma RKI_filter_all_bundesland_nondecreasing_witness :
  nondecreasing [(1, 5); (2, 5); (3, 7)].
Proof.
  apply (@RKI_filter_all_bundesland_nondecreasing Sample.indexing Sample.two_lands None None
           "AnzahlFall" "date" (fun r => RKI.AnzahlFall (RKI.attrs r))
           {| RKI.pivot_columns := ["Bayern"; "Berlin"]%string;
              RKI.pivot_rows := [(1, [5; 0]); (2, [5; 3]); (3, [7; 3])] |} 0).
  - reflexivity.
  - intros r Hin. simpl in Hin. destruct Hin as [<-|[<-|[<-|[]]]]; simpl; lia.
  - vm_compute. discriminate.
  - reflexivity.
Defined.

(** Witness of [RKI_filter_all_bundesland_running_total]: from the second
    day on, Bayern has 2 cases by the third day, not 7. *)
Lemma RKI_filter_all_bundesland_running_total_witness :
  @RKI.filter_all_bundesland Sample.indexing (Some Sample.two_lands) (Some (VDatetime 2)) None
    "AnzahlFall" "date"
  = Returned {| RKI.pivot_columns := ["Bayern"; "Berlin"]%string;
                RKI.pivot_rows := [(2, [0; 3]); (3, [2; 3])] |}
  /\ 2 = land_total RKI.date (fun r => RKI.AnzahlFall (RKI.attrs r)) Sample.two_lands
            "Bayern" 2 3.
Proof.
  split; [reflexivity|].
  apply (@RKI_filter_all_bundesland_running_total Sample.indexing Sample.two_lands
           (Some (VDatetime 2)) None "AnzahlFall" "date" RKI.date
           (fun r => RKI.AnzahlFall (RKI.attrs r))
           {| RKI.pivot_columns := ["Bayern"; "Berlin"]%string;
              RKI.pivot_rows := [(2, [0; 3]); (3, [2; 3])] |} 2 0 3 2).
  - reflexivity.
  - reflexivity.
  - intros r Hin. simpl in Hin. destruct Hin as [<-|[<-|[<-|[]]]]; simpl; lia.
  - vm_compute. discriminate.
  - reflexivity.
  - reflexivity.
  - simpl. lia.
  - simpl. tauto.
Defined.

(** Beyond 2^53 the frame shows its dtype: with a pair of date and
    Bundesland missing it is float64, and a sum of 2^53 + 1 cases comes
    back as 2^53. *)
Lemma RKI_filter_all_bundesland_rounds :
  @RKI.filter_all_bundesland Sample.indexing (Some Sample.beyond_float) None None
    "AnzahlFall" "date"
  = Returned {| RKI.pivot_columns := ["Bayern"; "Berlin"]%string;
                RKI.pivot_rows := [(1, [2 ^ 53; 1]); (2, [2 ^ 53; 1])] |}.
Proof. vm_compute. reflexivity. Qed.

(** *** JHU: normalisation and retrieval *)

Section JHU_retrieval.

Variable read_csv : string -> option JHU.csv.
Variable strptime : string -> option Z.
Variable this_dir : string.

Abbreviation to_iso := (JHU.__to_iso strptime).
Abbreviation download_confirmed := (JHU.download_confirmed read_csv strptime this_dir).
Abbreviation download_deaths := (JHU.download_deaths read_csv strptime this_dir).
Abbreviation download_recovered := (JHU.download_recovered read_csv strptime this_dir).
Abbreviation download_all :=
  (JHU.download_all_available_data read_csv strptime this_dir).

Lemma parse_headers_all (headers : list string) :
  Forall (fun h => strptime h <> None) headers ->
  exists dates, JHU.parse_headers strptime headers = Returned dates
                /\ map Some dates = map strptime headers.
Proof.
  induction 1 as [|h headers Hh _ IH]; simpl.
  - exists []. split; reflexivity.
  - destruct IH as [dates [-> Hdates]].
    destruct (strptime h) as [t|] eqn:E; [|contradiction].
    exists (t :: dates). simpl. split; [reflexivity | now rewrite Hdates].
Qed.

Lemma parse_headers_some (headers : list string) :
  Exists (fun h => strptime h = None) headers ->
  exists msg, JHU.parse_headers strptime headers = Raised (ValueError msg).
Proof.
  induction 1 as [h headers Hh | h headers _ IH]; simpl.
  - rewrite Hh. eexists. reflexivity.
  - destruct (strptime h); [|eexists; reflexivity].
    destruct IH as [msg ->]. exists msg. reflexivity.
Qed.

(** X12.  [__to_iso] keeps the shape of the file: when every date header
    parses, the table has one date per header, in the order of the file
    and as [strptime] reads it, and one column per record, in the order of
    the file, keyed by the country and the state of the record and holding
    its counts; a single header that does not parse makes the whole
    normalisation raise ValueError. *)
Theorem JHU_to_iso_shape (raw : JHU.csv) :
  (Forall (fun h => strptime h <> None) (JHU.date_headers raw) ->
   exists df,
     to_iso raw = Returned df
     /\ map Some (JHU.index df) = map strptime (JHU.date_headers raw)
     /\ map fst (JHU.columns df)
        = map (fun r => (JHU.Country_Region r, JHU.Province_State r)) (JHU.records raw)
     /\ map snd (JHU.columns df) = map JHU.counts (JHU.records raw))
  /\
  (Exists (fun h => strptime h = None) (JHU.date_headers raw) ->
   exists msg, to_iso raw = Raised (ValueError msg)).
Proof.
  split.
  - intros Hall. destruct (parse_headers_all _ Hall) as [dates [Hparse Hdates]].
    unfold JHU.__to_iso. rewrite Hparse. simpl. eexists. split; [reflexivity|].
    simpl. rewrite !map_map. simpl. split; [exact Hdates|]. split; reflexivity.
  - intros Hsome. destruct (parse_headers_some _ Hsome) as [msg Hparse].
    unfold JHU.__to_iso. rewrite Hparse. exists msg. reflexivity.
Qed.

(** X13.  A download whose file is fetched and normalised returns the
    table, prints nothing, stores it in its own attribute exactly when
    [save_to_attribues] is set, and never touches the other two
    attributes. *)
Theorem JHU_download_stores_its_table
    (url : string) (save : bool) (s : JHU.state) (raw : JHU.csv) (df : JHU.frame) :
  read_csv url = Some raw ->
  to_iso raw = Returned df ->
  (let r := download_confirmed url save s in
   fst r = Returned df
   /\ JHU.stdout (snd r) = JHU.stdout s
   /\ JHU.confirmed (JHU.self (snd r)) = (if save then Some df else JHU.confirmed (JHU.self s))
   /\ JHU.deaths (JHU.self (snd r)) = JHU.deaths (JHU.self s)
   /\ JHU.recovered (JHU.self (snd r)) = JHU.recovered (JHU.self s))
  /\
  (let r := download_deaths url save s in
   fst r = Returned df
   /\ JHU.stdout (snd r) = JHU.stdout s
   /\ JHU.confirmed (JHU.self (snd r)) = JHU.confirmed (JHU.self s)
   /\ JHU.deaths (JHU.self (snd r)) = (if save then Some df else JHU.deaths (JHU.self s))
   /\ JHU.recovered (JHU.self (snd r)) = JHU.recovered (JHU.self s))
  /\
  (let r := download_recovered url save s in
   fst r = Returned df
   /\ JHU.stdout (snd r) = JHU.stdout s
   /\ JHU.confirmed (JHU.self (snd r)) = JHU.confirmed (JHU.self s)
   /\ JHU.deaths (JHU.self (snd r)) = JHU.deaths (JHU.self s)
   /\ JHU.recovered (JHU.self (snd r))
      = (if save then Some df else JHU.recovered (JHU.self s))).
Proof.
  intros Hread Hiso.
  unfold JHU.download_confirmed, JHU.download_deaths, JHU.download_recovered,
    JHU.__download_from_source.
  rewrite Hread. simpl. rewrite Hiso.
  destruct save; simpl; repeat split.
Qed.

(** X14.  [download_all_available_data] is not atomic.  It downloads the
    confirmed cases, the deaths and the recovered cases in this order and
    stores each as it goes: when the three files are fetched and
    normalised the three tables are returned and stored, but when the
    second file cannot be fetched the call raises with the new table of
    confirmed cases already stored beside the old deaths and recovered
    cases. *)
Theorem JHU_download_all_stores_as_it_goes
    (fp_confirmed fp_deaths fp_recovered : string) (s : JHU.state)
    (raw_c : JHU.csv) (c : JHU.frame) :
  read_csv fp_confirmed = Some raw_c ->
  to_iso raw_c = Returned c ->
  (forall raw_d raw_r d r,
      read_csv fp_deaths = Some raw_d -> to_iso raw_d = Returned d ->
      read_csv fp_recovered = Some raw_r -> to_iso raw_r = Returned r ->
      let res := download_all fp_confirmed fp_deaths fp_recovered true s in
      fst res = Returned (c, d, r)
      /\ JHU.self (snd res)
         = {| JHU.confirmed := Some c; JHU.deaths := Some d; JHU.recovered := Some r |}
      /\ JHU.stdout (snd res) = JHU.stdout s)
  /\
  (read_csv fp_deaths = None ->
   let res := download_all fp_confirmed fp_deaths fp_recovered true s in
   fst res = Raised TypeError
   /\ JHU.confirmed (JHU.self (snd res)) = Some c
   /\ JHU.deaths (JHU.self (snd res)) = JHU.deaths (JHU.self s)
   /\ JHU.recovered (JHU.self (snd res)) = JHU.recovered (JHU.self s)
   /\ JHU.stdout (snd res) = (JHU.stdout s ++ [JHU.failed_notice])%list).
Proof.
  intros Hread Hiso. split.
  - intros raw_d raw_r d r Hread_d Hiso_d Hread_r Hiso_r.
    unfold JHU.download_all_available_data, JHU.download_confirmed, JHU.download_deaths,
      JHU.download_recovered, JHU.__download_from_source.
    rewrite Hread. simpl. rewrite Hiso. simpl.
    rewrite Hread_d. simpl. rewrite Hiso_d. simpl.
    rewrite Hread_r. simpl. rewrite Hiso_r. simpl. repeat split.
  - intros Hnone.
    unfold JHU.download_all_available_data, JHU.download_confirmed, JHU.download_deaths,
      JHU.__download_from_source.
    rewrite Hread. simpl. rewrite Hiso. simpl.
    rewrite Hnone. simpl. repeat split.
Qed.

End JHU_retrieval.

Section JHU_selectors.

Context `{Pandas.Indexing}.


(** X16.  Before any download every accessor of the JHU adapter raises
    AttributeError, whatever its arguments: the three tables are only
    annotated by the constructor. *)
Theorem JHU_accessors_before_download
    (country state : option string) (begin_date end_date : option value) :
  let self := {| JHU.confirmed := None; JHU.deaths := None; JHU.recovered := None |} in
  JHU.get_confirmed self country state begin_date end_date = Raised AttributeError
  /\ JHU.get_deaths self country state begin_date end_date = Raised AttributeError
  /\ JHU.get_recovered self country state begin_date end_date = Raised AttributeError
  /\ JHU.get_new_confirmed self country state begin_date end_date = Raised AttributeError
  /\ JHU.get_new_deaths self country state begin_date end_date = Raised AttributeError
  /\ JHU.get_new_recovered self country state begin_date end_date = Raised AttributeError
  /\ JHU.get_confirmed_deaths_recovered self country state begin_date end_date
     = Raised AttributeError
  /\ JHU.get_possible_countries_states self = Raised AttributeError.
Proof.
  unfold JHU.get_new_confirmed, JHU.get_new_deaths, JHU.get_new_recovered,
    JHU.get_confirmed, JHU.get_deaths, JHU.get_recovered,
    JHU.get_confirmed_deaths_recovered, JHU.get_possible_countries_states,
    JHU.select_sum_axis1, JHU.selection.
  simpl. destruct (JHU.none_string country), (JHU.none_string state), country, state;
    simpl; repeat split.
Qed.

End JHU_selectors.

(** Witness of [JHU_to_iso_shape]: the file of two dates and two
    countries. *)
Lemma JHU_to_iso_shape_witness :
  exists df,
    JHU.__to_iso Sample.month_day_year Sample.csv_sample = Returned df
    /\ map Some (JHU.index df) = [Some 1; Some 2]
    /\ map fst (JHU.columns df) = [("Germany"%string, None); ("Italy"%string, None)]
    /\ map snd (JHU.columns df) = [[1; 3]; [2; 4]].
Proof.
  apply (proj1 (JHU_to_iso_shape Sample.month_day_year Sample.csv_sample)).
  repeat constructor; discriminate.
Defined.

(** Witness of [JHU_download_stores_its_table]: the confirmed cases, kept
    out of the attributes. *)
Lemma JHU_download_stores_its_table_witness :
  fst (JHU.download_confirmed (Sample.online JHU.default_fp_confirmed) Sample.month_day_year "."
         JHU.default_fp_confirmed false Sample.blank) = Returned Sample.two_by_two
  /\ JHU.confirmed (JHU.self (snd (JHU.download_confirmed
        (Sample.online JHU.default_fp_confirmed) Sample.month_day_year "."
        JHU.default_fp_confirmed false Sample.blank))) = None.
Proof.
  destruct (JHU_download_stores_its_table (Sample.online JHU.default_fp_confirmed)
              Sample.month_day_year "." JHU.default_fp_confirmed false Sample.blank
              Sample.csv_sample Sample.two_by_two eq_refl eq_refl)
    as [[Hret [_ [Hconfirmed _]]] _].
  split; [exact Hret | exact Hconfirmed].
Defined.

(** Witness of [JHU_download_all_stores_as_it_goes]: only the file of the
    confirmed cases is served. *)
Lemma JHU_download_all_stores_as_it_goes_witness :
  fst (JHU.download_all_available_data (Sample.online JHU.default_fp_confirmed)
         Sample.month_day_year "." JHU.default_fp_confirmed JHU.default_fp_deaths
         JHU.default_fp_recovered true Sample.blank) = Raised TypeError
  /\ JHU.confirmed (JHU.self (snd (JHU.download_all_available_data
        (Sample.online JHU.default_fp_confirmed) Sample.month_day_year "."
        JHU.default_fp_confirmed JHU.default_fp_deaths JHU.default_fp_recovered true
        Sample.blank))) = Some Sample.two_by_two.
Proof.
  destruct (JHU_download_all_stores_as_it_goes (Sample.online JHU.default_fp_confirmed)
              Sample.month_day_year "." JHU.default_fp_confirmed JHU.default_fp_deaths
              JHU.default_fp_recovered Sample.blank Sample.csv_sample Sample.two_by_two
              eq_refl eq_refl) as [_ Hpartial].
  destruct (Hpartial eq_refl) as [Hraise [Hconfirmed _]].
  split; [exact Hraise | exact Hconfirmed].
Defined.

(** *** JHU: date ranges and the list of regions *)

Lemma map_snd_combine_seq {A : Type} (l : list A) (start : nat) :
  map snd (combine (seq start (List.length l)) l) = l.
Proof.
  revert start. induction l as [|a l IH]; simpl; intros start; [reflexivity|].
  now rewrite IH.
Qed.

Lemma sum_axis1_index (df : JHU.frame) : map fst (JHU.sum_axis1 df) = JHU.index df.
Proof. unfold JHU.sum_axis1. rewrite map_map. simpl. apply map_snd_combine_seq. Qed.

Lemma sorted_le_ascendingb (idx : list Z) :
  Sorted Z.le idx -> Pandas.ascendingb idx = true.
Proof.
  induction 1 as [|a l Hl IH Hhd]; [reflexivity|].
  destruct l as [|b l']; [reflexivity|].
  change (Pandas.ascendingb (a :: b :: l')) with ((a <=? b) && Pandas.ascendingb (b :: l')).
  rewrite IH. inversion Hhd; subst. rewrite andb_true_r. now apply Z.leb_le.
Qed.

Lemma sorted_combine_prefix {A : Type} (l : list Z) (l' : list A) :
  Sorted Z.le l -> Sorted Z.le (map fst (combine l l')).
Proof.
  intros Hs. revert l'. induction Hs as [|a l Hl IH Hhd]; intros l'; [constructor|].
  destruct l' as [|x l']; simpl; [constructor|].
  constructor; [apply IH|].
  destruct l as [|b l]; simpl; [constructor|].
  destruct l' as [|y l']; simpl; constructor. inversion Hhd; assumption.
Qed.

(** The dates of what an accessor selects ascend when the dates of the
    table do. *)
Lemma select_sum_axis1_sorted table df country state x :
  table = Some df ->
  Sorted Z.le (JHU.index df) ->
  JHU.select_sum_axis1 table country state = Returned x ->
  exists sel, x = JHU.ByDate sel /\ Sorted Z.le (map fst sel)
              /\ (country = None -> map fst sel = JHU.index df).
Proof.
  intros -> Hsorted Hsel. unfold JHU.select_sum_axis1 in Hsel.
  destruct country as [c|]; [destruct state as [st|]|]; simpl in Hsel.
  - destruct (JHU.getitem_column df c st) as [col|] eqn:E; [|discriminate].
    injection Hsel as <-. exists col. split; [reflexivity|]. split; [|discriminate].
    unfold JHU.getitem_column in E.
    match type of E with
    | context [match ?l with _ => _ end] => destruct l as [|c1 [|c2 rest]]
    end; try discriminate.
    injection E as <-. now apply sorted_combine_prefix.
  - destruct (JHU.getitem_country df c) as [sub|] eqn:E; [|discriminate].
    injection Hsel as <-. exists (JHU.sum_axis1 sub). split; [reflexivity|].
    split; [|discriminate]. rewrite sum_axis1_index.
    unfold JHU.getitem_country in E.
    match type of E with
    | context [match ?l with _ => _ end] => destruct l
    end; [discriminate|].
    injection E as <-. exact Hsorted.
  - injection Hsel as <-. exists (JHU.sum_axis1 df).
    rewrite sum_axis1_index. repeat split. exact Hsorted.
Qed.

Lemma index_bounds_sorted (rows : list (Z * Z)) :
  rows <> [] ->
  Sorted Z.le (map fst rows) ->
  exists tmin tmax,
    Pandas.index_first rows = Returned tmin
    /\ Pandas.index_last rows = Returned tmax
    /\ forall r, In r rows -> tmin <= fst r <= tmax.
Proof.
  intros Hne Hsorted.
  assert (Hstrong : StronglySorted Z.le (map fst rows)).
  { apply Sorted_StronglySorted; [intros a b c; apply Z.le_trans | exact Hsorted]. }
  unfold Pandas.index_first, Pandas.index_last.
  destruct rows as [|r0 rows'] eqn:Erows; [congruence|]. rewrite <- Erows in *.
  destruct (rev rows) as [|rl rest] eqn:Er.
  { apply (f_equal (@rev (Z * Z))) in Er. rewrite rev_involutive in Er. simpl in Er.
    congruence. }
  exists (fst r0), (fst rl). split; [reflexivity|]. split; [reflexivity|].
  intros r Hr. split.
  - rewrite Erows in Hstrong, Hr. simpl in Hstrong.
    inversion Hstrong as [|? ? _ Hall]; subst.
    rewrite Forall_forall in Hall. destruct Hr as [<-|Hr]; [lia|].
    apply Hall. now apply in_map.
  - apply (sorted_last_max _ Hstrong (fst rl) (map fst rest)).
    + rewrite <- map_rev, Er. reflexivity.
    + now apply in_map.
Qed.

Section JHU_ranges.

Context `{Pandas.Indexing}.

Lemma filter_date_full_range (rows : list (Z * Z)) (y : JHU.series) :
  Sorted Z.le (map fst rows) ->
  JHU.filter_date (JHU.ByDate rows) None None = Returned y ->
  y = JHU.ByDate rows.
Proof.
  intros Hsorted Hret.
  assert (Hne : rows <> []) by (intros ->; discriminate Hret).
  destruct (index_bounds_sorted rows Hne Hsorted) as [tmin [tmax [Efirst [Elast Hrange]]]].
  unfold JHU.filter_date, JHU.first_label, JHU.last_label, JHU.getitem_slice in Hret.
  rewrite Efirst, Elast in Hret. unfold Pandas.slice_dates in Hret.
  rewrite (sorted_le_ascendingb _ Hsorted) in Hret.
  cbn [fmap bind date_guard isinstance_datetime negb andb Pandas.cast_bound] in Hret.
  injection Hret as <-. f_equal. now apply between_covering.
Qed.

Lemma filter_date_range (rows : list (Z * Z)) (tb te : Z) :
  Sorted Z.le (map fst rows) ->
  JHU.filter_date (JHU.ByDate rows) (Some (VDatetime tb)) (Some (VDatetime te))
  = Returned (JHU.ByDate (Pandas.between tb te rows)).
Proof.
  intros Hsorted. unfold JHU.filter_date. simpl. unfold Pandas.slice_dates.
  now rewrite (sorted_le_ascendingb _ Hsorted).
Qed.

Lemma JHU_range_of_selection table df country state rows tb te :
  table = Some df ->
  Sorted Z.le (JHU.index df) ->
  (x <- JHU.select_sum_axis1 table (JHU.none_string country) (JHU.none_string state) ;;
   JHU.filter_date x None None) = Returned (JHU.ByDate rows) ->
  (x <- JHU.select_sum_axis1 table (JHU.none_string country) (JHU.none_string state) ;;
   JHU.filter_date x (Some (VDatetime tb)) (Some (VDatetime te)))
  = Returned (JHU.ByDate (Pandas.between tb te rows))
  /\ (JHU.none_string country = None -> map fst rows = JHU.index df).
Proof.
  intros Htable Hsorted Hret.
  destruct (JHU.select_sum_axis1 table (JHU.none_string country) (JHU.none_string state))
    as [x|] eqn:Esel; [|discriminate]. simpl in Hret |- *.
  destruct (select_sum_axis1_sorted table df _ _ x Htable Hsorted Esel)
    as [sel [-> [Hsel Hindex]]].
  apply filter_date_full_range in Hret; [|exact Hsel]. injection Hret as <-.
  split; [now apply filter_date_range | exact Hindex].
Qed.

(** X17.  On a table whose dates ascend, a range given by two datetimes
    selects rows of what [get_confirmed] and [get_deaths] return without
    bounds: the series with the range is the series without, cut to the
    dates between the two, both ends kept.  Without a country the series
    without bounds has exactly the dates of the table. *)
Theorem JHU_range_is_slice
    (self : JHU.adapter) (df : JHU.frame) (country state : option string)
    (tb te : Z) (rows : list (Z * Z)) :
  Sorted Z.le (JHU.index df) ->
  (JHU.confirmed self = Some df ->
   JHU.get_confirmed self country state None None = Returned (JHU.ByDate rows) ->
   JHU.get_confirmed self country state (Some (VDatetime tb)) (Some (VDatetime te))
     = Returned (JHU.ByDate (Pandas.between tb te rows))
   /\ (JHU.none_string country = None -> map fst rows = JHU.index df))
  /\
  (JHU.deaths self = Some df ->
   JHU.get_deaths self country state None None = Returned (JHU.ByDate rows) ->
   JHU.get_deaths self country state (Some (VDatetime tb)) (Some (VDatetime te))
     = Returned (JHU.ByDate (Pandas.between tb te rows))
   /\ (JHU.none_string country = None -> map fst rows = JHU.index df)).
Proof.
  intros Hsorted. unfold JHU.get_confirmed, JHU.get_deaths.
  split; intros Htable Hret; now apply (JHU_range_of_selection _ df).
Qed.

End JHU_ranges.

(** Witness of [JHU_range_is_slice]: the second date of the table of two
    dates. *)
Lemma JHU_range_is_slice_witness :
  @JHU.get_confirmed Sample.indexing Sample.jhu None None
     (Some (VDatetime 2)) (Some (VDatetime 2))
  = Returned (JHU.ByDate (Pandas.between 2 2 [(1, 3); (2, 7)])).
Proof.
  destruct (@JHU_range_is_slice Sample.indexing Sample.jhu Sample.two_by_two None None 2 2
              [(1, 3); (2, 7)]) as [Hconfirmed _].
  - simpl. repeat constructor. lia.
  - destruct (Hconfirmed eq_refl eq_refl) as [Hrange _]. exact Hrange.
Defined.

Lemma unique_In (x : option string) (l : list (option string)) :
  In x (JHU.unique l) <-> In x l.
Proof.
  induction l as [|a l IH]; simpl; [tauto|].
  rewrite filter_In, IH. split.
  - intros [->|[Hin _]]; tauto.
  - intros [->|Hin]; [now left|].
    destruct (Pandas.option_eqb a x) eqn:E.
    + apply option_eqb_eq in E. now left.
    + right. split; [exact Hin | reflexivity].
Qed.

Lemma unique_NoDup (l : list (option string)) : NoDup (JHU.unique l).
Proof.
  induction l as [|a l IH]; simpl; constructor.
  - intros Hin. apply filter_In in Hin. destruct Hin as [_ E].
    assert (Pandas.option_eqb a a = true) as Ha by now apply option_eqb_eq.
    rewrite Ha in E. discriminate E.
  - now apply NoDup_filter.
Qed.

Lemma insert_names_from {A : Type} (f : A -> string) (l : list A) (acc : list string) :
  let names := fold_left (fun acc e => RKI.insert_name (f e) acc) l acc in
  (Sorted string_lt acc -> Sorted string_lt names)
  /\ (forall n, In n names <-> In n acc \/ exists e, In e l /\ f e = n).
Proof.
  revert acc. induction l as [|e l IH]; simpl; intros acc.
  - split; [tauto|]. intros n. split; [tauto|]. intros [Hin|[e [[] _]]]. exact Hin.
  - destruct (IH (RKI.insert_name (f e) acc)) as [Hs Hin].
    split.
    + intros Hacc. apply Hs. now apply insert_name_sorted.
    + intros n. rewrite Hin, insert_name_In. split.
      * intros [[->|Hacc]|[e' [He' E]]].
        -- right. exists e. tauto.
        -- now left.
        -- right. exists e'. tauto.
      * intros [Hacc|[e' [[<-|He'] E]]].
        -- left. now right.
        -- left. left. now symmetry.
        -- right. exists e'. tauto.
Qed.

(** X18.  [get_possible_countries_states] lists every country that keys a
    column of one of the three tables, each once and in the order of
    strings, and beside each country exactly the states (NaN among them)
    that occur with it in a column key, each once. *)
Theorem JHU_possible_countries_states_complete
    (self : JHU.adapter) (result : list (string * list (option string))) :
  JHU.get_possible_countries_states self = Returned result ->
  StronglySorted string_lt (map fst result)
  /\ (forall country states, In (country, states) result -> NoDup states)
  /\ (forall country state,
        In (country, state) (column_keys self) <->
        exists states, In (country, states) result /\ In state states).
Proof.
  unfold JHU.get_possible_countries_states, column_keys.
  destruct (JHU.confirmed self) as [c|]; [|discriminate].
  destruct (JHU.deaths self) as [d|]; [|discriminate].
  destruct (JHU.recovered self) as [r|]; [|discriminate]. simpl.
  set (all_entrys := (map fst (JHU.columns c) ++ map fst (JHU.columns d)
                      ++ map fst (JHU.columns r))%list).
  intros Hret. injection Hret as <-.
  destruct (insert_names_from (@fst string (option string)) all_entrys []) as [Hs Hin].
  simpl in Hs, Hin.
  split; [|split].
  - rewrite map_map. simpl. rewrite map_id.
    apply Sorted_StronglySorted; [exact string_lt_trans|]. apply Hs. constructor.
  - intros country states Hres. apply in_map_iff in Hres.
    destruct Hres as [country' [E _]]. injection E as _ <-. apply unique_NoDup.
  - intros country state. split.
    + intros Hkey.
      exists (JHU.unique (map snd (List.filter (fun e => String.eqb (fst e) country) all_entrys))).
      split.
      * apply in_map_iff. exists country. split; [reflexivity|].
        apply Hin. right. exists (country, state). tauto.
      * apply unique_In. apply in_map_iff. exists (country, state). split; [reflexivity|].
        apply filter_In. split; [exact Hkey | apply String.eqb_refl].
    + intros [states [Hres Hstate]]. apply in_map_iff in Hres.
      destruct Hres as [country' [E _]]. injection E as -> <-.
      apply (proj1 (unique_In _ _)) in Hstate. apply in_map_iff in Hstate.
      destruct Hstate as [[c' s'] [Es He]]. simpl in Es. subst s'.
      apply filter_In in He. destruct He as [He Ec]. simpl in Ec.
      apply String.eqb_eq in Ec. now subst c'.
Qed.

(** Witness of [JHU_possible_countries_states_complete]: the adapter of
    two countries. *)
Lemma JHU_possible_countries_states_complete_witness :
  JHU.get_possible_countries_states Sample.jhu
    = Returned [("Germany"%string, [None]); ("Italy"%string, [None])]
  /\ StronglySorted string_lt ["Germany"; "Italy"]%string.
Proof.
  split; [reflexivity|].
  destruct (JHU_possible_countries_states_complete Sample.jhu
              [("Germany"%string, [None]); ("Italy"%string, [None])] eq_refl)
    as [Hsorted _].
  exact Hsorted.
Defined.

(** *** RKI: a retrieval that meets no failure *)

Section RKI_first_tries.

Variable World : Type.
Variable urlopen_ids : string -> World -> option (list string) * World.
Variable urlopen_rows : string -> World -> option (list RKI.attributes) * World.
Variable fromtimestamp : Z -> Z.
Variable read_fallback : string -> option (list RKI.fallback_record).
Variable to_datetime : string -> option Z.
Variable this_dir : string.

Abbreviation replies_in_turn := (replies_in_turn World urlopen_rows).
Abbreviation for_landkreise := (RKI.for_landkreise World urlopen_rows).
Abbreviation download_all_available_data :=
  (RKI.download_all_available_data World urlopen_ids urlopen_rows fromtimestamp
     read_fallback to_datetime this_dir).

Lemma for_landkreise_first_tries (try_max : Z) (ids : list string) :
  0 < try_max ->
  forall s df s' df0 data_flat,
    replies_in_turn ids s = Some (df, s') ->
    RKI.requests s' = RKI.requests s ++ map RKI.url_str ids
    /\ exists data_flat',
         for_landkreise try_max ids df0 data_flat s = (Returned (df0 ++ df, data_flat'), s').
Proof.
  intros Hmax. induction ids as [|id rest IH]; intros s df s' df0 data_flat Hreplies.
  - simpl in Hreplies. injection Hreplies as <- <-. simpl. rewrite !app_nil_r.
    split; [reflexivity|]. now exists data_flat.
  - simpl in Hreplies.
    pose proof (try_query_frame World urlopen_rows (RKI.url_str id) s) as [Hreq _].
    destruct (RKI.try_query World urlopen_rows (RKI.url_str id) s) as [[features|] s1] eqn:Etry;
      [|discriminate].
    destruct (replies_in_turn rest s1) as [[more s2]|] eqn:Erest; [|discriminate].
    injection Hreplies as <- <-.
    destruct (IH s1 more s2 (df0 ++ features) (Some features) Erest) as [Hreq' [dflat Hrun]].
    split.
    + rewrite Hreq'. simpl in Hreq. rewrite Hreq, <- app_assoc. reflexivity.
    + exists dflat. simpl. rewrite while_tries_step.
      assert (E : (0 <? try_max) = true) by (apply Z.ltb_lt; exact Hmax). rewrite E, Etry.
      assert (E' : (0 =? try_max) = false) by (apply Z.eqb_neq; lia). rewrite E'.
      rewrite Hrun, app_assoc. reflexivity.
Qed.


End RKI_first_tries.


(** *** JHU: the frame of the three metrics *)

Lemma map_fst_combine_eq {A B : Type} (l : list A) (l' : list B) :
  List.length l' = List.length l -> map fst (combine l l') = l.
Proof.
  revert l'. induction l as [|a l IH]; intros [|b l']; simpl; intros E;
    try reflexivity; try discriminate.
  f_equal. apply IH. now injection E.
Qed.

Lemma select_is_selection table country state :
  JHU.select_sum_axis1 table country state
  = fmap JHU.ByDate (JHU.selection table country state).
Proof.
  unfold JHU.select_sum_axis1, JHU.selection.
  destruct country as [c|]; [destruct state as [st|]|]; destruct table as [df|]; simpl;
    try reflexivity;
    match goal with
    | |- context [JHU.getitem_column ?a ?b ?c] => destruct (JHU.getitem_column a b c)
    | |- context [JHU.getitem_country ?a ?b] => destruct (JHU.getitem_country a b)
    end; reflexivity.
Qed.

Lemma selection_labels table df country state v :
  table = Some df ->
  well_formed df ->
  JHU.selection table country state = Returned v ->
  map fst v = JHU.index df.
Proof.
  intros -> Hwf Hsel. unfold JHU.selection in Hsel.
  destruct country as [c|]; [destruct state as [st|]|]; simpl in Hsel.
  - unfold JHU.getitem_column in Hsel.
    match type of Hsel with
    | context [match ?l with _ => _ end] => destruct l as [|c1 [|c2 rest]] eqn:Ef
    end; try discriminate.
    injection Hsel as <-. apply map_fst_combine_eq.
    unfold well_formed in Hwf. rewrite Forall_forall in Hwf. apply Hwf.
    assert (Hin : In c1 [c1]) by now left.
    rewrite <- Ef in Hin. apply filter_In in Hin. tauto.
  - destruct (JHU.getitem_country df c) as [sub|] eqn:E; [|discriminate].
    injection Hsel as <-. rewrite sum_axis1_index.
    unfold JHU.getitem_country in E.
    match type of E with
    | context [match ?l with _ => _ end] => destruct l
    end; [discriminate|].
    injection E as <-. reflexivity.
  - injection Hsel as <-. apply sum_axis1_index.
Qed.

Lemma reindex_same (v : list (Z * Z)) (idx : list Z) :
  map fst v = idx -> JHU.reindex v idx = Returned (map (fun p => Some (snd p)) v).
Proof.
  intros E. unfold JHU.reindex.
  destruct (list_eq_dec Z.eq_dec (map fst v) idx); [reflexivity | contradiction].
Qed.

(** Assigning a series whose labels are the index of the frame fills the
    column with its values. *)
Lemma setitem_same (df : JHU.frame3) (m : JHU.metric) (v : list (Z * Z)) :
  JHU.f_index df = map fst v ->
  JHU.setitem df m v = Returned (JHU.set_column m (map (fun p => Some (snd p)) v) df).
Proof.
  intros E. unfold JHU.setitem.
  destruct (JHU.f_index df) as [|a idx] eqn:Ei.
  - destruct v as [|p v]; [|discriminate E]. reflexivity.
  - rewrite (reindex_same v (a :: idx)) by (symmetry; exact E). reflexivity.
Qed.

Lemma setitem_first (v : list (Z * Z)) :
  JHU.setitem JHU.empty_frame3 JHU.Confirmed v
  = Returned {| JHU.f_index := map fst v;
                JHU.f_confirmed := map (fun p => Some (snd p)) v;
                JHU.f_deaths := map (fun _ => None) v;
                JHU.f_recovered := map (fun _ => None) v |}.
Proof.
  destruct v as [|p v]; [|reflexivity].
  exact (setitem_same JHU.empty_frame3 JHU.Confirmed [] eq_refl).
Qed.

Lemma rows3_columns (v1 v2 v3 : list (Z * Z)) :
  map fst v2 = map fst v1 ->
  map fst v3 = map fst v1 ->
  let rows := combine (map fst v1)
                (combine (combine (map (fun p => Some (snd p)) v1)
                                  (map (fun p => Some (snd p)) v2))
                         (map (fun p => Some (snd p)) v3)) in
  metric_column JHU.Confirmed rows = present v1
  /\ metric_column JHU.Deaths rows = present v2
  /\ metric_column JHU.Recovered rows = present v3.
Proof.
  revert v2 v3. induction v1 as [|p1 v1 IH]; intros [|p2 v2] [|p3 v3] E2 E3;
    try discriminate; simpl.
  - repeat split.
  - simpl in E2, E3. injection E2 as Ep2 E2. injection E3 as Ep3 E3.
    destruct (IH v2 v3 E2 E3) as [Hc [Hd Hr]]. simpl in Hc, Hd, Hr.
    unfold metric_column, present in *. simpl.
    rewrite Hc, Hd, Hr, Ep2, Ep3. repeat split.
Qed.

Lemma filter_map_label {A B : Type} (f : A -> B) (test : Z -> bool) (rows : list (Z * A)) :
  List.filter (fun r => test (fst r)) (map (fun row => (fst row, f (snd row))) rows)
  = map (fun row => (fst row, f (snd row))) (List.filter (fun r => test (fst r)) rows).
Proof.
  induction rows as [|r rows IH]; simpl; [reflexivity|].
  destruct (test (fst r)); simpl; now rewrite IH.
Qed.

Lemma map_fst_relabel {A B : Type} (f : A -> B) (rows : list (Z * A)) :
  map fst (map (fun row => (fst row, f (snd row))) rows) = map fst rows.
Proof. induction rows as [|r rows IH]; simpl; [reflexivity | now rewrite IH]. Qed.

Lemma index_first_map {A B : Type} (f : A -> B) (rows : list (Z * A)) :
  Pandas.index_first (map (fun row => (fst row, f (snd row))) rows) = Pandas.index_first rows.
Proof. destruct rows; reflexivity. Qed.

Lemma index_last_map {A B : Type} (f : A -> B) (rows : list (Z * A)) :
  Pandas.index_last (map (fun row => (fst row, f (snd row))) rows) = Pandas.index_last rows.
Proof.
  unfold Pandas.index_last. rewrite <- map_rev. destruct (rev rows); reflexivity.
Qed.

Section JHU_three_metrics.

Context `{Pandas.Indexing}.

Lemma filter_date_is_rows (v : list (Z * Z)) begin_date end_date :
  JHU.filter_date (JHU.ByDate v) begin_date end_date
  = fmap JHU.ByDate (JHU.filter_date_rows v begin_date end_date).
Proof.
  unfold JHU.filter_date, JHU.filter_date_rows, JHU.first_label, JHU.last_label,
    JHU.getitem_slice.
  destruct (match begin_date with
            | Some v0 => Returned v0
            | None => fmap VDatetime (Pandas.index_first v)
            end) as [b|]; [|reflexivity]. simpl.
  destruct (match end_date with
            | Some v0 => Returned v0
            | None => fmap VDatetime (Pandas.index_last v)
            end) as [e|]; [|reflexivity]. simpl.
  destruct (date_guard b e); reflexivity.
Qed.

(** On ascending dates, filtering by date and relabelling the cells
    commute. *)
Lemma filter_date_rows_map {A B : Type} (f : A -> B) (rows : list (Z * A)) begin_date end_date :
  Pandas.ascendingb (map fst rows) = true ->
  JHU.filter_date_rows (map (fun row => (fst row, f (snd row))) rows) begin_date end_date
  = fmap (map (fun row => (fst row, f (snd row))))
      (JHU.filter_date_rows rows begin_date end_date).
Proof.
  intros Hasc. unfold JHU.filter_date_rows.
  rewrite index_first_map, index_last_map.
  destruct (match begin_date with
            | Some v => Returned v
            | None => fmap VDatetime (Pandas.index_first rows)
            end) as [b|]; [|reflexivity]. simpl.
  destruct (match end_date with
            | Some v => Returned v
            | None => fmap VDatetime (Pandas.index_last rows)
            end) as [e|]; [|reflexivity]. simpl.
  destruct (date_guard b e); [reflexivity|].
  unfold Pandas.slice_dates. rewrite map_fst_relabel, Hasc.
  destruct (Pandas.cast_bound Pandas.Left b) as [tb|]; [|reflexivity]. simpl.
  destruct (Pandas.cast_bound Pandas.Right e) as [te|]; [|reflexivity]. simpl.
  unfold Pandas.between.
  now rewrite (filter_map_label f (fun d => (tb <=? d) && (d <=? te)) rows).
Qed.

Lemma present_filtered (v : list (Z * Z)) begin_date end_date (col : list (Z * option Z)) :
  Pandas.ascendingb (map fst v) = true ->
  JHU.filter_date_rows (present v) begin_date end_date = Returned col ->
  exists s, JHU.filter_date_rows v begin_date end_date = Returned s /\ col = present s.
Proof.
  intros Hasc Hret. unfold present in Hret.
  rewrite (filter_date_rows_map (@Some Z) v begin_date end_date Hasc) in Hret.
  destruct (JHU.filter_date_rows v begin_date end_date) as [s|]; [|discriminate].
  injection Hret as <-. now exists s.
Qed.

(** X20.  When the three tables share their dates, the dates are in
    ascending order and every column has a cell for every date, then for a
    country and a state of which none is the string None (which
    [get_confirmed] and [get_deaths] take for an omitted selector and
    [get_confirmed_deaths_recovered] for a name), the frame
    [get_confirmed_deaths_recovered] returns holds, date by date, what
    [get_confirmed] and [get_deaths] return for the same arguments, and in
    its third column the recovered cases selected and summed like the
    other two, by date; no cell is NaN. *)
Theorem JHU_three_metrics_agree
    (self : JHU.adapter) (c d r : JHU.frame) (country state : option string)
    (begin_date end_date : option value)
    (rows : list (Z * (option Z * option Z * option Z))) :
  JHU.confirmed self = Some c ->
  JHU.deaths self = Some d ->
  JHU.recovered self = Some r ->
  JHU.index d = JHU.index c ->
  JHU.index r = JHU.index c ->
  Sorted Z.le (JHU.index c) ->
  well_formed c -> well_formed d -> well_formed r ->
  JHU.none_string country = country ->
  JHU.none_string state = state ->
  JHU.get_confirmed_deaths_recovered self country state begin_date end_date = Returned rows ->
  exists cs ds rs,
    JHU.get_confirmed self country state begin_date end_date = Returned (JHU.ByDate cs)
    /\ JHU.get_deaths self country state begin_date end_date = Returned (JHU.ByDate ds)
    /\ (x <- JHU.select_sum_axis1 (JHU.recovered self) country state ;;
        JHU.filter_date x begin_date end_date) = Returned (JHU.ByDate rs)
    /\ metric_column JHU.Confirmed rows = present cs
    /\ metric_column JHU.Deaths rows = present ds
    /\ metric_column JHU.Recovered rows = present rs.
Proof.
  intros Hc Hd Hr Eid Eir Hsorted Hwc Hwd Hwr Ecountry Estate Hret.
  unfold JHU.get_confirmed_deaths_recovered in Hret.
  destruct (JHU.selection (JHU.confirmed self) country state) as [v1|] eqn:E1; [|discriminate].
  simpl in Hret. rewrite setitem_first in Hret. simpl in Hret.
  destruct (JHU.selection (JHU.deaths self) country state) as [v2|] eqn:E2; [|discriminate].
  simpl in Hret.
  pose proof (selection_labels _ c _ _ v1 Hc Hwc E1) as L1.
  pose proof (selection_labels _ d _ _ v2 Hd Hwd E2) as L2.
  rewrite Eid, <- L1 in L2.
  rewrite setitem_same in Hret by (simpl; now rewrite L2). simpl in Hret.
  destruct (JHU.selection (JHU.recovered self) country state) as [v3|] eqn:E3; [|discriminate].
  simpl in Hret.
  pose proof (selection_labels _ r _ _ v3 Hr Hwr E3) as L3.
  rewrite Eir, <- L1 in L3.
  rewrite setitem_same in Hret by (simpl; now rewrite L3).
  cbn [bind] in Hret. unfold JHU.rows3 in Hret.
  cbn [JHU.set_column JHU.f_index JHU.f_confirmed JHU.f_deaths JHU.f_recovered] in Hret.
  destruct (rows3_columns v1 v2 v3 L2 L3) as [Pc [Pd Pr]]. cbv zeta in Pc, Pd, Pr.
  set (frame := combine (map fst v1)
                  (combine (combine (map (fun p => Some (snd p)) v1)
                                    (map (fun p => Some (snd p)) v2))
                           (map (fun p => Some (snd p)) v3))) in *.
  assert (Hasc1 : Pandas.ascendingb (map fst v1) = true).
  { rewrite L1. now apply sorted_le_ascendingb. }
  assert (Hasc2 : Pandas.ascendingb (map fst v2) = true) by now rewrite L2.
  assert (Hasc3 : Pandas.ascendingb (map fst v3) = true) by now rewrite L3.
  assert (Hascf : Pandas.ascendingb (map fst frame) = true).
  { replace (map fst frame) with (map fst (metric_column JHU.Confirmed frame)).
    - rewrite Pc. unfold present. rewrite map_map. simpl. exact Hasc1.
    - unfold metric_column. rewrite map_map. reflexivity. }
  assert (Hcol : forall m,
            JHU.filter_date_rows (metric_column m frame) begin_date end_date
            = Returned (metric_column m rows)).
  { intros m. unfold metric_column.
    rewrite (filter_date_rows_map
               (fun cells : option Z * option Z * option Z =>
                  match m with
                  | JHU.Confirmed => fst (fst cells)
                  | JHU.Deaths => snd (fst cells)
                  | JHU.Recovered => snd cells
                  end) frame begin_date end_date Hascf).
    rewrite Hret. reflexivity. }
  pose proof (Hcol JHU.Confirmed) as Hcc. rewrite Pc in Hcc.
  pose proof (Hcol JHU.Deaths) as Hcd. rewrite Pd in Hcd.
  pose proof (Hcol JHU.Recovered) as Hcr. rewrite Pr in Hcr.
  destruct (present_filtered v1 _ _ _ Hasc1 Hcc) as [cs [Fc Ec]].
  destruct (present_filtered v2 _ _ _ Hasc2 Hcd) as [ds [Fd Ed]].
  destruct (present_filtered v3 _ _ _ Hasc3 Hcr) as [rs [Fr Er]].
  exists cs, ds, rs.
  unfold JHU.get_confirmed, JHU.get_deaths. rewrite Ecountry, Estate.
  rewrite !select_is_selection, E1, E2, E3. simpl.
  rewrite !filter_date_is_rows, Fc, Fd, Fr. simpl.
  repeat split; assumption.
Qed.

End JHU_three_metrics.

(** Witness of [JHU_three_metrics_agree]: the adapter whose three tables
    are the table of two dates and two countries. *)
Lemma JHU_three_metrics_agree_witness :
  @JHU.get_confirmed_deaths_recovered Sample.indexing Sample.jhu None None None None
    = Returned [(1, (Some 3, Some 3, Some 3)); (2, (Some 7, Some 7, Some 7))]
  /\ exists cs,
       @JHU.get_confirmed Sample.indexing Sample.jhu None None None None
         = Returned (JHU.ByDate cs)
       /\ [(1, Some 3); (2, Some 7)] = present cs.
Proof.
  split; [reflexivity|].
  destruct (@JHU_three_metrics_agree Sample.indexing Sample.jhu Sample.two_by_two
              Sample.two_by_two Sample.two_by_two None None None None
              [(1, (Some 3, Some 3, Some 3)); (2, (Some 7, Some 7, Some 7))])
    as [cs [ds [rs [Hc [_ [_ [Pc _]]]]]]]; try reflexivity.
  - simpl. repeat constructor. lia.
  - repeat constructor.
  - repeat constructor.
  - repeat constructor.
  - exists cs. split; [exact Hc | exact Pc].
Defined.

(** *** RKI: retries that recover, and an index that cannot be opened *)

Section RKI_retries.

Variable World : Type.
Variable urlopen_ids : string -> World -> option (list string) * World.
Variable urlopen_rows : string -> World -> option (list RKI.attributes) * World.
Variable fromtimestamp : Z -> Z.
Variable read_fallback : string -> option (list RKI.fallback_record).
Variable to_datetime : string -> option Z.
Variable this_dir : string.

Abbreviation try_query := (RKI.try_query World urlopen_rows).
Abbreviation while_tries := (RKI.while_tries World urlopen_rows).
Abbreviation all_tries_fail := (all_tries_fail World urlopen_rows).
Abbreviation after_tries := (after_tries World urlopen_rows).
Abbreviation download_all_available_data :=
  (RKI.download_all_available_data World urlopen_ids urlopen_rows fromtimestamp
     read_fallback to_datetime this_dir).

Lemma while_tries_recovers (n : nat) :
  forall try_max count_try url data_flat s features s',
    count_try + Z.of_nat n < try_max ->
    all_tries_fail n url s ->
    try_query url (after_tries n url s) = (Some features, s') ->
    while_tries try_max count_try url data_flat s
      = (count_try + Z.of_nat n, Some features, s')
    /\ RKI.requests s' = RKI.requests s ++ repeat url (S n).
Proof.
  induction n as [|n IH]; intros try_max count_try url data_flat s features s' Hlt Hfail Hok.
  - simpl in Hok. rewrite while_tries_step.
    assert (E : (count_try <? try_max) = true) by (apply Z.ltb_lt; lia).
    rewrite E, Hok. split; [f_equal; f_equal; lia|].
    pose proof (try_query_frame World urlopen_rows url s) as [Hreq _].
    rewrite Hok in Hreq. exact Hreq.
  - simpl in Hfail, Hok. destruct Hfail as [Hnone Hfail].
    rewrite while_tries_step.
    assert (E : (count_try <? try_max) = true) by (apply Z.ltb_lt; lia).
    rewrite E.
    pose proof (try_query_frame World urlopen_rows url s) as [Hreq _].
    destruct (try_query url s) as [[f|] s1] eqn:Etry; simpl in Hnone, Hfail, Hok, Hreq;
      [discriminate|].
    destruct (IH try_max (count_try + 1) url data_flat s1 features s') as [Hrun Hreq'];
      [lia | exact Hfail | exact Hok |].
    split.
    + rewrite Hrun. f_equal. f_equal. lia.
    + rewrite Hreq', Hreq, <- app_assoc. reflexivity.
Qed.

(** X21.  A retry recovers.  When the first [n] tries of a district fail,
    with [n] below [try_max], and the next one succeeds, the loop leaves
    with the count [n] of failed tries and the records of the try that
    succeeded, after exactly [n + 1] requests of the district's URL. *)
Theorem RKI_retry_recovers
    (try_max : Z) (n : nat) (url : string) (data_flat : option (list RKI.attributes))
    (s s' : RKI.state World) (features : list RKI.attributes) :
  Z.of_nat n < try_max ->
  all_tries_fail n url s ->
  try_query url (after_tries n url s) = (Some features, s') ->
  while_tries try_max 0 url data_flat s = (Z.of_nat n, Some features, s')
  /\ RKI.requests s' = RKI.requests s ++ repeat url (S n).
Proof.
  intros Hlt Hfail Hok.
  exact (while_tries_recovers n try_max 0 url data_flat s features s' Hlt Hfail Hok).
Qed.

(** X22.  The snapshot does not cover a failing index query.  When the
    index query itself cannot be opened or decoded, the call raises at
    once: no district is queried, the snapshot is not read, nothing is
    printed and [self.data] keeps its value. *)
Theorem RKI_index_failure_is_fatal
    (try_max : Z) (s : RKI.state World) (w : World) :
  urlopen_ids RKI.url_id (RKI.world s) = (None, w) ->
  download_all_available_data try_max s = (Raised URLError, after_index_query s w)
  /\ RKI.requests (after_index_query s w) = RKI.requests s ++ [RKI.url_id]
  /\ RKI.stdout (after_index_query s w) = RKI.stdout s
  /\ RKI.data (after_index_query s w) = RKI.data s.
Proof.
  intros Hopen. unfold RKI.download_all_available_data, RKI.fetch_ids.
  rewrite Hopen. repeat split.
Qed.

End RKI_retries.

(** Witness of [RKI_retry_recovers]: two failures, then a reply. *)
Lemma RKI_retry_recovers_witness :
  fst (RKI.while_tries nat Sample.third_time_lucky 10 0 (RKI.url_str Sample.muenchen) None
         Sample.counting)
  = (2, Some [RKI.attrs (Sample.record "Bayern" "SK Muenchen" 5 0 0 1 1 1)]).
Proof.
  assert (Hlt : Z.of_nat 2 < 10) by (simpl; lia).
  refine (f_equal fst (proj1 (RKI_retry_recovers nat Sample.third_time_lucky 10 2
            (RKI.url_str Sample.muenchen) None Sample.counting _ _ Hlt _ _))).
  - simpl. auto.
  - reflexivity.
Defined.

(** Witness of [RKI_index_failure_is_fatal]. *)
Lemma RKI_index_failure_is_fatal_witness :
  RKI.download_all_available_data unit Sample.no_index Sample.every_district Sample.utc
    Sample.snapshot Sample.day_month_year "." 10 Sample.fresh
  = (Raised URLError, after_index_query Sample.fresh tt).
Proof.
  exact (proj1 (RKI_index_failure_is_fatal unit Sample.no_index Sample.every_district Sample.utc
                  Sample.snapshot Sample.day_month_year "." 10 Sample.fresh tt eq_refl)).
Defined.
